(** * Monthly aggregation pipeline: preprocess_financial.py and
      preprocess_turnover.py

    A shallow embedding of the two preprocessing scripts of the repository
    and the properties their specification states about them, followed by
    the modules that read the tables of preprocess_turnover.py: the layoff
    tables of layoff_treemap.py, layoff_map.py and app.py, and the monthly
    counts of layoff_timeline.py; and by a third script,
    preprocess_revenue.py, with the two weekly tables it saves.

    Conventions of the embedding.
    - A pandas [float64] is modelled by the rational it denotes ([Q]); the
      missing marker NaN is [None] (typed columns) or [NA] (frames with
      named columns).  Sums and means are exact and returned in lowest
      terms ([Qred]); the rounding of floating point is not modelled.
      preprocess_revenue.py is the exception: what it saves depends on the
      rounding, and its floats are kept abstract (see [Revenue.Float64]).
    - A timestamp is the integer pandas stores for [datetime64[ns]]:
      nanoseconds since 1970-01-01.  A monthly [Period] is its ordinal
      (months since 1970-01); [dt.to_timestamp()] re-encodes a period by
      the first instant of the month, which is injective, so tables keep
      the ordinal as the value of their [Month] column.
    - [DataFrame.sort_values] uses numpy's quicksort unless told otherwise;
      the order it gives to rows with equal sort keys is unspecified.  The
      embedding is parameterised by a [Sorter]: any function that returns a
      sorted permutation of its argument.
    - [groupby] (with its default [sort=True]) lists the groups by
      increasing key and keeps, inside a group, the order the rows had. *)

From Stdlib Require Import List ZArith QArith Bool String Ascii Lia.
From Stdlib Require Import DecimalString DecimalZ.
From Stdlib Require PrimFloat.
From Stdlib Require Import Permutation Sorted.
Import ListNotations.

Set Implicit Arguments.

(** ** Time *)

Definition Timestamp := Z.

Definition ns_per_day : Z := 86400000000000.

(** [Series.dt.date]: the calendar day, as a day number since 1970-01-01. *)
Definition dt_date (t : Timestamp) : Z := (t / ns_per_day)%Z.

(** Year, month and day of a day number (proleptic Gregorian calendar). *)
Definition civil_from_days (d : Z) : Z * Z * Z :=
  (let z := d + 719468 in
   let era := z / 146097 in
   let doe := z - era * 146097 in
   let yoe := (doe - doe / 1460 + doe / 36524 - doe / 146096) / 365 in
   let doy := doe - (365 * yoe + yoe / 4 - yoe / 100) in
   let mp := (5 * doy + 2) / 153 in
   let day := doy - (153 * mp + 2) / 5 + 1 in
   let m := if mp <? 10 then mp + 3 else mp - 9 in
   let y := yoe + era * 400 in
   (if m <=? 2 then y + 1 else y, m, day))%Z.

(** The day number of a calendar date, used to write inputs down. *)
Definition days_from_civil (y m d : Z) : Z :=
  (let y' := if m <=? 2 then y - 1 else y in
   let era := y' / 400 in
   let yoe := y' - era * 400 in
   let mp := if m <=? 2 then m + 9 else m - 3 in
   let doy := (153 * mp + 2) / 5 + d - 1 in
   let doe := yoe * 365 + yoe / 4 - yoe / 100 + doy in
   era * 146097 + doe - 719468)%Z.

(** A timestamp from a date and an hour of that day. *)
Definition at_hour (y m d h : Z) : Timestamp :=
  (days_from_civil y m d * ns_per_day + h * 3600000000000)%Z.

(** [Series.dt.to_period("M")] on a day number and on a timestamp. *)
Definition period_M_of_date (d : Z) : Z :=
  (let '(y, m, _) := civil_from_days d in (y - 1970) * 12 + (m - 1))%Z.

Definition to_period_M (t : Timestamp) : Z := period_M_of_date (dt_date t).

(** The ordinal of a month, used to write expected results down. *)
Definition month_ordinal (y m : Z) : Z := ((y - 1970) * 12 + (m - 1))%Z.

(** ** Sorting *)

(** What [sort_values(by)] guarantees: the rows come back permuted and in
    non-decreasing order of the sort column. Nothing is promised about rows
    whose sort keys are equal. *)
Class Sorter : Type := {
  sort_values : forall A : Type, (A -> Z) -> list A -> list A;
  sort_values_perm : forall (A : Type) (by_ : A -> Z) (l : list A),
      Permutation (sort_values by_ l) l;
  sort_values_sorted : forall (A : Type) (by_ : A -> Z) (l : list A),
      StronglySorted (fun a b => (by_ a <= by_ b)%Z) (sort_values by_ l)
}.

(** One such function, used to run the pipeline on concrete inputs. *)
Fixpoint insert_by (A : Type) (by_ : A -> Z) (x : A) (l : list A) : list A :=
  match l with
  | [] => [x]
  | y :: t => if (by_ x <? by_ y)%Z then x :: l else y :: insert_by by_ x t
  end.

Definition insertion_sort (A : Type) (by_ : A -> Z) (l : list A) : list A :=
  fold_right (insert_by by_) [] l.

(** ** Grouping *)

(** Group keys are pairs of integers throughout: (participantId, Month),
    (participantId, date), (employerId, month). *)
Definition Key : Type := (Z * Z)%type.

Definition key_eqb (a b : Key) : bool :=
  ((fst a =? fst b) && (snd a =? snd b))%Z.

Definition key_ltb (a b : Key) : bool :=
  ((fst a <? fst b) || ((fst a =? fst b) && (snd a <? snd b)))%Z.

Definition Key_eq_dec (a b : Key) : {a = b} + {a <> b}.
Proof. decide equality; apply Z.eq_dec. Defined.

Fixpoint insert_key (k : Key) (l : list Key) : list Key :=
  match l with
  | [] => [k]
  | k' :: t => if key_ltb k k' then k :: l else k' :: insert_key k t
  end.

(** The distinct keys, in increasing lexicographic order. *)
Definition group_keys (l : list Key) : list Key :=
  fold_right insert_key [] (nodup Key_eq_dec l).

Definition groupby (A : Type) (key : A -> Key) (rows : list A)
  : list (Key * list A) :=
  map (fun k => (k, filter (fun r => key_eqb k (key r)) rows))
      (group_keys (map key rows)).

(** ** Aggregations *)

(** [first] and [last] of a groupby skip missing values; [mean] and [sum]
    skip them too, [count] counts the values that are present. *)
Fixpoint agg_first (A : Type) (l : list (option A)) : option A :=
  match l with
  | [] => None
  | Some v :: _ => Some v
  | None :: t => agg_first t
  end.

Definition agg_last (A : Type) (l : list (option A)) : option A :=
  agg_first (rev l).

Fixpoint present (A : Type) (l : list (option A)) : list A :=
  match l with
  | [] => []
  | Some v :: t => v :: present t
  | None :: t => present t
  end.

Definition Qsum (l : list Q) : Q := fold_right Qplus 0%Q l.

Definition agg_sum (l : list (option Q)) : Q := Qred (Qsum (present l)).

Definition agg_count (A : Type) (l : list (option A)) : nat :=
  List.length (present l).

Definition agg_mean (l : list (option Q)) : option Q :=
  match present l with
  | [] => None
  | vs => Some (Qred (Qsum vs / inject_Z (Z.of_nat (List.length vs))))
  end.

(** The observations in a list of rows: the time and the value of the rows
    whose value is present. *)
Fixpoint observations (A B : Type) (time : A -> Z) (value : A -> option B)
         (l : list A) : list (Z * B) :=
  match l with
  | [] => []
  | r :: t =>
      match value r with
      | Some v => (time r, v) :: observations time value t
      | None => observations time value t
      end
  end.

(** [v] is the value of an observation with the least (greatest) time. *)
Definition earliest (B : Type) (obs : list (Z * B)) (v : B) : Prop :=
  exists t, In (t, v) obs /\ forall t' v', In (t', v') obs -> (t <= t')%Z.

Definition latest (B : Type) (obs : list (Z * B)) (v : B) : Prop :=
  exists t, In (t, v) obs /\ forall t' v', In (t', v') obs -> (t' <= t)%Z.

(** * preprocess_financial.py, section 1: monthly balances *)

Module Balances.

(** One row of a ParticipantStatusLogs file as [read_csv] returns it with
    [usecols = balance_cols_to_keep]: an unparseable or empty timestamp is
    NaT, an empty balance is NaN. *)
Record LogRow : Type := {
  timestamp : option Timestamp;
  participantId : Z;
  availableBalance : option Q
}.

(** A log file: [None] when [read_csv] raises (the file is skipped by the
    [except] clause), the rows otherwise. *)
Definition LogFile : Type := option (list LogRow).

(** A row of [df_log_chunk] after lines 68-69: the timestamp is there and
    the [Month] column has been added. *)
Record ChunkRow : Type := {
  c_timestamp : Timestamp;
  c_participantId : Z;
  c_availableBalance : option Q;
  c_Month : Z
}.

Definition chunk_key (r : ChunkRow) : Key := (c_participantId r, c_Month r).

(** Lines 68-69: [dropna(subset=["timestamp"])], then the [Month] column. *)
Fixpoint with_month (rows : list LogRow) : list ChunkRow :=
  match rows with
  | [] => []
  | r :: t =>
      match timestamp r with
      | Some ts =>
          {| c_timestamp := ts;
             c_participantId := participantId r;
             c_availableBalance := availableBalance r;
             c_Month := to_period_M ts |} :: with_month t
      | None => with_month t
      end
  end.

(** A row of [chunk_summary]: the two group keys and the three named
    aggregations of line 75-79. *)
Record ChunkSummaryRow : Type := {
  s_participantId : Z;
  s_Month : Z;
  chunk_start_balance : option Q;
  chunk_end_balance : option Q;
  chunk_mean_balance : option Q
}.

Definition summary_key (r : ChunkSummaryRow) : Key :=
  (s_participantId r, s_Month r).

Definition chunk_summary_columns : list string :=
  ["participantId"; "Month"; "chunk_start_balance"; "chunk_end_balance";
   "chunk_mean_balance"]%string.

(** A row of [monthly_balances_df] (lines 105-114). *)
Record BalanceRow : Type := {
  b_participantId : Z;
  b_Month : Z;
  start_balance : option Q;
  end_balance : option Q;
  mean_balance_approx : option Q
}.

Definition balance_key (r : BalanceRow) : Key :=
  (b_participantId r, b_Month r).

(** The [agg] of lines 75-79 on one group of a chunk. *)
Definition summarize_chunk_group (g : Key * list ChunkRow)
  : ChunkSummaryRow :=
  let balances := map c_availableBalance (snd g) in
  {| s_participantId := fst (fst g);
     s_Month := snd (fst g);
     chunk_start_balance := agg_first balances;
     chunk_end_balance := agg_last balances;
     chunk_mean_balance := agg_mean balances |}.

(** The [agg] of lines 108-112 on one group of chunk summaries. *)
Definition summarize_month_group (g : Key * list ChunkSummaryRow)
  : BalanceRow :=
  {| b_participantId := fst (fst g);
     b_Month := snd (fst g);
     start_balance := agg_first (map chunk_start_balance (snd g));
     end_balance := agg_last (map chunk_end_balance (snd g));
     mean_balance_approx := agg_mean (map chunk_mean_balance (snd g)) |}.

(** The dtype of a [Month] column: a frame built from column names alone
    has [object] columns; [to_period("M")] gives [period[M]]. *)
Inductive MonthDtype : Type := object_dtype | period_dtype.

(** [monthly_balances_df]: its column names, the dtype of [Month] and its
    rows. *)
Record BalanceFrame : Type := {
  bf_columns : list string;
  bf_Month_dtype : MonthDtype;
  bf_rows : list BalanceRow
}.

Section WithSorter.
Context {S : Sorter}.

(** Lines 72-81. *)
Definition chunk_summary (df_log_chunk : list ChunkRow)
  : list ChunkSummaryRow :=
  map summarize_chunk_group
      (groupby chunk_key (sort_values c_timestamp df_log_chunk)).

(** The body of the loop of lines 56-92 for one file: what the file
    contributes to [monthly_balance_summaries_list] ([[]] when nothing is
    appended). *)
Definition process_log_file (f : LogFile) : list ChunkSummaryRow :=
  match f with
  | None => []
  | Some rows =>
      if (match rows with [] => true | _ => false end)
         || forallb (fun r => match timestamp r with
                              | None => true | Some _ => false end) rows
      then []
      else chunk_summary (with_month rows)
  end.

(** Lines 56-92: the summaries that were appended, in file order. *)
Definition monthly_balance_summaries_list (log_files : list LogFile)
  : list (list ChunkSummaryRow) :=
  filter (fun s => match s with [] => false | _ => true end)
         (map process_log_file log_files).

(** Lines 102-114, for a non-empty list of summaries. *)
Definition combine_balances (summaries : list (list ChunkSummaryRow))
  : list BalanceRow :=
  let df_combined := List.concat summaries in
  map summarize_month_group
      (groupby summary_key (sort_values s_Month df_combined)).

(** Lines 95-117: the table of monthly balances before line 119. *)
Definition monthly_balances_df (log_files : list LogFile) : BalanceFrame :=
  match monthly_balance_summaries_list log_files with
  | [] =>
      {| bf_columns :=
           ["participantId"; "Month"; "start_balance"; "end_balance";
            "mean_balance"]%string;
         bf_Month_dtype := object_dtype;
         bf_rows := [] |}
  | summaries =>
      {| bf_columns :=
           ["participantId"; "Month"; "start_balance"; "end_balance";
            "mean_balance_approx"]%string;
         bf_Month_dtype := period_dtype;
         bf_rows := combine_balances summaries |}
  end.

End WithSorter.

(** The row of a balance table for a key, if there is one. *)
Definition lookup_balance (k : Key) (t : list BalanceRow)
  : option BalanceRow :=
  find (fun r => key_eqb k (balance_key r)) t.

(** The rows of a file that belong to an EntityPeriodKey: they have a
    timestamp, and it falls in the period. *)
Definition rows_of_key (k : Key) (f : LogFile) : list ChunkRow :=
  match f with
  | None => []
  | Some rows => filter (fun r => key_eqb k (chunk_key r)) (with_month rows)
  end.

(** The readings of a key: timestamp and balance of the rows that carry
    a balance. *)
Definition readings (rows : list ChunkRow) : list (Timestamp * Q) :=
  observations c_timestamp c_availableBalance rows.

Definition log_readings (k : Key) (log_files : list LogFile)
  : list (Timestamp * Q) :=
  flat_map (fun f => readings (rows_of_key k f)) log_files.

End Balances.

(** * Frames with named columns *)

(** The value of one cell.  [NA] is the missing marker (NaN, NaT, None,
    pd.NA alike). *)
Inductive cell : Type :=
| NA
| Int (z : Z)
| Flt (q : Q)
| Str (s : string)
| Bln (b : bool).

(** A row gives a cell to column names; a column it does not mention is
    missing in that row.  That is how the gaps left by a join are stored. *)
Definition Row : Type := list (string * cell).

Record DataFrame : Type := {
  columns : list string;
  rows : list Row
}.

(** [pd.DataFrame()]. *)
Definition empty_frame : DataFrame := {| columns := []; rows := [] |}.

(** [DataFrame.empty]: one of the two axes has length 0. *)
Definition is_empty (df : DataFrame) : bool :=
  match columns df, rows df with
  | _ :: _, _ :: _ => false
  | _, _ => true
  end.

Definition has_column (c : string) (cols : list string) : bool :=
  existsb (String.eqb c) cols.

Fixpoint get (c : string) (r : Row) : cell :=
  match r with
  | [] => NA
  | (c', v) :: t => if String.eqb c c' then v else get c t
  end.

Fixpoint set (c : string) (v : cell) (r : Row) : Row :=
  match r with
  | [] => [(c, v)]
  | (c', v') :: t =>
      if String.eqb c c' then (c, v) :: t else (c', v') :: set c v t
  end.

(** [df[c] = f(row)]: the column is replaced where it stands, or added
    after the others. *)
Definition assign (c : string) (f : Row -> cell) (df : DataFrame)
  : DataFrame :=
  {| columns := if has_column c (columns df) then columns df
                else columns df ++ [c];
     rows := map (fun r => set c (f r) r) (rows df) |}.

Definition fillna (v : cell) (x : cell) : cell :=
  match x with NA => v | _ => x end.

(** [df[cols]] for columns that are there. *)
Definition select (cols : list string) (df : DataFrame) : DataFrame :=
  {| columns := cols;
     rows := map (fun r => map (fun c => (c, get c r)) cols) (rows df) |}.

Definition cell_eqb (a b : cell) : bool :=
  match a, b with
  | NA, NA => true
  | Int x, Int y => (x =? y)%Z
  | Flt x, Flt y => Qeq_bool x y
  | Str x, Str y => String.eqb x y
  | Bln x, Bln y => Bool.eqb x y
  | _, _ => false
  end.

(** Two rows agree on the join columns. *)
Definition same_key (on : list string) (l r : Row) : bool :=
  forallb (fun c => cell_eqb (get c l) (get c r)) on.

(** [drop_duplicates()] on a frame restricted to the columns [cols]: the
    first row of each key is kept. *)
Fixpoint drop_duplicate_rows (cols : list string) (l : list Row) : list Row :=
  match l with
  | [] => []
  | r :: t =>
      r :: filter (fun r' => negb (same_key cols r r'))
                  (drop_duplicate_rows cols t)
  end.

Definition drop_duplicates (df : DataFrame) : DataFrame :=
  {| columns := columns df;
     rows := drop_duplicate_rows (columns df) (rows df) |}.

(** A left row joined with a right row: the cells of the left row, then the
    cells of the right row for the columns that are not join columns.  (The
    frames merged by the script share no other column name; the suffixes
    pandas adds to clashing names are not modelled.) *)
Definition joined (on : list string) (l r : Row) : Row :=
  l ++ filter (fun e => negb (has_column (fst e) on)) r.

Definition merged_columns (on : list string) (L R : DataFrame)
  : list string :=
  columns L ++ filter (fun c => negb (has_column c on)) (columns R).

Definition left_rows (on : list string) (L R : DataFrame) : list Row :=
  flat_map (fun l =>
              match filter (same_key on l) (rows R) with
              | [] => [l]
              | ms => map (joined on l) ms
              end) (rows L).

(** [pd.merge(L, R, on=on, how="left")]. *)
Definition merge_left (on : list string) (L R : DataFrame) : DataFrame :=
  {| columns := merged_columns on L R;
     rows := left_rows on L R |}.

(** [pd.merge(L, R, on=on, how="outer")]: the rows of the left merge and
    the rows of [R] that no row of [L] matches.  pandas returns them
    ordered by key; the order of the rows of a merge is not reproduced, no
    statement below depends on it. *)
Definition merge_outer (on : list string) (L R : DataFrame) : DataFrame :=
  {| columns := merged_columns on L R;
     rows := left_rows on L R
             ++ filter (fun r => negb (existsb (fun l => same_key on l r)
                                               (rows L)))
                       (rows R) |}.

(** The number in a cell, for row-wise sums. *)
Definition cell_number (x : cell) : option Q :=
  match x with
  | Flt q => Some q
  | Int z => Some (inject_Z z)
  | _ => None
  end.

(** [df[cols].sum(axis=1)] on one row. *)
Definition sum_axis1 (cols : list string) (r : Row) : cell :=
  Flt (agg_sum (map (fun c => cell_number (get c r)) cols)).

(** ** Strings *)

(** [needle in hay]. *)
Fixpoint is_infix (needle hay : string) : bool :=
  String.prefix needle hay
  || match hay with
     | EmptyString => false
     | String _ t => is_infix needle t
     end.

(** [s.replace(old, new)] for a non-empty [old]: the occurrences are
    replaced from left to right, [skip] counts the characters of an
    occurrence that is being replaced. *)
Fixpoint replace_from (old new : string) (skip : nat) (s : string) : string :=
  match s with
  | EmptyString => EmptyString
  | String c t =>
      match skip with
      | Datatypes.S k => replace_from old new k t
      | O =>
          if String.prefix old s
          then String.append new
                 (replace_from old new (String.length old - 1) t)
          else String c (replace_from old new 0 t)
      end
  end.

Definition replace (old new s : string) : string :=
  replace_from old new 0 s.

Fixpoint insert_string (s : string) (l : list string) : list string :=
  match l with
  | [] => [s]
  | s' :: t =>
      if String.leb s s' then s :: l else s' :: insert_string s t
  end.

(** Python's [sorted] on strings. *)
Definition sorted_strings (l : list string) : list string :=
  fold_right insert_string [] l.

(** The distinct values of a column, in increasing order. *)
Definition unique_strings (l : list string) : list string :=
  sorted_strings (nodup string_dec l).

Definition unique_ints (l : list Z) : list Z :=
  insertion_sort (fun z => z) (nodup Z.eq_dec l).

(** [str(n)] for an integer. *)
Definition string_of_Z (z : Z) : string :=
  DecimalString.NilZero.string_of_int (Z.to_int z).

(** * preprocess_financial.py, section 2: the financial journal *)

Module Journal.

(** One row of FinancialJournal.csv as [read_csv] returns it: a
    timestamp that may be NaT, an amount that may be NaN; the category is
    taken to be present in every row. *)
Record JournalRow : Type := {
  j_timestamp : option Timestamp;
  j_participantId : Z;
  j_category : string;
  j_amount : option Q
}.

(** The journal: [None] when the file is absent or [read_csv] raises. *)
Definition JournalFile : Type := option (list JournalRow).

(** A row of [df_financial] after lines 140-141. *)
Record Transaction : Type := {
  t_participantId : Z;
  t_Month : Z;
  t_category : string;
  t_amount : option Q
}.

Definition transaction_key (t : Transaction) : Key :=
  (t_participantId t, t_Month t).

Fixpoint with_month (l : list JournalRow) : list Transaction :=
  match l with
  | [] => []
  | r :: t =>
      match j_timestamp r with
      | Some ts =>
          {| t_participantId := j_participantId r;
             t_Month := to_period_M ts;
             t_category := j_category r;
             t_amount := j_amount r |} :: with_month t
      | None => with_month t
      end
  end.

(** Lines 144-146. *)
Definition income_mask (t : Transaction) : bool :=
  String.eqb (t_category t) "Wage".

Definition df_income_trans (df_financial : list Transaction)
  : list Transaction := filter income_mask df_financial.

Definition df_expense_trans (df_financial : list Transaction)
  : list Transaction := filter (fun t => negb (income_mask t)) df_financial.

(** Lines 150-154. *)
Definition income_row (g : Key * list Transaction) : Row :=
  [ ("participantId", Int (fst (fst g)));
    ("Month", Int (snd (fst g)));
    ("logged_income_total", Flt (agg_sum (map t_amount (snd g))));
    ("logged_income_count",
     Flt (inject_Z (Z.of_nat (agg_count (map t_amount (snd g)))))) ]%string.

Definition income_frame (income : list Transaction) : DataFrame :=
  match income with
  | [] => empty_frame
  | _ =>
      {| columns := ["participantId"; "Month"; "logged_income_total";
                     "logged_income_count"]%string;
         rows := map income_row (groupby transaction_key income) |}
  end.

(** The transactions of one cell of the grouping of lines 159-161. *)
Definition cell_transactions (expenses : list Transaction)
           (p m : Z) (c : string) : list Transaction :=
  filter (fun t => key_eqb (p, m) (transaction_key t)
                   && String.eqb c (t_category t)) expenses.

Definition total_amount (expenses : list Transaction)
           (p m : Z) (c : string) : Q :=
  agg_sum (map t_amount (cell_transactions expenses p m c)).

Definition transaction_count (expenses : list Transaction)
           (p m : Z) (c : string) : Q :=
  inject_Z (Z.of_nat (agg_count (map t_amount
                                     (cell_transactions expenses p m c)))).

(** Lines 166-170: the flattened column names. *)
Definition amount_column (c : string) : string :=
  String.append "logged_expense" (String.append "_" c).

Definition count_column (c : string) : string :=
  String.append "logged_count" (String.append "_" c).

(** Lines 159-171.  [category] is a categorical column and the grouping
    asks for [observed=False]: the result has one entry for every
    combination of a participant of the expenses, a month of the expenses
    and a category of the journal, whether or not a transaction bears it;
    [sum] and [count] are 0 on the combinations without transactions.
    [unstack] then gives one row per (participant, month) and one pair of
    columns per category. *)
Definition pivot_row (expenses : list Transaction) (categories : list string)
           (p m : Z) : Row :=
  [ ("participantId", Int p); ("Month", Int m) ]%string
  ++ map (fun c => (amount_column c, Flt (total_amount expenses p m c)))
         categories
  ++ map (fun c => (count_column c, Flt (transaction_count expenses p m c)))
         categories.

Definition unstacked (expenses : list Transaction) (categories : list string)
  : DataFrame :=
  {| columns := ["participantId"; "Month"]%string
                ++ map amount_column categories
                ++ map count_column categories;
     rows :=
       flat_map (fun p =>
                   map (pivot_row expenses categories p)
                       (unique_ints (map t_Month expenses)))
                (unique_ints (map t_participantId expenses)) |}.

(** Line 174. *)
Definition expense_columns (df : DataFrame) : list string :=
  filter (String.prefix "logged_expense_") (columns df).

(** Line 180. *)
Definition count_columns (df : DataFrame) : list string :=
  filter (String.prefix "logged_count_") (columns df).

(** Lines 178-179. *)
Definition with_expense_total (df : DataFrame) : DataFrame :=
  match expense_columns df with
  | [] => df
  | cols => assign "logged_expense_total" (sum_axis1 cols) df
  end.

(** Lines 180-182. *)
Definition with_expense_count (df : DataFrame) : DataFrame :=
  match count_columns df with
  | [] => df
  | cols => assign "logged_expense_count" (sum_axis1 cols) df
  end.

(** Lines 158-182, for a non-empty [df_expense_trans]. *)
Definition expenses_pivot (expenses : list Transaction)
           (categories : list string) : DataFrame :=
  with_expense_count (with_expense_total (unstacked expenses categories)).

(** What section 2 leaves behind: [df_income], [df_expenses_pivot] and
    [logged_expense_cols]. *)
Record JournalTables : Type := {
  df_income : DataFrame;
  df_expenses_pivot : DataFrame;
  logged_expense_cols : list string
}.

Definition no_journal : JournalTables :=
  {| df_income := empty_frame;
     df_expenses_pivot := empty_frame;
     logged_expense_cols := [] |}.

(** Lines 126-192.  The categories of the categorical column are the
    distinct values of the whole file, sorted. *)
Definition process_journal (f : JournalFile) : JournalTables :=
  match f with
  | None => no_journal
  | Some [] => no_journal
  | Some file_rows =>
      let categories := unique_strings (map j_category file_rows) in
      let df_financial := with_month file_rows in
      let pivot :=
        match df_expense_trans df_financial with
        | [] => empty_frame
        | expenses => expenses_pivot expenses categories
        end in
      {| df_income := income_frame (df_income_trans df_financial);
         df_expenses_pivot := pivot;
         logged_expense_cols :=
           match df_expense_trans df_financial with
           | [] => []
           | _ => expense_columns (unstacked (df_expense_trans df_financial)
                                     categories)
           end |}
  end.

End Journal.

(** * preprocess_financial.py, section 3: demographics *)

Module Demographics.

(** A field of Participants.csv whose column has no declared dtype: empty,
    a number, or a text that is not a number. *)
Inductive CsvValue : Type :=
| Empty
| Number (x : Q)
| Text (s : string).

(** One row of Participants.csv ([usecols = demographic_cols]). *)
Record ParticipantRow : Type := {
  p_participantId : Z;
  householdSize : CsvValue;
  haveKids : option bool;
  age : CsvValue;
  educationLevel : option string;
  interestGroup : option string;
  joviality : CsvValue
}.

(** [pd.to_numeric(_, errors="coerce")]. *)
Definition to_numeric (v : CsvValue) : option Q :=
  match v with
  | Number x => Some x
  | _ => None
  end.

(** [astype("Int64")] on one value: the outer [None] is the TypeError
    pandas raises for a float that is not a whole number. *)
Definition as_Int64 (x : option Q) : option (option Z) :=
  match x with
  | None => Some None
  | Some q =>
      if (Z.pos (Qden (Qred q)) =? 1)%Z
      then Some (Some (Qnum (Qred q)))
      else None
  end.

Definition integral (v : CsvValue) : bool :=
  match as_Int64 (to_numeric v) with
  | Some _ => true
  | None => false
  end.

Definition whole (v : CsvValue) : option Z :=
  match as_Int64 (to_numeric v) with
  | Some z => z
  | None => None
  end.

(** A bin edge of [pd.cut]. *)
Inductive Edge : Type :=
| NegInf
| Finite (q : Q)
| PosInf.

Definition edge_leb (e : Edge) (x : Q) : bool :=
  match e with
  | NegInf => true
  | Finite b => Qle_bool b x
  | PosInf => false
  end.

(** [bins.searchsorted(x, side="right")] for increasing bins: the number
    of edges that are at most [x]. *)
Definition searchsorted_right (bins : list Edge) (x : Q) : nat :=
  List.length (filter (fun e => edge_leb e x) bins).

(** [pd.cut(x, bins, labels, right=False)] on one value: the label of the
    interval [[b_i, b_i+1)] that holds [x], nothing for a missing value and
    for a value outside the bins. *)
Definition cut (bins : list Edge) (labels : list string) (x : option Q)
  : option string :=
  match x with
  | None => None
  | Some v =>
      let ids := searchsorted_right bins v in
      if (ids =? 0)%nat || (ids =? List.length bins)%nat then None
      else nth_error labels (ids - 1)
  end.

(** [.cat.add_categories("Unknown").fillna("Unknown")]. *)
Definition or_unknown (x : option string) : string :=
  match x with
  | Some s => s
  | None => "Unknown"%string
  end.

(** Lines 209-215. *)
Definition age_bins (current_year : Z) : list Z :=
  [1900; 1965; 1981; 1997; current_year + 1]%Z.

Definition age_labels : list string :=
  ["Boomer+ (<1965)"; "Gen X (1965-80)"; "Millennial (1981-96)";
   "Gen Z (1997+)"]%string.

Definition birthYear (current_year : Z) (age : option Z) : option Z :=
  option_map (fun a => (current_year - a)%Z) age.

Definition age_group (current_year : Z) (age : option Z) : string :=
  or_unknown
    (cut (map (fun b => Finite (inject_Z b)) (age_bins current_year))
         age_labels
         (option_map inject_Z (birthYear current_year age))).

(** [pd.cut] refuses bins that do not increase. *)
Fixpoint increasing (l : list Z) : bool :=
  match l with
  | a :: (b :: _) as t => (a <? b)%Z && increasing t
  | _ => true
  end.

(** Lines 218-225. *)
Definition joviality_bins : list Edge :=
  [NegInf; Finite (33 # 100); Finite (66 # 100); PosInf].

Definition joviality_labels : list string :=
  ["Low (0-0.33)"; "Medium (0.33-0.66)"; "High (0.66+)"]%string.

Definition joviality_group (joviality : CsvValue) : string :=
  or_unknown (cut joviality_bins joviality_labels (to_numeric joviality)).

(** Lines 228-235. *)
Definition household_size_replacements : list (string * string) :=
  [("5", "5+"); ("6", "5+"); ("7", "5+"); ("8", "5+");
   ("<NA>", "Unknown")]%string.

Fixpoint replace_value (d : list (string * string)) (s : string) : string :=
  match d with
  | [] => s
  | (k, v) :: t => if String.eqb s k then v else replace_value t s
  end.

Definition household_size_group (householdSize_numeric : option Z) : string :=
  replace_value household_size_replacements
    (match householdSize_numeric with
     | Some z => string_of_Z z
     | None => "<NA>"%string
     end).

(** Lines 238-241. *)
Definition haveKids_group (haveKids : option bool) : string :=
  match haveKids with
  | Some true => "Has Kids"%string
  | Some false => "No Kids"%string
  | None => "Unknown"%string
  end.

Definition raw_cell (v : CsvValue) : cell :=
  match v with
  | Empty => NA
  | Number x => Flt x
  | Text s => Str s
  end.

Definition numeric_cell (x : option Q) : cell :=
  match x with
  | Some q => Flt q
  | None => NA
  end.

Definition participant_columns : list string :=
  ["participantId"; "householdSize"; "haveKids"; "age"; "educationLevel";
   "interestGroup"; "joviality"; "age_group"; "joviality_group";
   "household_size_group"; "haveKids_group"]%string.

(** The row of [participants_df] (lines 247-252) of one participant. *)
Definition participant_row (current_year : Z) (r : ParticipantRow) : Row :=
  [ ("participantId", Int (p_participantId r));
    ("householdSize", raw_cell (householdSize r));
    ("haveKids", match haveKids r with Some b => Bln b | None => NA end);
    ("age", numeric_cell (to_numeric (age r)));
    ("educationLevel", Str (or_unknown (educationLevel r)));
    ("interestGroup", Str (or_unknown (interestGroup r)));
    ("joviality", numeric_cell (to_numeric (joviality r)));
    ("age_group", Str (age_group current_year (whole (age r))));
    ("joviality_group", Str (joviality_group (joviality r)));
    ("household_size_group",
     Str (household_size_group (whole (householdSize r))));
    ("haveKids_group", Str (haveKids_group (haveKids r))) ]%string.

(** Lines 199-260.  The file is [None] when it is absent or cannot be
    read.  Whatever raises inside the [try] (a fractional age or household
    size, bins that do not increase) leaves [participants_df] empty. *)
Definition process_participants (current_year : Z)
           (f : option (list ParticipantRow)) : DataFrame :=
  match f with
  | None => empty_frame
  | Some file_rows =>
      if increasing (age_bins current_year)
         && forallb (fun r => integral (age r) && integral (householdSize r))
                    file_rows
      then {| columns := participant_columns;
              rows := map (participant_row current_year) file_rows |}
      else empty_frame
  end.

End Demographics.

(** * preprocess_financial.py, sections 4 to 6: merge and output *)

Module Merge.

(** The exceptions that end the script. *)
Inductive Exn : Type :=
| AttributeError (message : string)
| KeyError (column : string)
| TypeError (column : string)
| ValueError (column : string).

(** How a run ends: the table handed to [to_csv], the [exit()] of line
    277 after its message, or an exception that nothing catches.  Only
    [Written] leaves an output file. *)
Inductive Outcome : Type :=
| Written (df_final : DataFrame)
| Exited (message : string)
| Raised (e : Exn).

Definition bind (A B : Type) (x : Exn + A) (f : A -> Exn + B) : Exn + B :=
  match x with
  | inl e => inl e
  | inr a => f a
  end.

(** A column computed row by row by a function that may fail. *)
Fixpoint traverse (A B : Type) (f : A -> option B) (l : list A)
  : option (list B) :=
  match l with
  | [] => Some []
  | x :: t =>
      match f x, traverse f t with
      | Some y, Some ys => Some (y :: ys)
      | _, _ => None
      end
  end.

Definition assign_partial (c : string) (f : Row -> option cell)
           (e : Exn) (df : DataFrame) : Exn + DataFrame :=
  match traverse (fun r => option_map (fun v => set c v r) (f r)) (rows df)
  with
  | Some rs =>
      inr {| columns := if has_column c (columns df) then columns df
                        else columns df ++ [c];
             rows := rs |}
  | None => inl e
  end.

Definition key_columns : list string := ["participantId"; "Month"]%string.

(** Lines 269-277: the table that defines the grid, [None] for the
    [exit()] of line 277. *)
Definition base_grid (monthly_balances_df df_expenses_pivot df_income
                      : DataFrame) : option DataFrame :=
  if negb (is_empty monthly_balances_df) then Some monthly_balances_df
  else if negb (is_empty df_expenses_pivot)
  then Some (drop_duplicates (select key_columns df_expenses_pivot))
  else if negb (is_empty df_income)
  then Some (drop_duplicates (select key_columns df_income))
  else None.

Definition no_data_message : string := "ERROR: No data available to merge.".

(** Lines 282-284. *)
Definition merge_demographics (df_merged participants_df : DataFrame)
  : DataFrame :=
  if negb (is_empty participants_df)
  then merge_left ["participantId"%string] df_merged participants_df
  else df_merged.

(** Lines 287-291. *)
Definition merge_income (df_merged df_income : DataFrame) : DataFrame :=
  if negb (is_empty df_income)
  then merge_outer key_columns df_merged df_income
  else assign "logged_income_count" (fun _ => Flt 0)
         (assign "logged_income_total" (fun _ => Flt 0) df_merged).

(** Lines 294-302. *)
Definition merge_expenses (df_merged df_expenses_pivot : DataFrame)
  : DataFrame :=
  if negb (is_empty df_expenses_pivot)
  then merge_outer key_columns df_merged df_expenses_pivot
  else assign "logged_expense_count" (fun _ => Flt 0)
         (assign "logged_expense_total" (fun _ => Flt 0) df_merged).

(** Lines 281-302. *)
Definition merge_sources (base participants_df df_income df_expenses_pivot
                          : DataFrame) : DataFrame :=
  merge_expenses
    (merge_income (merge_demographics base participants_df) df_income)
    df_expenses_pivot.

(** Lines 311-317. *)
Definition financial_fill_cols (logged_expense_cols : list string)
  : list string :=
  ["logged_income_total"; "logged_income_count";
   "logged_expense_total"; "logged_expense_count";
   "start_balance"; "end_balance"; "mean_balance_approx"]%string
  ++ logged_expense_cols
  ++ map (replace "expense" "count") logged_expense_cols.

(** The body of the loops of lines 319-321 and 328-333. *)
Definition fill_column (v : cell) (df : DataFrame) (col : string)
  : DataFrame :=
  if has_column col (columns df)
  then assign col (fun r => fillna v (get col r)) df
  else df.

Definition fill_financial (logged_expense_cols : list string)
           (df : DataFrame) : DataFrame :=
  fold_left (fill_column (Flt 0)) (financial_fill_cols logged_expense_cols) df.

(** Lines 324-327. *)
Definition demo_group_cols : list string :=
  ["age_group"; "joviality_group"; "household_size_group";
   "haveKids_group"; "educationLevel"; "interestGroup"]%string.

Definition fill_demographics (df : DataFrame) : DataFrame :=
  fold_left (fill_column (Str "Unknown")) demo_group_cols df.

(** Line 336. *)
Definition derive_mean_balance (df : DataFrame) : Exn + DataFrame :=
  if has_column "mean_balance_approx" (columns df)
  then inr (assign "mean_balance" (get "mean_balance_approx") df)
  else inl (KeyError "mean_balance_approx").

(** The difference of two cells of numeric columns; [None] when an
    operand is not a number. *)
Definition cell_sub (a b : cell) : option cell :=
  match a, b with
  | (Int _ | Flt _ | NA), NA => Some NA
  | NA, (Int _ | Flt _) => Some NA
  | Bln _, _ | _, Bln _ | Str _, _ | _, Str _ => None
  | _, _ =>
      match cell_number a, cell_number b with
      | Some x, Some y => Some (Flt (Qred (x - y)))
      | _, _ => None
      end
  end.

(** Line 337. *)
Definition derive_net_change (df : DataFrame) : Exn + DataFrame :=
  if negb (has_column "logged_income_total" (columns df))
  then inl (KeyError "logged_income_total")
  else if negb (has_column "logged_expense_total" (columns df))
  then inl (KeyError "logged_expense_total")
  else assign_partial "net_logged_change"
         (fun r => cell_sub (get "logged_income_total" r)
                            (get "logged_expense_total" r))
         (TypeError "net_logged_change") df.

(** Lines 340-352. *)
Definition fixed_final_cols : list string :=
  ["participantId"; "Month";
   "age"; "age_group"; "educationLevel"; "householdSize";
   "household_size_group"; "haveKids"; "haveKids_group"; "interestGroup";
   "joviality"; "joviality_group";
   "start_balance"; "end_balance"; "mean_balance";
   "logged_income_total"; "logged_income_count";
   "logged_expense_total"; "logged_expense_count";
   "net_logged_change"]%string.

Definition final_cols (logged_expense_cols : list string) : list string :=
  fixed_final_cols ++ sorted_strings logged_expense_cols.

(** Line 357. *)
Definition default_value (col : string) : cell :=
  if existsb (fun k => is_infix k col)
             ["total"; "balance"; "change"; "count"]%string
  then Flt 0
  else Str "Unknown".

(** The body of the loop of lines 354-357. *)
Definition add_missing_column (df : DataFrame) (col : string) : DataFrame :=
  if has_column col (columns df) then df
  else assign col (fun _ => default_value col) df.

(** [astype(int)] on one cell: a float is truncated towards zero, a
    missing value or a text raises. *)
Definition astype_int (x : cell) : option cell :=
  match x with
  | Flt q => Some (Int (Z.quot (Qnum q) (Z.pos (Qden q))))
  | Int z => Some (Int z)
  | Bln b => Some (Int (if b then 1 else 0))
  | NA => None
  | Str _ => None
  end.

(** The body of the loop of lines 362-363. *)
Definition cast_count_column (df : Exn + DataFrame) (col : string)
  : Exn + DataFrame :=
  bind df (fun df => assign_partial col (fun r => astype_int (get col r))
                       (ValueError col) df).

Definition cast_counts (df_final : DataFrame) : Exn + DataFrame :=
  fold_left cast_count_column
            (filter (is_infix "count") (columns df_final))
            (inr df_final).

(** Lines 310-363: from [df_merged] to [df_final]. *)
Definition post_process (logged_expense_cols : list string)
           (df_merged : DataFrame) : Exn + DataFrame :=
  bind (derive_mean_balance
          (fill_demographics (fill_financial logged_expense_cols df_merged)))
       (fun df =>
  bind (derive_net_change df)
       (fun df =>
  cast_counts
    (select (final_cols logged_expense_cols)
       (fold_left add_missing_column (final_cols logged_expense_cols) df)))).

(** Sections 4 to 6 of the script, from the tables of sections 1 to 3. *)
Definition merge_and_finalize
           (monthly_balances_df df_expenses_pivot df_income participants_df
            : DataFrame) (logged_expense_cols : list string) : Outcome :=
  match base_grid monthly_balances_df df_expenses_pivot df_income with
  | None => Exited no_data_message
  | Some base =>
      match post_process logged_expense_cols
              (merge_sources base participants_df df_income
                 df_expenses_pivot)
      with
      | inl e => Raised e
      | inr df_final => Written df_final
      end
  end.

End Merge.

(** * preprocess_financial.py, the whole script *)

Module Financial.
Import Balances Journal Demographics Merge.

Definition optional_cell (x : option Q) : cell :=
  match x with
  | Some q => Flt q
  | None => NA
  end.

Definition balance_row (r : BalanceRow) : Row :=
  [ ("participantId", Int (b_participantId r));
    ("Month", Int (b_Month r));
    ("start_balance", optional_cell (start_balance r));
    ("end_balance", optional_cell (end_balance r));
    ("mean_balance_approx", optional_cell (mean_balance_approx r)) ]%string.

(** Line 119, [monthly_balances_df["Month"].dt.to_timestamp()].  The
    [.dt] accessor exists on datetime-like columns only: on the [object]
    column of a frame built from column names alone pandas raises
    AttributeError.  On a period column the months are re-encoded and the
    rows are otherwise unchanged. *)
Definition month_to_timestamp (bf : BalanceFrame) : Exn + DataFrame :=
  match bf_Month_dtype bf with
  | object_dtype =>
      inl (AttributeError "Can only use .dt accessor with datetimelike values")
  | period_dtype =>
      inr {| columns := bf_columns bf;
             rows := map balance_row (bf_rows bf) |}
  end.

(** What the script reads: the log files in the order [sorted(glob(...))]
    lists them, the journal, the participants and the year of the clock. *)
Record Inputs : Type := {
  log_files : list LogFile;
  financial_journal : JournalFile;
  participants : option (list ParticipantRow);
  current_year : Z
}.

Definition preprocess_financial {S : Sorter} (inp : Inputs) : Outcome :=
  match month_to_timestamp (monthly_balances_df (log_files inp)) with
  | inl e => Raised e
  | inr balances =>
      let journal := process_journal (financial_journal inp) in
      merge_and_finalize balances
        (df_expenses_pivot journal) (df_income journal)
        (process_participants (current_year inp) (participants inp))
        (logged_expense_cols journal)
  end.

End Financial.

(** * preprocess_turnover.py *)

Module Turnover.

(** One row of a ParticipantStatusLogs file ([usecols = cols_to_keep]). *)
Record LogRow : Type := {
  timestamp : option Timestamp;
  participantId : Z;
  currentEmployer : option Z
}.

Definition LogFile : Type := option (list LogRow).

(** A row of [df_logs] after line 74. *)
Record StatusRow : Type := {
  l_timestamp : Timestamp;
  l_participantId : Z;
  l_currentEmployer : option Z;
  l_date : Z
}.

Definition status_key (r : StatusRow) : Key := (l_participantId r, l_date r).

(** Line 56 and line 74 on the rows of one file. *)
Fixpoint with_date (l : list LogRow) : list StatusRow :=
  match l with
  | [] => []
  | r :: t =>
      match timestamp r with
      | Some ts =>
          {| l_timestamp := ts;
             l_participantId := participantId r;
             l_currentEmployer := currentEmployer r;
             l_date := dt_date ts |} :: with_date t
      | None => with_date t
      end
  end.

(** Lines 52-60: the chunks that were appended. *)
Fixpoint all_chunks (log_files : list LogFile) : list (list StatusRow) :=
  match log_files with
  | [] => []
  | Some file_rows :: t => with_date file_rows :: all_chunks t
  | None :: t => all_chunks t
  end.

(** A row of [df_daily] (lines 78-83). *)
Record DailyRow : Type := {
  d_participantId : Z;
  d_date : Z;
  d_currentEmployer : option Z
}.

Definition daily_row (g : Key * list StatusRow) : DailyRow :=
  {| d_participantId := fst (fst g);
     d_date := snd (fst g);
     d_currentEmployer := agg_last (map l_currentEmployer (snd g)) |}.

(** A row of [df_employed] (lines 86-88 and 100). *)
Record EmployedRow : Type := {
  e_participantId : Z;
  e_date : Z;
  employerId : Z;
  e_month : Z
}.

Definition employed_key (r : EmployedRow) : Key := (employerId r, e_month r).

(** Line 86 and the columns of lines 87 and 100. *)
Fixpoint employed (df_daily : list DailyRow) : list EmployedRow :=
  match df_daily with
  | [] => []
  | r :: t =>
      match d_currentEmployer r with
      | Some e =>
          {| e_participantId := d_participantId r;
             e_date := d_date r;
             employerId := e;
             e_month := period_M_of_date (d_date r) |} :: employed t
      | None => employed t
      end
  end.

(** A row of [workers_by_company] (lines 103-108). *)
Record CompanyMonthRow : Type := {
  w_employerId : Z;
  w_month : Z;
  worker_count : nat
}.

(** [nunique]. *)
Definition nunique (l : list Z) : nat := List.length (nodup Z.eq_dec l).

Definition company_month_row (g : Key * list EmployedRow) : CompanyMonthRow :=
  {| w_employerId := fst (fst g);
     w_month := snd (fst g);
     worker_count := nunique (map e_participantId (snd g)) |}.

Section WithSorter.
Context {S : Sorter}.

(** Lines 78-83. *)
Definition df_daily (df_logs : list StatusRow) : list DailyRow :=
  map daily_row (groupby status_key (sort_values l_timestamp df_logs)).

(** Lines 86-88. *)
Definition df_employed (df_logs : list StatusRow) : list EmployedRow :=
  employed (df_daily df_logs).

(** Lines 103-108. *)
Definition workers_by_company (df_logs : list StatusRow)
  : list CompanyMonthRow :=
  map company_month_row (groupby employed_key (df_employed df_logs)).

End WithSorter.

(** How the script ends: [exit(1)] when there is no log file, the
    ValueError of [pd.concat] when no file could be read, or the two
    tables it writes (work.csv and workers_by_company_month.csv). *)
Inductive Outcome : Type :=
| Exit1
| ConcatError
| Saved (work : list EmployedRow) (workers : list CompanyMonthRow).

Definition preprocess_turnover {S : Sorter} (log_files : list LogFile)
  : Outcome :=
  match log_files with
  | [] => Exit1
  | _ =>
      match all_chunks log_files with
      | [] => ConcatError
      | chunks =>
          let df_logs := List.concat chunks in
          Saved (df_employed df_logs) (workers_by_company df_logs)
      end
  end.

End Turnover.

(** * layoff_treemap.py, layoff_map.py and app.py: layoffs of April 2022 *)

Module Layoffs.
Import Turnover.

(** The [month] column of workers_by_company_month.csv holds the text of
    a monthly period; "2022-03" and "2022-04" are the texts of these two
    ordinals. *)
Definition march_2022 : Z := month_ordinal 2022 3.
Definition april_2022 : Z := month_ordinal 2022 4.

(** [df[df['month'] == m]]. *)
Definition month_data (m : Z) (df : list CompanyMonthRow)
  : list CompanyMonthRow :=
  filter (fun w => (w_month w =? m)%Z) df.

(** A row of [treemap_df], [map_df] and [layoff_df]. *)
Record LayoffRow : Type := {
  company_id : Z;
  original_size : Z;
  layoffs : Z;
  layoff_percentage : Q
}.

(** [layoff_count] for one company of March. *)
Definition layoff_count (april_data : list CompanyMonthRow)
           (company : CompanyMonthRow) : Z :=
  let march_count := Z.of_nat (worker_count company) in
  match filter (fun w => (w_employerId w =? w_employerId company)%Z)
               april_data
  with
  | april_company :: _ =>
      Z.max 0 (march_count - Z.of_nat (worker_count april_company))
  | [] => march_count
  end.

(** The body of the loop over [march_data]: what one company appends. *)
Definition layoff_rows (april_data : list CompanyMonthRow)
           (company : CompanyMonthRow) : list LayoffRow :=
  let march_count := Z.of_nat (worker_count company) in
  let count := layoff_count april_data company in
  if (0 <? count)%Z
  then [ {| company_id := w_employerId company;
            original_size := march_count;
            layoffs := count;
            layoff_percentage :=
              if (0 <? march_count)%Z
              then Qred (inject_Z count / inject_Z march_count * 100)
              else 0%Q |} ]
  else [].

(** [treemap_data], [map_data], [layoff_data]. *)
Definition layoff_data (df : list CompanyMonthRow) : list LayoffRow :=
  flat_map (layoff_rows (month_data april_2022 df)) (month_data march_2022 df).

Definition assign_category (size : Z) : string :=
  if (10 <=? size)%Z then "Large (10+ employees)"%string
  else if (5 <=? size)%Z then "Medium (5-9 employees)"%string
  else "Small (<5 employees)"%string.

Definition size_category (r : LayoffRow) : string :=
  assign_category (original_size r).

Definition Zsum (l : list Z) : Z := fold_right Z.add 0%Z l.

(** [sorted(treemap_df['size_category'].unique())]. *)
Definition categories (treemap_df : list LayoffRow) : list string :=
  sorted_strings (nodup string_dec (map size_category treemap_df)).

(** [treemap_df[treemap_df['size_category'] == category]['layoffs'].sum()]. *)
Definition category_layoffs (treemap_df : list LayoffRow) (category : string)
  : Z :=
  Zsum (map layoffs
            (filter (fun r => String.eqb (size_category r) category)
                    treemap_df)).

(** The three parallel lists handed to [go.Treemap]. *)
Record Treemap : Type := {
  labels : list string;
  parents : list string;
  values : list Z
}.

Definition treemap (treemap_df : list LayoffRow) : Treemap :=
  {| labels :=
       ("All Companies"%string :: categories treemap_df)
       ++ map (fun r => string_of_Z (company_id r)) treemap_df;
     parents :=
       (""%string :: map (fun _ => "All Companies"%string)
                         (categories treemap_df))
       ++ map size_category treemap_df;
     values :=
       (Zsum (map layoffs treemap_df)
        :: map (category_layoffs treemap_df) (categories treemap_df))
       ++ map layoffs treemap_df |}.

(** [create_summary_stats] of app.py: the companies and workers of March,
    the layoffs, and the companies with layoffs.  (The percentage of line
    320, the quotient of two of these, and the counts per size category
    are left out.) *)
Record SummaryStats : Type := {
  total_companies : nat;
  total_original_workers : Z;
  total_layoffs : Z;
  companies_with_layoffs : nat
}.

Definition create_summary_stats (df : list CompanyMonthRow) : SummaryStats :=
  let march_data := month_data march_2022 df in
  {| total_companies := List.length march_data;
     total_original_workers :=
       Zsum (map (fun w => Z.of_nat (worker_count w)) march_data);
     total_layoffs := Zsum (map layoffs (layoff_data df));
     companies_with_layoffs := List.length (layoff_data df) |}.

End Layoffs.

(** * layoff_timeline.py: workers per month *)

Module Timeline.
Import Turnover.

(** Line 12.  work.csv holds [participantId], [date] and [employerId];
    the text "%Y-%m" of a date names its month, and for years of four
    digits the texts are ordered as the months are. *)
Definition month_year (r : EmployedRow) : Z := period_M_of_date (e_date r).

(** A row of [monthly_workers] after line 20. *)
Record MonthRow : Type := {
  m_month_year : Z;
  worker_count : nat;
  previous : option nat;
  change : option Z
}.

(** Lines 15-16: the distinct participants of each month, by month. *)
Definition month_counts (df : list EmployedRow) : list (Z * nat) :=
  map (fun m =>
         (m, nunique (map e_participantId
                          (filter (fun r => (month_year r =? m)%Z) df))))
      (unique_ints (map month_year df)).

(** Lines 19-20: [shift(1)] and the difference to it. *)
Fixpoint with_change (prev : option nat) (l : list (Z * nat))
  : list MonthRow :=
  match l with
  | [] => []
  | (m, n) :: t =>
      {| m_month_year := m;
         worker_count := n;
         previous := prev;
         change := option_map (fun p => (Z.of_nat n - Z.of_nat p)%Z) prev |}
      :: with_change (Some n) t
  end.

Definition monthly_workers (df : list EmployedRow) : list MonthRow :=
  with_change None (month_counts df).

End Timeline.

(** * preprocess_revenue.py: weekly revenue and foot traffic of venues *)

Module Revenue.

(** This script multiplies and divides floats, and what it saves depends
    on how they round.  So its [float64] columns are not read as
    rationals here: they range over a type [f64] of which only the
    operations that the script applies are named, and nothing is assumed
    about them.  What is proved below holds for every reading of the
    operations, the IEEE doubles of numpy among them.  The values of [f64]
    are the numbers of a column; the missing marker NaN is [None], as in
    the rest of the file. *)
Class Float64 : Type := {
  f64 : Type;
  (** [0.0]: what [fillna(0)] and [np.where(..., 0)] write. *)
  fzero : f64;
  (** [Series.abs]. *)
  fabs : f64 -> f64;
  (** [*] and [/] on two float columns. *)
  fmul : f64 -> f64 -> f64;
  fdiv : f64 -> f64 -> f64;
  (** An [int64] count in a float operation. *)
  of_count : nat -> f64;
  (** [Series.sum()]: the sum of a column, which skips missing values. *)
  series_sum : list (option f64) -> f64;
  (** The [sum] of a [groupby], on the values of a group in their order. *)
  group_sum : list f64 -> f64
}.

(** [sort_values] on two columns: the rows come back permuted and in
    non-decreasing lexicographic order of the pair of sort columns. *)
Definition key_leb (a b : Key) : bool := negb (key_ltb b a).

Class PairSorter : Type := {
  sort_values2 : forall A : Type, (A -> Key) -> list A -> list A;
  sort_values2_perm : forall (A : Type) (by_ : A -> Key) (l : list A),
      Permutation (sort_values2 by_ l) l;
  sort_values2_sorted : forall (A : Type) (by_ : A -> Key) (l : list A),
      StronglySorted (fun a b => key_leb (by_ a) (by_ b) = true)
                     (sort_values2 by_ l)
}.

Fixpoint insert_by_key (A : Type) (by_ : A -> Key) (x : A) (l : list A)
  : list A :=
  match l with
  | [] => [x]
  | y :: t =>
      if key_ltb (by_ y) (by_ x) then y :: insert_by_key by_ x t
      else x :: l
  end.

Definition sort_by_key (A : Type) (by_ : A -> Key) (l : list A) : list A :=
  fold_right (insert_by_key by_) [] l.

(** [dt.to_period("W")] and [start_time]: the weeks end on Sunday, so the
    start is the midnight that begins the Monday of the week.  Day 0,
    1970-01-01, was a Thursday. *)
Definition week_start (t : Timestamp) : Timestamp :=
  (let d := dt_date t in (d - (d + 3) mod 7) * ns_per_day)%Z.

Definition VENUE_TYPES : list string := ["Pub"; "Restaurant"]%string.

(** [Series.isin]: a missing value is in no list. *)
Definition isin (x : option string) (l : list string) : bool :=
  match x with
  | Some s => existsb (String.eqb s) l
  | None => false
  end.

(** [.replace(0, 1)]. *)
Definition replace_zero (n : nat) : nat :=
  match n with
  | O => 1%nat
  | _ => n
  end.

(** The rows of Venues.csv and of CheckinJournal.csv.  The embedding
    covers files whose timestamps all parse; a category, a venue type and
    an amount may be missing. *)
Record CheckinRow : Type := {
  ck_timestamp : Timestamp;
  ck_venueId : Z
}.

Record VenueRow : Type := {
  v_venueId : Z;
  v_type : option string
}.

(** Lines 49-50. *)
Definition pub_restaurant_venues (venues : list VenueRow) : list VenueRow :=
  filter (fun v => isin (v_type v) VENUE_TYPES) venues.

Definition venue_ids (venues : list VenueRow) : list Z :=
  map v_venueId (pub_restaurant_venues venues).

(** Line 57. *)
Definition checkins_filtered (checkins : list CheckinRow)
           (venues : list VenueRow) : list CheckinRow :=
  filter (fun c => existsb (Z.eqb (ck_venueId c)) (venue_ids venues))
         checkins.

(** A row of [weekly_traffic] (lines 60-64). *)
Record TrafficRow : Type := {
  tr_week : Timestamp;
  tr_venueId : Z;
  tr_check_ins : nat
}.

Definition checkin_key (c : CheckinRow) : Key :=
  (week_start (ck_timestamp c), ck_venueId c).

Definition weekly_traffic (filtered : list CheckinRow) : list TrafficRow :=
  map (fun g => {| tr_week := fst (fst g);
                   tr_venueId := snd (fst g);
                   tr_check_ins := List.length (snd g) |})
      (groupby checkin_key filtered).

(** A row of [weekly_traffic_with_type] (lines 94-98). *)
Record TypedRow : Type := {
  ty_week : Timestamp;
  ty_venueId : Z;
  ty_check_ins : nat;
  ty_venue_type : option string
}.

Definition weekly_traffic_with_type (traffic : list TrafficRow)
           (venues : list VenueRow) : list TypedRow :=
  flat_map
    (fun t =>
       let typed := fun venue_type =>
         {| ty_week := tr_week t;
            ty_venueId := tr_venueId t;
            ty_check_ins := tr_check_ins t;
            ty_venue_type := venue_type |} in
       match filter (fun v => (v_venueId v =? tr_venueId t)%Z)
                    (pub_restaurant_venues venues)
       with
       | [] => [typed None]
       | ms => map (fun v => typed (v_type v)) ms
       end)
    traffic.

(** Line 101: [groupby("week")["check_ins"].transform("sum")] on one
    row. *)
Definition weekly_total_checkins (rows : list TypedRow) (r : TypedRow)
  : nat :=
  list_sum (map ty_check_ins
                (filter (fun x => (ty_week x =? ty_week r)%Z) rows)).

Definition venue_spending_categories : list string :=
  ["Food"; "Recreation"]%string.

Section WithFloats.
Context {F : Float64}.

(** A row of FinancialJournal.csv. *)
Record FinancialRow : Type := {
  fin_timestamp : Timestamp;
  fin_category : option string;
  fin_amount : option f64
}.

(** Lines 73-76. *)
Definition financial_venue (financial : list FinancialRow)
  : list FinancialRow :=
  filter (fun f => isin (fin_category f) venue_spending_categories)
         financial.

(** A row of [weekly_spending_by_type] (lines 87-91). *)
Record SpendingRow : Type := {
  sp_week : Timestamp;
  total_spending : f64
}.

(** [x.abs().sum()] on the amounts of a week. *)
Definition week_spending (fv : list FinancialRow) (week : Timestamp) : f64 :=
  series_sum
    (map (fun f => option_map fabs (fin_amount f))
         (filter (fun f => (week_start (fin_timestamp f) =? week)%Z) fv)).

Definition weekly_spending_by_type (fv : list FinancialRow)
  : list SpendingRow :=
  map (fun w => {| sp_week := w; total_spending := week_spending fv w |})
      (unique_ints (map (fun f => week_start (fin_timestamp f)) fv)).

(** Line 102: the quotient of two integer columns is a float. *)
Definition checkin_share (rows : list TypedRow) (r : TypedRow) : f64 :=
  fdiv (of_count (ty_check_ins r))
       (of_count (replace_zero (weekly_total_checkins rows r))).

(** A row of [output] (lines 105-126). *)
Record VenueWeekRow : Type := {
  week : Timestamp;
  venueId : Z;
  venue_type : option string;
  check_ins : nat;
  total_revenue : f64;
  avg_spend_per_visit : f64
}.

(** Lines 106-114 on one row of the merge: [spending] is the spending of
    the week of the row, missing when the week has none.  A sum of
    absolute values is never NaN, so [fillna(0)] acts on these rows
    only. *)
Definition venue_week_row (rows : list TypedRow) (r : TypedRow)
           (spending : option f64) : VenueWeekRow :=
  let total_spending := match spending with Some s => s | None => fzero end in
  let estimated_revenue := fmul total_spending (checkin_share rows r) in
  {| week := ty_week r;
     venueId := ty_venueId r;
     venue_type := ty_venue_type r;
     check_ins := ty_check_ins r;
     total_revenue := estimated_revenue;
     avg_spend_per_visit :=
       if (0 <? ty_check_ins r)%nat
       then fdiv estimated_revenue (of_count (ty_check_ins r))
       else fzero |}.

(** Lines 105-114: the left merge with the weekly spending and the two
    estimates. *)
Definition weekly_venue (rows : list TypedRow) (spending : list SpendingRow)
  : list VenueWeekRow :=
  flat_map
    (fun r =>
       match filter (fun s => (sp_week s =? ty_week r)%Z) spending with
       | [] => [venue_week_row rows r None]
       | ms => map (fun s => venue_week_row rows r (Some (total_spending s)))
                   ms
       end)
    rows.

Definition output_key (r : VenueWeekRow) : Key := (week r, venueId r).

(** A row of [weekly_by_type] (lines 134-143). *)
Record TypeWeekRow : Type := {
  bt_week : Timestamp;
  bt_venue_type : string;
  total_check_ins : nat;
  bt_total_revenue : f64;
  venue_count : nat;
  avg_revenue_per_venue : f64
}.

Definition type_week_group (output : list VenueWeekRow) (w : Timestamp)
           (ty : string) : list VenueWeekRow :=
  filter (fun r => (week r =? w)%Z && isin (venue_type r) [ty]) output.

Definition type_week_row (w : Timestamp) (ty : string)
           (g : list VenueWeekRow) : TypeWeekRow :=
  let revenue := group_sum (map total_revenue g) in
  let venues := Turnover.nunique (map venueId g) in
  {| bt_week := w;
     bt_venue_type := ty;
     total_check_ins := list_sum (map check_ins g);
     bt_total_revenue := revenue;
     venue_count := venues;
     avg_revenue_per_venue := fdiv revenue (of_count (replace_zero venues)) |}.

(** The groups of [groupby(["week", "venue_type"])]: the pairs that
    occur, by week and then by type; a row without a type is in no
    group. *)
Definition weekly_by_type (output : list VenueWeekRow) : list TypeWeekRow :=
  flat_map
    (fun w =>
       flat_map
         (fun ty =>
            match type_week_group output w ty with
            | [] => []
            | g => [type_week_row w ty g]
            end)
         (unique_strings (present (map venue_type output))))
    (unique_ints (map week output)).

Context {S : PairSorter}.

(** Lines 49-128: the per-venue table that is saved. *)
Definition output (checkins : list CheckinRow)
           (financial : list FinancialRow) (venues : list VenueRow)
  : list VenueWeekRow :=
  let traffic := weekly_traffic (checkins_filtered checkins venues) in
  let typed := weekly_traffic_with_type traffic venues in
  let spending := weekly_spending_by_type (financial_venue financial) in
  sort_values2 output_key (weekly_venue typed spending).

(** The two tables that the script saves. *)
Definition preprocess_revenue (checkins : list CheckinRow)
           (financial : list FinancialRow) (venues : list VenueRow)
  : list VenueWeekRow * list TypeWeekRow :=
  let out := output checkins financial venues in
  (out, weekly_by_type out).

End WithFloats.

End Revenue.

(** * Facts about the building blocks *)

Section SortingFacts.
Variable A : Type.
Variable by_ : A -> Z.

Lemma insert_by_perm (x : A) (l : list A) :
  Permutation (insert_by by_ x l) (x :: l).
Proof.
  induction l as [|y t IH]; simpl.
  - apply Permutation_refl.
  - destruct (by_ x <? by_ y)%Z.
    + apply Permutation_refl.
    + apply perm_trans with (y :: x :: t).
      * now apply perm_skip.
      * apply perm_swap.
Qed.

Lemma insertion_sort_perm (l : list A) :
  Permutation (insertion_sort by_ l) l.
Proof.
  induction l as [|x t IH]; simpl.
  - apply perm_nil.
  - apply perm_trans with (x :: insertion_sort by_ t).
    + apply insert_by_perm.
    + now apply perm_skip.
Qed.

Lemma insert_by_sorted (x : A) (l : list A) :
  StronglySorted (fun a b => (by_ a <= by_ b)%Z) l ->
  StronglySorted (fun a b => (by_ a <= by_ b)%Z) (insert_by by_ x l).
Proof.
  induction 1 as [|y t Ht IH Hy]; simpl.
  - constructor; constructor.
  - destruct (by_ x <? by_ y)%Z eqn:E.
    + apply Z.ltb_lt in E.
      constructor.
      * now constructor.
      * constructor; [lia|].
        eapply Forall_impl; [|exact Hy]. simpl. intros; lia.
    + apply Z.ltb_ge in E.
      constructor; [exact IH|].
      eapply Permutation_Forall.
      * apply Permutation_sym, insert_by_perm.
      * now constructor.
Qed.

Lemma insertion_sort_sorted (l : list A) :
  StronglySorted (fun a b => (by_ a <= by_ b)%Z) (insertion_sort by_ l).
Proof.
  induction l as [|x t IH]; simpl.
  - constructor.
  - now apply insert_by_sorted.
Qed.

End SortingFacts.

(** Insertion sort is a [Sorter] (a stable one). *)
Definition stable_sorter : Sorter :=
  {| sort_values := insertion_sort;
     sort_values_perm := insertion_sort_perm;
     sort_values_sorted := insertion_sort_sorted |}.

Section ListFacts.
Variable A : Type.

Lemma Permutation_filter (f : A -> bool) (l l' : list A) :
  Permutation l l' -> Permutation (filter f l) (filter f l').
Proof.
  induction 1 as [|x l l' _ IH|x y l|l l' l'' _ IH1 _ IH2]; simpl.
  - apply perm_nil.
  - destruct (f x); [now apply perm_skip|exact IH].
  - destruct (f x), (f y); try apply Permutation_refl. apply perm_swap.
  - now apply perm_trans with (filter f l').
Qed.

Lemma Permutation_flat_map (B : Type) (g : A -> list B) (l l' : list A) :
  Permutation l l' -> Permutation (flat_map g l) (flat_map g l').
Proof.
  induction 1 as [|x l l' _ IH|x y l|l l' l'' _ IH1 _ IH2]; simpl.
  - apply perm_nil.
  - now apply Permutation_app_head.
  - rewrite !app_assoc. apply Permutation_app_tail, Permutation_app_comm.
  - now apply perm_trans with (flat_map g l').
Qed.

Lemma StronglySorted_filter (R : A -> A -> Prop) (f : A -> bool) (l : list A) :
  StronglySorted R l -> StronglySorted R (filter f l).
Proof.
  induction 1 as [|x t Ht IH Hx]; simpl.
  - constructor.
  - destruct (f x); [|exact IH].
    constructor; [exact IH|].
    rewrite Forall_forall in *. intros y Hy.
    apply filter_In in Hy. now apply Hx.
Qed.

Lemma concat_drop_empty (l : list (list A)) :
  List.concat (filter (fun s => match s with [] => false | _ => true end) l)
  = List.concat l.
Proof.
  induction l as [|s t IH]; simpl; [reflexivity|].
  destruct s; simpl; [exact IH|]. now rewrite IH.
Qed.

Lemma filter_nil_iff (f : A -> bool) (l : list A) :
  filter f l = [] <-> forall x, In x l -> f x = false.
Proof.
  split.
  - intros H x Hx. destruct (f x) eqn:E; [|reflexivity].
    assert (Hin : In x (filter f l)) by (apply filter_In; auto).
    rewrite H in Hin. destruct Hin.
  - induction l as [|x t IH]; simpl; intros H; [reflexivity|].
    rewrite (H x (or_introl eq_refl)). apply IH. intros; apply H; now right.
Qed.

Lemma agg_first_app (l1 l2 : list (option A)) :
  agg_first (l1 ++ l2) =
  match agg_first l1 with Some v => Some v | None => agg_first l2 end.
Proof.
  induction l1 as [|[v|] t IH]; simpl; auto.
Qed.

Lemma agg_last_cons (x : option A) (l : list (option A)) :
  agg_last (x :: l) =
  match agg_last l with Some v => Some v | None => x end.
Proof.
  unfold agg_last. simpl. rewrite agg_first_app. simpl.
  destruct (agg_first (rev l)); [reflexivity|]. now destruct x.
Qed.

Lemma agg_first_singleton (x : option A) : agg_first [x] = x.
Proof. now destruct x. Qed.

Lemma agg_last_singleton (x : option A) : agg_last [x] = x.
Proof. now destruct x. Qed.

End ListFacts.

Section ObservationFacts.
Variables A B : Type.
Variable time : A -> Z.
Variable value : A -> option B.

Lemma observations_In (t : Z) (v : B) (l : list A) :
  In (t, v) (observations time value l) <->
  exists r, In r l /\ time r = t /\ value r = Some v.
Proof.
  induction l as [|x l IH]; simpl.
  - split; [intros []|intros (r & [] & _)].
  - destruct (value x) as [w|] eqn:E; simpl; rewrite IH.
    + split.
      * intros [H|(r & Hr & Ht & Hv)].
        -- inversion H; subst. exists x. auto.
        -- exists r. auto.
      * intros (r & [->|Hr] & Ht & Hv).
        -- left. congruence.
        -- right. exists r. auto.
    + split.
      * intros (r & Hr & Ht & Hv). exists r. auto.
      * intros (r & [->|Hr] & Ht & Hv); [congruence|]. exists r. auto.
Qed.

(** Observations only depend on which rows there are, not on their
    order. *)
Lemma observations_perm (l l' : list A) :
  Permutation l l' ->
  Permutation (observations time value l) (observations time value l').
Proof.
  induction 1 as [|x l l' _ IH|x y l|l l' l'' _ IH1 _ IH2]; simpl.
  - apply perm_nil.
  - destruct (value x); [now apply perm_skip|exact IH].
  - destruct (value x), (value y); try apply Permutation_refl.
    apply perm_swap.
  - now apply perm_trans with (observations time value l').
Qed.

Lemma earliest_perm (l l' : list (Z * B)) (v : B) :
  Permutation l l' -> earliest l v -> earliest l' v.
Proof.
  intros HP (t & Hin & Hmin). exists t. split.
  - now apply (Permutation_in _ HP).
  - intros t' v' H'. apply (Hmin t' v').
    now apply (Permutation_in _ (Permutation_sym HP)).
Qed.

Lemma latest_perm (l l' : list (Z * B)) (v : B) :
  Permutation l l' -> latest l v -> latest l' v.
Proof.
  intros HP (t & Hin & Hmax). exists t. split.
  - now apply (Permutation_in _ HP).
  - intros t' v' H'. apply (Hmax t' v').
    now apply (Permutation_in _ (Permutation_sym HP)).
Qed.

(** In rows sorted by time, [first] is the value of an earliest
    observation and [last] the value of a latest one. *)
Lemma agg_first_sorted (l : list A) :
  StronglySorted (fun a b => (time a <= time b)%Z) l ->
  match agg_first (map value l) with
  | Some v => earliest (observations time value l) v
  | None => observations time value l = []
  end.
Proof.
  induction 1 as [|x t Ht IH Hx]; simpl; [reflexivity|].
  destruct (value x) as [w|] eqn:E; [|exact IH].
  exists (time x). split; [now left|].
  intros t' v' [H|H].
  - inversion H; subst. lia.
  - apply observations_In in H. destruct H as (r & Hr & <- & _).
    rewrite Forall_forall in Hx. now apply Hx.
Qed.

Lemma agg_last_sorted (l : list A) :
  StronglySorted (fun a b => (time a <= time b)%Z) l ->
  match agg_last (map value l) with
  | Some v => latest (observations time value l) v
  | None => observations time value l = []
  end.
Proof.
  induction 1 as [|x t Ht IH Hx]; [reflexivity|].
  simpl map. rewrite agg_last_cons.
  destruct (agg_last (map value t)) as [v|].
  - destruct IH as (tm & Hin & Hmax).
    exists tm. split.
    + simpl. destruct (value x); [now right|exact Hin].
    + intros t' v' H'. simpl in H'.
      assert (Hx' : (time x <= tm)%Z).
      { apply observations_In in Hin. destruct Hin as (r & Hr & <- & _).
        rewrite Forall_forall in Hx. now apply Hx. }
      destruct (value x).
      * destruct H' as [H'|H']; [inversion H'; subst; exact Hx'|eauto].
      * eauto.
  - simpl. rewrite IH. destruct (value x) as [w|]; [|reflexivity].
    exists (time x). split; [now left|].
    intros t' v' [H'|[]]. inversion H'; subst. lia.
Qed.

Lemma present_values (l : list A) :
  present (map value l) = map snd (observations time value l).
Proof.
  induction l as [|x l IH]; simpl; [reflexivity|].
  destruct (value x); simpl; now rewrite IH.
Qed.

End ObservationFacts.

Section GroupingFacts.

Lemma key_eqb_eq (a b : Key) : key_eqb a b = true <-> a = b.
Proof.
  destruct a as [a1 a2], b as [b1 b2]. unfold key_eqb; simpl.
  rewrite andb_true_iff, !Z.eqb_eq. split.
  - intros [-> ->]; reflexivity.
  - intros H; inversion H; auto.
Qed.

Lemma key_eqb_refl (a : Key) : key_eqb a a = true.
Proof. now apply key_eqb_eq. Qed.

Lemma key_eqb_neq (a b : Key) : key_eqb a b = false <-> a <> b.
Proof.
  rewrite <- key_eqb_eq. destruct (key_eqb a b); split; congruence.
Qed.

Lemma insert_key_In (k x : Key) (l : list Key) :
  In x (insert_key k l) <-> x = k \/ In x l.
Proof.
  induction l as [|y t IH]; simpl.
  - intuition congruence.
  - destruct (key_ltb k y); simpl; rewrite ?IH; intuition congruence.
Qed.

Lemma insert_key_NoDup (k : Key) (l : list Key) :
  ~ In k l -> NoDup l -> NoDup (insert_key k l).
Proof.
  induction l as [|y t IH]; simpl; intros Hk Hl.
  - constructor; [intros []|constructor].
  - destruct (key_ltb k y).
    + constructor; [exact Hk|exact Hl].
    + inversion Hl as [|? ? Hy Ht]; subst.
      constructor.
      * rewrite insert_key_In. intros [->|H]; [apply Hk; now left|now apply Hy].
      * apply IH; [intros H; apply Hk; now right|exact Ht].
Qed.

Lemma group_keys_In (k : Key) (l : list Key) :
  In k (group_keys l) <-> In k l.
Proof.
  unfold group_keys. rewrite <- (nodup_In Key_eq_dec l k).
  induction (nodup Key_eq_dec l) as [|y t IH]; simpl; [tauto|].
  rewrite insert_key_In, IH. intuition congruence.
Qed.

Lemma group_keys_NoDup (l : list Key) : NoDup (group_keys l).
Proof.
  unfold group_keys.
  induction (NoDup_nodup Key_eq_dec l) as [|y t Hy Ht IH]; simpl.
  - constructor.
  - apply insert_key_NoDup; [|exact IH].
    intros H. apply Hy. revert H. clear.
    induction t as [|z t IH]; simpl; [tauto|].
    rewrite insert_key_In. intuition.
Qed.

(** Looking a key up in a table that has one row per key of [ks]. *)
Lemma find_by_key (B : Type) (key : B -> Key) (mk : Key -> B)
      (k : Key) (ks : list Key) :
  (forall k', key (mk k') = k') ->
  find (fun r => key_eqb k (key r)) (map mk ks) =
  if in_dec Key_eq_dec k ks then Some (mk k) else None.
Proof.
  intros Hkey. induction ks as [|y t IH]; simpl; [reflexivity|].
  rewrite Hkey. destruct (key_eqb k y) eqn:E.
  - apply key_eqb_eq in E; subst y.
    destruct (Key_eq_dec k k); [reflexivity|congruence].
  - apply key_eqb_neq in E. rewrite IH.
    destruct (Key_eq_dec y k); [congruence|].
    destruct (in_dec Key_eq_dec k t); reflexivity.
Qed.

(** The rows of such a table that bear a given key. *)
Lemma filter_by_key (B : Type) (key : B -> Key) (mk : Key -> B)
      (k : Key) (ks : list Key) :
  (forall k', key (mk k') = k') -> NoDup ks ->
  filter (fun r => key_eqb k (key r)) (map mk ks) =
  if in_dec Key_eq_dec k ks then [mk k] else [].
Proof.
  intros Hkey. induction 1 as [|y t Hy Ht IH]; simpl; [reflexivity|].
  rewrite Hkey, IH. destruct (key_eqb k y) eqn:E.
  - apply key_eqb_eq in E; subst y.
    destruct (Key_eq_dec k k); [|congruence].
    destruct (in_dec Key_eq_dec k t); [contradiction|reflexivity].
  - apply key_eqb_neq in E.
    destruct (Key_eq_dec y k); [congruence|].
    destruct (in_dec Key_eq_dec k t); reflexivity.
Qed.

(** The rows of a grouped table that bear a given key: one row, built
    from the rows of the group, when the key occurs. *)
Lemma groupby_by_key (A B : Type) (key : A -> Key) (keyB : B -> Key)
      (mk : Key * list A -> B) (k : Key) (l : list A) :
  (forall g, keyB (mk g) = fst g) ->
  filter (fun r => key_eqb k (keyB r)) (map mk (groupby key l)) =
  match filter (fun r => key_eqb k (key r)) l with
  | [] => []
  | g => [mk (k, g)]
  end.
Proof.
  intros Hkey. unfold groupby. rewrite map_map.
  rewrite (filter_by_key keyB
             (fun k' => mk (k', filter (fun r => key_eqb k' (key r)) l)));
    [|intros k'; apply Hkey|apply group_keys_NoDup].
  destruct (in_dec _ _ _) as [Hin|Hout].
  - apply group_keys_In, in_map_iff in Hin.
    destruct Hin as (r & Hk & Hr).
    destruct (filter _ l) eqn:E; [|reflexivity].
    rewrite filter_nil_iff in E. specialize (E r Hr).
    rewrite Hk, key_eqb_refl in E. discriminate.
  - destruct (filter _ l) as [|r t] eqn:E; [reflexivity|].
    exfalso. apply Hout. apply group_keys_In, in_map_iff.
    assert (Hr : In r (filter (fun r => key_eqb k (key r)) l))
      by (rewrite E; now left).
    apply filter_In in Hr. destruct Hr as [Hr Hk].
    apply key_eqb_eq in Hk. exists r. auto.
Qed.

End GroupingFacts.

(** * Facts about the monthly balances *)

Module BalancesFacts.
Import Balances.

(** The sum of a list of rationals does not depend on its order. *)
Lemma Qsum_perm (l l' : list Q) : Permutation l l' -> (Qsum l == Qsum l')%Q.
Proof.
  induction 1 as [|x l l' _ IH|x y l|l l' l'' _ IH1 _ IH2]; simpl.
  - reflexivity.
  - now rewrite IH.
  - ring.
  - now rewrite IH1.
Qed.

(** The mean of a group, from its readings in any order. *)
Definition mean_of_readings (rs : list (Timestamp * Q)) : option Q :=
  match rs with
  | [] => None
  | _ => Some (Qred (Qsum (map snd rs)
                     / inject_Z (Z.of_nat (List.length rs))))
  end.

Lemma agg_mean_readings (l l' : list ChunkRow) :
  Permutation l l' ->
  agg_mean (map c_availableBalance l) = mean_of_readings (readings l').
Proof.
  intros HP.
  apply (observations_perm c_timestamp c_availableBalance) in HP.
  fold (readings l) in HP. fold (readings l') in HP.
  unfold agg_mean, mean_of_readings.
  rewrite (present_values c_timestamp). fold (readings l).
  destruct (readings l) as [|p rs] eqn:E.
  - apply Permutation_nil in HP. now rewrite HP.
  - destruct (readings l') as [|p' rs'] eqn:E'.
    + apply Permutation_sym, Permutation_nil in HP. discriminate.
    + cbn [map]. f_equal. apply Qred_complete.
      change (snd p :: map snd rs) with (map snd (p :: rs)).
      change (snd p' :: map snd rs') with (map snd (p' :: rs')).
      rewrite (Qsum_perm (Permutation_map snd HP)).
      rewrite ?length_map.
      assert (HL : List.length (p :: rs) = List.length (p' :: rs'))
        by apply (Permutation_length HP).
      now rewrite HL.
Qed.

Section WithSorter.
Context {S : Sorter}.

Lemma sort_values_nil (A : Type) (by_ : A -> Z) : sort_values by_ [] = [].
Proof.
  apply Permutation_nil, Permutation_sym, sort_values_perm.
Qed.

Lemma sort_values_filter_singleton (A : Type) (by_ : A -> Z)
      (f : A -> bool) (l : list A) (x : A) :
  filter f l = [x] -> filter f (sort_values by_ l) = [x].
Proof.
  intros H. apply Permutation_length_1_inv.
  rewrite <- H. apply Permutation_filter, Permutation_sym, sort_values_perm.
Qed.

(** The guard of line 65 only skips files that would give no group. *)
Lemma process_log_file_some (rows : list LogRow) :
  process_log_file (Some rows) = chunk_summary (with_month rows).
Proof.
  unfold process_log_file.
  destruct (_ || _) eqn:G; [|reflexivity].
  assert (H : with_month rows = []).
  { apply orb_true_iff in G. destruct G as [G|G].
    - now destruct rows.
    - clear - G. induction rows as [|r t IH]; simpl in *; [reflexivity|].
      destruct (timestamp r); [discriminate|]. now apply IH. }
  rewrite H. unfold chunk_summary, groupby. now rewrite sort_values_nil.
Qed.

(** The group of a key in a chunk, as [chunk_summary] sees it. *)
Definition chunk_group (k : Key) (df : list ChunkRow) : Key * list ChunkRow :=
  (k, filter (fun r => key_eqb k (chunk_key r))
             (sort_values c_timestamp df)).

Lemma chunk_summary_by_key (k : Key) (df : list ChunkRow) :
  filter (fun r => key_eqb k (summary_key r)) (chunk_summary df) =
  match filter (fun r => key_eqb k (chunk_key r)) df with
  | [] => []
  | _ => [summarize_chunk_group (chunk_group k df)]
  end.
Proof.
  unfold chunk_summary, groupby. rewrite map_map.
  rewrite (filter_by_key summary_key
             (fun k' => summarize_chunk_group (chunk_group k' df)));
    [|now intros []|apply group_keys_NoDup].
  destruct (in_dec _ _ _) as [Hin|Hout].
  - apply group_keys_In, in_map_iff in Hin.
    destruct Hin as (r & Hk & Hr).
    apply (Permutation_in _ (sort_values_perm c_timestamp df)) in Hr.
    destruct (filter _ df) eqn:E; [|reflexivity].
    rewrite filter_nil_iff in E. specialize (E r Hr).
    rewrite Hk, key_eqb_refl in E. discriminate.
  - destruct (filter _ df) as [|r t] eqn:E; [reflexivity|].
    exfalso. apply Hout. apply group_keys_In, in_map_iff.
    assert (Hr : In r (filter (fun r => key_eqb k (chunk_key r)) df))
      by (rewrite E; now left).
    apply filter_In in Hr. destruct Hr as [Hr Hk].
    apply key_eqb_eq in Hk. exists r. split; [now symmetry|].
    now apply (Permutation_in _ (Permutation_sym
                                   (sort_values_perm c_timestamp df))).
Qed.

Lemma process_log_file_by_key (k : Key) (f : LogFile) :
  filter (fun r => key_eqb k (summary_key r)) (process_log_file f) =
  match rows_of_key k f with
  | [] => []
  | _ :: _ =>
      match f with
      | Some rows => [summarize_chunk_group (chunk_group k (with_month rows))]
      | None => []
      end
  end.
Proof.
  destruct f as [rows|]; [|reflexivity].
  rewrite process_log_file_some, chunk_summary_by_key. reflexivity.
Qed.

(** What the summary of a group says about the readings of its key. *)
Lemma summarize_chunk_group_spec (k : Key) (rows : list LogRow) :
  let r := summarize_chunk_group (chunk_group k (with_month rows)) in
  let rs := readings (rows_of_key k (Some rows)) in
  summary_key r = k /\
  match chunk_start_balance r with
  | Some v => earliest rs v
  | None => rs = []
  end /\
  match chunk_end_balance r with
  | Some v => latest rs v
  | None => rs = []
  end /\
  chunk_mean_balance r = mean_of_readings rs.
Proof.
  set (g := filter (fun r => key_eqb k (chunk_key r))
                   (sort_values c_timestamp (with_month rows))).
  assert (HP : Permutation g (rows_of_key k (Some rows))).
  { apply Permutation_filter, sort_values_perm. }
  assert (HS : StronglySorted
                 (fun a b => (c_timestamp a <= c_timestamp b)%Z) g).
  { apply StronglySorted_filter, sort_values_sorted. }
  pose proof (observations_perm c_timestamp c_availableBalance HP) as HR.
  fold (readings g) in HR. fold (readings (rows_of_key k (Some rows))) in HR.
  simpl. fold g. repeat split.
  - now destruct k.
  - pose proof (@agg_first_sorted _ _ c_timestamp c_availableBalance _ HS)
      as H.
    fold (readings g) in H.
    destruct (agg_first (map c_availableBalance g)).
    + now apply (earliest_perm HR).
    + rewrite H in HR. now apply Permutation_nil in HR.
  - pose proof (@agg_last_sorted _ _ c_timestamp c_availableBalance _ HS)
      as H.
    fold (readings g) in H.
    destruct (agg_last (map c_availableBalance g)).
    + now apply (latest_perm HR).
    + rewrite H in HR. now apply Permutation_nil in HR.
  - now apply agg_mean_readings.
Qed.

(** The group of a key in the combined summaries. *)
Lemma combine_balances_lookup (k : Key)
      (summaries : list (list ChunkSummaryRow)) (r : ChunkSummaryRow) :
  filter (fun r => key_eqb k (summary_key r)) (List.concat summaries) = [r] ->
  lookup_balance k (combine_balances summaries) =
  Some (summarize_month_group (k, [r])).
Proof.
  intros H. unfold lookup_balance, combine_balances, groupby.
  rewrite map_map.
  rewrite (find_by_key balance_key
             (fun k' => summarize_month_group
                          (k', filter (fun r => key_eqb k' (summary_key r))
                                 (sort_values s_Month
                                    (List.concat summaries)))));
    [|now intros []].
  pose proof (sort_values_filter_singleton s_Month _ _ H) as H'.
  rewrite H'.
  destruct (in_dec _ _ _) as [Hin|Hout]; [reflexivity|].
  exfalso. apply Hout. apply group_keys_In, in_map_iff.
  assert (Hr : In r (filter (fun r => key_eqb k (summary_key r))
                       (sort_values s_Month (List.concat summaries))))
    by (rewrite H'; now left).
  apply filter_In in Hr. destruct Hr as [Hr Hk]. apply key_eqb_eq in Hk.
  exists r. auto.
Qed.

Lemma bf_rows_monthly_balances_df (log_files : list LogFile) :
  bf_rows (monthly_balances_df log_files) =
  combine_balances (monthly_balance_summaries_list log_files).
Proof.
  unfold monthly_balances_df.
  destruct (monthly_balance_summaries_list log_files); [|reflexivity].
  simpl. unfold combine_balances, groupby. simpl.
  now rewrite sort_values_nil.
Qed.

(** The chunk summaries of a key that lives in one file only. *)
Lemma confined_summaries (k : Key) (before after : list LogFile)
      (f : LogFile) (log_files : list LogFile) :
  (forall g, In g (before ++ after) -> rows_of_key k g = []) ->
  Permutation log_files (before ++ f :: after) ->
  filter (fun r => key_eqb k (summary_key r))
         (List.concat (monthly_balance_summaries_list log_files)) =
  filter (fun r => key_eqb k (summary_key r)) (process_log_file f).
Proof.
  intros Hconf HP.
  unfold monthly_balance_summaries_list.
  rewrite concat_drop_empty, <- flat_map_concat_map.
  assert (Hother : forall l, (forall g, In g l -> rows_of_key k g = []) ->
            filter (fun r => key_eqb k (summary_key r))
                   (flat_map process_log_file l) = []).
  { induction l as [|g l IH]; simpl; intros Hl; [reflexivity|].
    rewrite filter_app, IH by (intros; apply Hl; now right).
    now rewrite process_log_file_by_key, (Hl g (or_introl eq_refl)). }
  assert (Href : filter (fun r => key_eqb k (summary_key r))
                   (flat_map process_log_file (before ++ f :: after)) =
                 filter (fun r => key_eqb k (summary_key r))
                   (process_log_file f)).
  { rewrite flat_map_app. simpl. rewrite !filter_app.
    rewrite !Hother by (intros; apply Hconf, in_or_app; auto).
    simpl. now rewrite app_nil_r. }
  rewrite <- Href.
  pose proof (Permutation_filter (fun r => key_eqb k (summary_key r))
                (Permutation_flat_map process_log_file HP)) as HF.
  rewrite Href in *.
  rewrite process_log_file_by_key in *.
  destruct (rows_of_key k f);
    [now apply Permutation_sym, Permutation_nil in HF|].
  destruct f as [rows|]; [|now apply Permutation_sym, Permutation_nil in HF].
  now apply Permutation_sym, Permutation_length_1_inv in HF.
Qed.

Lemma log_readings_confined (k : Key) (before after : list LogFile)
      (f : LogFile) (log_files : list LogFile) :
  (forall g, In g (before ++ after) -> rows_of_key k g = []) ->
  Permutation log_files (before ++ f :: after) ->
  Permutation (readings (rows_of_key k f)) (log_readings k log_files).
Proof.
  intros Hconf HP. unfold log_readings.
  apply perm_trans with
    (flat_map (fun f => readings (rows_of_key k f)) (before ++ f :: after));
    [|now apply Permutation_sym, Permutation_flat_map].
  assert (Hother : forall l, (forall g, In g l -> rows_of_key k g = []) ->
            flat_map (fun f => readings (rows_of_key k f)) l = []).
  { induction l as [|g l IH]; simpl; intros Hl; [reflexivity|].
    rewrite IH by (intros; apply Hl; now right).
    now rewrite (Hl g (or_introl eq_refl)). }
  rewrite flat_map_app. simpl.
  rewrite !Hother by (intros; apply Hconf, in_or_app; auto).
  simpl. rewrite app_nil_r. apply Permutation_refl.
Qed.

End WithSorter.
End BalancesFacts.

(** * Properties of the monthly balances *)

Module BalancesClaims.
Import Balances BalancesFacts.

(** Two January readings of participant 1 in one file, and a file that
    only knows participant 2. *)
Definition file_A : LogFile :=
  Some [ {| timestamp := Some (at_hour 2022 1 28 9);
            participantId := 1; availableBalance := Some 200%Q |};
         {| timestamp := Some (at_hour 2022 1 2 9);
            participantId := 1; availableBalance := Some 100%Q |} ].

Definition file_B : LogFile :=
  Some [ {| timestamp := Some (at_hour 2022 1 15 9);
            participantId := 2; availableBalance := Some 50%Q |} ].

Definition jan_2022 : Z := month_ordinal 2022 1.

(** C1. When all the rows of an EntityPeriodKey are in one log file, the
    merged table has a row for the key whose [start_balance] is the value
    of an earliest reading of the key in the whole log and whose
    [end_balance] is the value of a latest one (both are missing exactly
    when no row of the key carries a balance), and the row is the same in
    whatever order the files are discovered. *)
Theorem single_file_key_start_end
    (S : Sorter) (before after : list LogFile) (f : LogFile) (k : Key)
    (log_files : list LogFile) :
  (forall g, In g (before ++ after) -> rows_of_key k g = []) ->
  rows_of_key k f <> [] ->
  Permutation log_files (before ++ f :: after) ->
  exists r,
    lookup_balance k (bf_rows (monthly_balances_df log_files)) = Some r /\
    lookup_balance k (bf_rows (monthly_balances_df (before ++ f :: after)))
      = Some r /\
    match start_balance r with
    | Some v => earliest (log_readings k log_files) v
    | None => log_readings k log_files = []
    end /\
    match end_balance r with
    | Some v => latest (log_readings k log_files) v
    | None => log_readings k log_files = []
    end.
Proof.
  intros Hconf Hf HP.
  destruct f as [rows|]; [|now elim Hf].
  set (row := summarize_chunk_group (chunk_group k (with_month rows))).
  assert (Hrow : filter (fun r => key_eqb k (summary_key r))
                   (process_log_file (Some rows)) = [row]).
  { rewrite process_log_file_by_key.
    destruct (rows_of_key k (Some rows)); [now elim Hf|reflexivity]. }
  exists (summarize_month_group (k, [row])).
  split; [|split].
  - rewrite bf_rows_monthly_balances_df.
    apply combine_balances_lookup.
    now rewrite (@confined_summaries S k before after _ _ Hconf HP).
  - rewrite bf_rows_monthly_balances_df.
    apply combine_balances_lookup.
    now rewrite (@confined_summaries S k before after _ _ Hconf
                   (Permutation_refl _)).
  - pose proof (@log_readings_confined k before after _ _ Hconf HP) as HR.
    destruct (summarize_chunk_group_spec k rows) as (_ & Hs & He & _).
    fold row in Hs, He.
    cbn [summarize_month_group start_balance end_balance snd map].
    rewrite agg_first_singleton, agg_last_singleton.
    split.
    + destruct (chunk_start_balance row).
      * now apply (earliest_perm HR).
      * rewrite Hs in HR. now apply Permutation_nil in HR.
    + destruct (chunk_end_balance row).
      * now apply (latest_perm HR).
      * rewrite He in HR. now apply Permutation_nil in HR.
Qed.

Lemma single_file_key_start_end_witness :
  exists r,
    lookup_balance (1, jan_2022)%Z
      (bf_rows (monthly_balances_df (S := stable_sorter) [file_A; file_B]))
      = Some r /\
    lookup_balance (1, jan_2022)%Z
      (bf_rows (monthly_balances_df (S := stable_sorter) ([file_B] ++ file_A :: [])))
      = Some r /\
    match start_balance r with
    | Some v => earliest (log_readings (1, jan_2022)%Z [file_A; file_B]) v
    | None => log_readings (1, jan_2022)%Z [file_A; file_B] = []
    end /\
    match end_balance r with
    | Some v => latest (log_readings (1, jan_2022)%Z [file_A; file_B]) v
    | None => log_readings (1, jan_2022)%Z [file_A; file_B] = []
    end.
Proof.
  apply (single_file_key_start_end stable_sorter [file_B] [] file_A).
  - intros g [<-|[]]. vm_compute. reflexivity.
  - vm_compute. discriminate.
  - apply perm_swap.
Defined.

(** The scenario of the specification: the merged row of participant 1
    for January starts at 100 and ends at 200. *)
Example scenario_two_files :
  map (fun r => (start_balance r, end_balance r))
      (filter (fun r => key_eqb (1, jan_2022)%Z (balance_key r))
         (bf_rows (monthly_balances_df (S := stable_sorter)
                     [file_B; file_A])))
  = [(Some 100%Q, Some 200%Q)].
Proof. vm_compute. reflexivity. Qed.

(** Two chunks with the same summary and different numbers of rows. *)
Definition one_reading : list LogRow :=
  [ {| timestamp := Some (at_hour 2022 1 2 9);
       participantId := 1; availableBalance := Some 100%Q |} ].

Definition two_readings : list LogRow :=
  [ {| timestamp := Some (at_hour 2022 1 2 9);
       participantId := 1; availableBalance := Some 100%Q |};
    {| timestamp := Some (at_hour 2022 1 3 9);
       participantId := 1; availableBalance := Some 100%Q |} ].

(** C3, as stated, fails: a row of [chunk_summary] has the two keys and
    the aggregations first, last and mean, and nothing in it is the number
    of rows of its group.  The two chunks above give the same summary row
    while their groups have one and two rows. *)
Lemma chunk_summary_has_no_sample_count :
  ~ exists sample_count : ChunkSummaryRow -> nat,
      forall (rows : list LogRow) (r : ChunkSummaryRow),
        In r (process_log_file (S := stable_sorter) (Some rows)) ->
        sample_count r
        = List.length (rows_of_key (summary_key r) (Some rows)).
Proof.
  intros [sample_count H].
  set (r := {| s_participantId := 1; s_Month := jan_2022;
               chunk_start_balance := Some 100%Q;
               chunk_end_balance := Some 100%Q;
               chunk_mean_balance := Some 100%Q |}).
  assert (H1 : In r (process_log_file (S := stable_sorter)
                       (Some one_reading)))
    by (vm_compute; left; reflexivity).
  assert (H2 : In r (process_log_file (S := stable_sorter)
                       (Some two_readings)))
    by (vm_compute; left; reflexivity).
  apply H in H1. apply H in H2. rewrite H1 in H2.
  vm_compute in H2. discriminate.
Qed.

(** C3, amended.  For every log file that can be read, [chunk_summary] has
    exactly one row per (participantId, Month) group seen in the file and
    none for the other keys.  The row carries three aggregations:
    [chunk_start_balance] is the balance of an earliest row of the group
    that has a balance, [chunk_end_balance] that of a latest one, and
    [chunk_mean_balance] the arithmetic mean of the balances of the group;
    all three are missing when no row of the group has a balance. *)
Theorem chunk_summary_per_group
    (S : Sorter) (rows : list LogRow) (k : Key) :
  let rs := readings (rows_of_key k (Some rows)) in
  match rows_of_key k (Some rows) with
  | [] =>
      filter (fun r => key_eqb k (summary_key r))
             (process_log_file (Some rows)) = []
  | _ :: _ =>
      exists r,
        filter (fun r => key_eqb k (summary_key r))
               (process_log_file (Some rows)) = [r] /\
        summary_key r = k /\
        match chunk_start_balance r with
        | Some v => earliest rs v
        | None => rs = []
        end /\
        match chunk_end_balance r with
        | Some v => latest rs v
        | None => rs = []
        end /\
        chunk_mean_balance r = mean_of_readings rs
  end.
Proof.
  intros rs. subst rs.
  pose proof (process_log_file_by_key k (Some rows)) as H.
  pose proof (summarize_chunk_group_spec k rows) as Hspec.
  destruct (rows_of_key k (Some rows)) as [|x t] eqn:E; [exact H|].
  exists (summarize_chunk_group (chunk_group k (with_month rows))).
  split; [exact H|]. exact Hspec.
Qed.

End BalancesClaims.

(** * Properties of the attribute buckets *)

Module DemographicsClaims.
Import Demographics.
Local Open Scope string_scope.

(** A participant aged 30. *)
Definition aged_30 : ParticipantRow :=
  {| p_participantId := 7;
     householdSize := Number 2;
     haveKids := Some false;
     age := Number 30;
     educationLevel := Some "Graduate";
     interestGroup := Some "C";
     joviality := Number (1 # 2) |}.

(** C10. The age bucket depends on the clock: the birth year is the
    current year minus the age, the last bin edge is the current year plus
    one, and the same attribute row is "Millennial (1981-96)" for a run in
    2026 and "Gen Z (1997+)" for a run in 2027. *)
Theorem age_group_depends_on_current_year :
  (forall current_year a,
      birthYear current_year (Some a) = Some (current_year - a)%Z) /\
  (forall current_year,
      last (age_bins current_year) 0%Z = (current_year + 1)%Z) /\
  exists (r : ParticipantRow) (y1 y2 : Z),
    map (get "age_group") (rows (process_participants y1 (Some [r]))) =
      [Str "Millennial (1981-96)"] /\
    map (get "age_group") (rows (process_participants y2 (Some [r]))) =
      [Str "Gen Z (1997+)"].
Proof.
  split; [reflexivity|]. split; [reflexivity|].
  exists aged_30, 2026%Z, 2027%Z. split; vm_compute; reflexivity.
Qed.



End DemographicsClaims.

(** * Facts about frames *)

Section FrameFacts.

Lemma cell_eqb_refl (a : cell) : cell_eqb a a = true.
Proof.
  destruct a; simpl; auto.
  - apply Z.eqb_refl.
  - apply Qeq_bool_iff. reflexivity.
  - apply String.eqb_refl.
  - now destruct b.
Qed.

Lemma cell_eqb_sym (a b : cell) : cell_eqb a b = cell_eqb b a.
Proof.
  destruct a, b; simpl; auto.
  - apply Z.eqb_sym.
  - destruct (Qeq_bool q q0) eqn:E, (Qeq_bool q0 q) eqn:E'; auto.
    + apply Qeq_bool_iff in E. symmetry in E.
      apply Qeq_bool_iff in E. congruence.
    + apply Qeq_bool_iff in E'. symmetry in E'.
      apply Qeq_bool_iff in E'. congruence.
  - apply String.eqb_sym.
  - now destruct b0, b.
Qed.

Lemma cell_eqb_trans (a b c : cell) :
  cell_eqb a b = true -> cell_eqb b c = true -> cell_eqb a c = true.
Proof.
  destruct a, b; simpl; try discriminate; destruct c; simpl;
    try discriminate; auto.
  - rewrite !Z.eqb_eq. congruence.
  - rewrite !Qeq_bool_iff. intros H1 H2. now rewrite H1.
  - rewrite !String.eqb_eq. congruence.
  - destruct b0, b, b1; auto.
Qed.

Lemma same_key_refl (on : list string) (r : Row) : same_key on r r = true.
Proof.
  unfold same_key. apply forallb_forall. intros; apply cell_eqb_refl.
Qed.

Lemma same_key_sym (on : list string) (a b : Row) :
  same_key on a b = same_key on b a.
Proof.
  unfold same_key. induction on as [|c t IH]; simpl; [reflexivity|].
  now rewrite IH, cell_eqb_sym.
Qed.

Lemma same_key_trans (on : list string) (a b c : Row) :
  same_key on a b = true -> same_key on b c = true -> same_key on a c = true.
Proof.
  unfold same_key. rewrite !forallb_forall. intros H1 H2 x Hx.
  eapply cell_eqb_trans; [apply H1|apply H2]; exact Hx.
Qed.

Lemma drop_duplicate_rows_incl (cols : list string) (l : list Row) (r : Row) :
  In r (drop_duplicate_rows cols l) -> In r l.
Proof.
  induction l as [|x t IH]; simpl; [tauto|].
  intros [H|H]; [now left|]. right. apply IH.
  now apply filter_In in H.
Qed.

Lemma drop_duplicate_rows_covers (cols : list string) (l : list Row)
      (r : Row) :
  In r l ->
  exists r', In r' (drop_duplicate_rows cols l) /\ same_key cols r' r = true.
Proof.
  induction l as [|x t IH]; simpl; [tauto|].
  intros [->|H].
  - exists r. split; [now left|apply same_key_refl].
  - destruct (IH H) as (r' & Hin & Hk).
    destruct (same_key cols x r') eqn:E.
    + exists x. split; [now left|]. now apply same_key_trans with r'.
    + exists r'. split; [|exact Hk]. right.
      apply filter_In. split; [exact Hin|]. now rewrite E.
Qed.

(** The rows of a frame cut down to its key columns. *)
Definition key_cells (r : Row) : Row :=
  map (fun c => (c, get c r)) Merge.key_columns.

Lemma same_key_key_cells (r : Row) :
  same_key Merge.key_columns (key_cells r) r = true.
Proof.
  unfold same_key, key_cells, Merge.key_columns. simpl.
  rewrite !cell_eqb_refl.
  destruct (get "participantId" r); simpl; rewrite ?cell_eqb_refl;
    reflexivity.
Qed.

End FrameFacts.

(** * Properties of the merge *)

Module MergeClaims.
Import Balances Journal Demographics Merge Financial.
Local Open Scope string_scope.

(** The keys of the grid built from a table other than the balances are
    the keys of that table. *)
Lemma grid_of_table_keys (t : DataFrame) :
  let grid := drop_duplicates (select key_columns t) in
  (forall r, In r (rows t) ->
     exists r', In r' (rows grid) /\ same_key key_columns r' r = true) /\
  (forall r', In r' (rows grid) ->
     exists r, In r (rows t) /\ r' = key_cells r).
Proof.
  cbv zeta. unfold drop_duplicates, select. cbn [rows columns].
  change (map (fun r => map (fun c => (c, get c r)) key_columns) (rows t))
    with (map key_cells (rows t)).
  split.
  - intros r Hr.
    destruct (drop_duplicate_rows_covers key_columns
                (map key_cells (rows t)) (key_cells r)) as (r' & Hin & Hk).
    { now apply in_map. }
    exists r'. split; [exact Hin|].
    eapply same_key_trans; [exact Hk|apply same_key_key_cells].
  - intros r' Hr'. apply drop_duplicate_rows_incl in Hr'.
    apply in_map_iff in Hr'. destruct Hr' as (r & <- & Hr). eauto.
Qed.

(** Lines 269-277 on their own, for any three tables: the grid of the
    merge is the first non-empty table among the monthly balances, the
    expense pivot and the income aggregate (the balances as they are, the
    other two cut down to their distinct keys), and the merge ends by the
    "No data available" exit, which is before anything is written, if and
    only if the three tables are empty. *)
Lemma grid_from_first_non_empty_table
    (monthly_balances_df df_expenses_pivot df_income participants_df
     : DataFrame) (logged_expense_cols : list string) :
  base_grid monthly_balances_df df_expenses_pivot df_income =
    (if negb (is_empty monthly_balances_df) then Some monthly_balances_df
     else option_map (fun t => drop_duplicates (select key_columns t))
            (find (fun t => negb (is_empty t))
                  [df_expenses_pivot; df_income])) /\
  (forall t,
      let grid := drop_duplicates (select key_columns t) in
      (forall r, In r (rows t) ->
         exists r', In r' (rows grid) /\ same_key key_columns r' r = true) /\
      (forall r', In r' (rows grid) ->
         exists r, In r (rows t) /\ r' = key_cells r)) /\
  (merge_and_finalize monthly_balances_df df_expenses_pivot df_income
     participants_df logged_expense_cols = Exited no_data_message
   <-> is_empty monthly_balances_df = true /\
       is_empty df_expenses_pivot = true /\
       is_empty df_income = true).
Proof.
  split; [|split].
  - unfold base_grid. cbn [find].
    destruct (is_empty monthly_balances_df); cbn [negb]; [|reflexivity].
    destruct (is_empty df_expenses_pivot); cbn [negb option_map];
      [|reflexivity].
    destruct (is_empty df_income); reflexivity.
  - intros t. apply grid_of_table_keys.
  - unfold merge_and_finalize.
    destruct (base_grid monthly_balances_df df_expenses_pivot df_income)
      as [base|] eqn:E; unfold base_grid in E.
    + split.
      * destruct (post_process _ _); discriminate.
      * intros (H1 & H2 & H3). rewrite H1, H2, H3 in E. discriminate.
    + split; [intros _|reflexivity].
      destruct (is_empty monthly_balances_df); [|discriminate].
      destruct (is_empty df_expenses_pivot); [|discriminate].
      destruct (is_empty df_income); [|discriminate].
      auto.
Qed.

(** Participant 1 has a balance in January only, a wage in February and a
    row in the attribute table. *)
Definition january_log : LogFile :=
  Some [ {| Balances.timestamp := Some (at_hour 2022 1 2 9);
            Balances.participantId := 1;
            availableBalance := Some 100%Q |} ].

Definition february_wage : JournalFile :=
  Some [ {| j_timestamp := Some (at_hour 2022 2 3 9);
            j_participantId := 1;
            j_category := "Wage";
            j_amount := Some 500%Q |} ].

Definition bachelor : ParticipantRow :=
  {| p_participantId := 1;
     householdSize := Number 3;
     haveKids := Some true;
     age := Number 30;
     educationLevel := Some "Bachelors";
     interestGroup := Some "A";
     joviality := Number (1 # 2) |}.

Definition grown_grid : Inputs :=
  {| log_files := [january_log];
     financial_journal := february_wage;
     participants := Some [bachelor];
     current_year := 2026 |}.

Definition written_rows (o : Outcome) : list Row :=
  match o with
  | Written df_final => rows df_final
  | _ => []
  end.


(** C4 fails on the code. The attributes are joined (line 283) before
    the outer joins of lines 288 and 299 add rows: the February row of
    participant 1, which the income join introduces, has "Unknown" in its
    category columns and nothing in its raw attribute columns, although
    participant 1 has a row in the attribute table. *)
Theorem joined_rows_miss_demographics :
  map (get "educationLevel")
      (rows (process_participants 2026 (Some [bachelor])))
    = [Str "Bachelors"] /\
  map (fun r => (get "participantId" r, get "Month" r,
                 get "educationLevel" r, get "age_group" r, get "age" r))
      (written_rows (preprocess_financial (S := stable_sorter) grown_grid))
    = [ (Int 1, Int (month_ordinal 2022 1),
         Str "Bachelors", Str "Millennial (1981-96)", Flt 30);
        (Int 1, Int (month_ordinal 2022 2),
         Str "Unknown", Str "Unknown", NA) ].
Proof. split; vm_compute; reflexivity. Qed.

(** No log file at all, and a journal with two purchases. *)
Definition two_purchases : JournalFile :=
  Some [ {| j_timestamp := Some (at_hour 2022 2 3 9);
            j_participantId := 5;
            j_category := "Food";
            j_amount := Some (-20)%Q |};
         {| j_timestamp := Some (at_hour 2022 2 9 9);
            j_participantId := 5;
            j_category := "Food";
            j_amount := Some (-30)%Q |} ].

Definition no_balance_log : Inputs :=
  {| log_files := [];
     financial_journal := two_purchases;
     participants := Some [bachelor];
     current_year := 2026 |}.

(** C2 fails on the code. When no chunk summary was collected, the empty
    table that stands in for the balances has an [object] Month column and
    line 119 raises on it: the run ends there, whatever the journal
    holds, and nothing is written. *)
Theorem no_balances_raises (S : Sorter) (inp : Inputs) :
  monthly_balance_summaries_list (log_files inp) = [] ->
  preprocess_financial inp =
  Raised (AttributeError "Can only use .dt accessor with datetimelike values").
Proof.
  intros H. unfold preprocess_financial, monthly_balances_df.
  now rewrite H.
Qed.

Lemma no_balances_raises_witness :
  is_empty (df_expenses_pivot (process_journal
                                 (financial_journal no_balance_log))) = false /\
  preprocess_financial (S := stable_sorter) no_balance_log =
  Raised (AttributeError "Can only use .dt accessor with datetimelike values").
Proof.
  split; [reflexivity|].
  apply (no_balances_raises stable_sorter no_balance_log). reflexivity.
Defined.

(** Past line 119 the same input would still not reach the output: with
    the expense pivot as the grid no table brings [mean_balance_approx],
    which line 336 reads. *)
Example empty_balances_then_key_error :
  let journal := process_journal two_purchases in
  merge_and_finalize
    {| columns := ["participantId"; "Month"; "start_balance"; "end_balance";
                   "mean_balance"];
       rows := [] |}
    (df_expenses_pivot journal) (df_income journal)
    (process_participants 2026 (Some [bachelor]))
    (logged_expense_cols journal)
  = Raised (KeyError "mean_balance_approx").
Proof. vm_compute. reflexivity. Qed.

(** With at least one chunk summary the balance table has a row. *)
Lemma combine_balances_not_empty (S : Sorter)
      (s : list ChunkSummaryRow) (l : list (list ChunkSummaryRow)) :
  s <> [] -> combine_balances (s :: l) <> [].
Proof.
  intros Hs. destruct s as [|x t]; [congruence|].
  unfold combine_balances, groupby. rewrite map_map.
  assert (Hin : In (summary_key x)
                   (group_keys
                      (map summary_key
                         (sort_values s_Month (List.concat ((x :: t) :: l)))))).
  { apply group_keys_In, in_map.
    apply (Permutation_in _ (Permutation_sym (sort_values_perm _ _))).
    now left. }
  destruct (group_keys _); [destruct Hin|discriminate].
Qed.

Lemma summaries_not_empty (S : Sorter) (log_files : list LogFile)
      (s : list ChunkSummaryRow) (l : list (list ChunkSummaryRow)) :
  monthly_balance_summaries_list log_files = s :: l -> s <> [].
Proof.
  intros H.
  assert (Hin : In s (monthly_balance_summaries_list log_files))
    by (rewrite H; now left).
  unfold monthly_balance_summaries_list in Hin. apply filter_In in Hin.
  destruct Hin as [_ Hs]. now destruct s.
Qed.

(** No log file, no journal, no attribute table. *)
Definition no_source : Inputs :=
  {| log_files := [];
     financial_journal := None;
     participants := None;
     current_year := 2026 |}.

(** C8 fails on the code. Lines 269-277 pick the grid in the stated
    order, but the script only reaches them with a non-empty balance
    table: without balances the run has already ended at line 119.  So no
    run ends by the "No data available" exit; with no source at all the
    three tables are empty and the run ends by the AttributeError of line
    119. *)
Theorem data_unavailable_exit_unreachable :
  (forall (S : Sorter) (inp : Inputs),
      preprocess_financial inp <> Exited no_data_message) /\
  (let journal := process_journal (financial_journal no_source) in
   bf_rows (monthly_balances_df (S := stable_sorter) (log_files no_source))
     = [] /\
   is_empty (df_expenses_pivot journal) = true /\
   is_empty (df_income journal) = true /\
   preprocess_financial (S := stable_sorter) no_source =
   Raised
     (AttributeError "Can only use .dt accessor with datetimelike values")).
Proof.
  split; [|repeat split].
  intros S inp.
  unfold preprocess_financial, monthly_balances_df.
  destruct (monthly_balance_summaries_list (log_files inp)) as [|s l] eqn:E;
    [discriminate|].
  pose proof (@combine_balances_not_empty S s l
                (@summaries_not_empty S _ _ _ E)) as Hne.
  unfold month_to_timestamp. cbn [bf_Month_dtype bf_columns bf_rows].
  unfold merge_and_finalize, base_grid, is_empty. cbn [columns rows].
  destruct (combine_balances (s :: l)); [congruence|].
  cbn [map negb]. destruct (post_process _ _); discriminate.
Qed.

(** Participant 1 has attributes, participant 2 has none. *)
Definition two_participants_log : LogFile :=
  Some [ {| Balances.timestamp := Some (at_hour 2022 1 2 9);
            Balances.participantId := 1;
            availableBalance := Some 100%Q |};
         {| Balances.timestamp := Some (at_hour 2022 1 5 9);
            Balances.participantId := 2;
            availableBalance := Some 10%Q |} ].

Definition one_profile : Inputs :=
  {| log_files := [two_participants_log];
     financial_journal := february_wage;
     participants := Some [bachelor];
     current_year := 2026 |}.


End MergeClaims.

(** * Properties of the employment tables *)

Module TurnoverClaims.
Import Turnover.

(** The employer readings of a participant on a day: the time and the
    employer of the log rows of that day that name an employer. *)
Definition employer_readings (p d : Z) (df_logs : list StatusRow)
  : list (Timestamp * Z) :=
  observations l_timestamp l_currentEmployer
    (filter (fun r => key_eqb (p, d) (status_key r)) df_logs).

(** The records of work.csv of a participant on a day. *)
Definition records (p d : Z) (work : list EmployedRow) : list EmployedRow :=
  filter (fun r => key_eqb (p, d) (e_participantId r, e_date r)) work.

(** The records of work.csv of an employer in a month. *)
Definition staff (e m : Z) (work : list EmployedRow) : list EmployedRow :=
  filter (fun r => key_eqb (e, m) (employed_key r)) work.

(** The rows of workers_by_company_month.csv of an employer in a month. *)
Definition headcounts (e m : Z) (workers : list CompanyMonthRow)
  : list CompanyMonthRow :=
  filter (fun w => key_eqb (e, m) (w_employerId w, w_month w)) workers.

(** A participant has one record on each day with an employer reading,
    bearing the employer of a latest such reading, and no record on the
    other days. *)
Definition daily_records_spec (df_logs : list StatusRow)
           (work : list EmployedRow) : Prop :=
  forall p d,
    match employer_readings p d df_logs with
    | [] => records p d work = []
    | _ :: _ =>
        exists r,
          records p d work = [r] /\
          e_participantId r = p /\ e_date r = d /\
          e_month r = period_M_of_date d /\
          latest (employer_readings p d df_logs) (employerId r)
    end.

(** An employer has one row for each month in which it has a record; the
    count is the number of distinct participants of its records of the
    month, which is at least one.  It has no row for the other months. *)
Definition headcount_spec (work : list EmployedRow)
           (workers : list CompanyMonthRow) : Prop :=
  forall e m,
    match staff e m work with
    | [] => headcounts e m workers = []
    | _ :: _ =>
        exists w,
          headcounts e m workers = [w] /\
          w_employerId w = e /\ w_month w = m /\
          worker_count w
          = List.length (nodup Z.eq_dec
                           (map e_participantId (staff e m work))) /\
          (0 < worker_count w)%nat
    end.

Lemma employed_records (p d : Z) (l : list DailyRow) :
  records p d (employed l) =
  employed (filter (fun r => key_eqb (p, d) (d_participantId r, d_date r)) l).
Proof.
  unfold records. induction l as [|x t IH]; simpl; [reflexivity|].
  destruct (d_currentEmployer x) as [e|] eqn:E; simpl.
  - destruct (key_eqb (p, d) (d_participantId x, d_date x)); simpl;
      rewrite ?E, IH; reflexivity.
  - destruct (key_eqb (p, d) (d_participantId x, d_date x)); simpl;
      rewrite ?E, IH; reflexivity.
Qed.

Section WithSorter.
Context {S : Sorter}.

Lemma df_employed_spec (df_logs : list StatusRow) :
  daily_records_spec df_logs (df_employed df_logs).
Proof.
  intros p d. unfold df_employed, df_daily.
  rewrite employed_records.
  rewrite (groupby_by_key status_key
             (fun r => (d_participantId r, d_date r)) daily_row)
    by (intros [[? ?] ?]; reflexivity).
  set (g := filter (fun r => key_eqb (p, d) (status_key r))
                   (sort_values l_timestamp df_logs)).
  assert (HP : Permutation g
                 (filter (fun r => key_eqb (p, d) (status_key r)) df_logs))
    by apply Permutation_filter, sort_values_perm.
  assert (HS : StronglySorted
                 (fun a b => (l_timestamp a <= l_timestamp b)%Z) g)
    by apply StronglySorted_filter, sort_values_sorted.
  pose proof (observations_perm l_timestamp l_currentEmployer HP) as HR.
  fold (employer_readings p d df_logs) in HR.
  pose proof (@agg_last_sorted _ _ l_timestamp l_currentEmployer _ HS) as HL.
  destruct g as [|x t] eqn:Eg.
  - simpl in HR. apply Permutation_nil in HR. now rewrite HR.
  - cbn [employed daily_row d_currentEmployer snd].
    destruct (agg_last (map l_currentEmployer (x :: t))) as [e|].
    + pose proof (latest_perm HR HL) as Hlast.
      destruct (employer_readings p d df_logs) as [|o os] eqn:Eo.
      * destruct Hlast as (tm & [] & _).
      * eexists. split; [reflexivity|]. cbn. auto.
    + rewrite HL in HR. apply Permutation_nil in HR. now rewrite HR.
Qed.

Lemma workers_by_company_spec (df_logs : list StatusRow) :
  headcount_spec (df_employed df_logs) (workers_by_company df_logs).
Proof.
  intros e m. unfold headcounts, workers_by_company.
  rewrite (groupby_by_key employed_key
             (fun w => (w_employerId w, w_month w)) company_month_row)
    by (intros [[? ?] ?]; reflexivity).
  fold (staff e m (df_employed df_logs)).
  destruct (staff e m (df_employed df_logs)) as [|x t] eqn:E;
    [reflexivity|].
  eexists. split; [reflexivity|].
  split; [reflexivity|]. split; [reflexivity|]. split; [reflexivity|].
  change (0 < nunique (map e_participantId (x :: t)))%nat.
  unfold nunique.
  destruct (nodup Z.eq_dec (map e_participantId (x :: t)))
    as [|y ys] eqn:N; [|simpl; lia].
  exfalso.
  assert (H : In (e_participantId x)
                 (nodup Z.eq_dec (map e_participantId (x :: t))))
    by (apply nodup_In; now left).
  rewrite N in H. destruct H.
Qed.

End WithSorter.

(** March and April 2022.  Participant 9 works for employer 7 in March;
    the evening reading of 1 March has no employer.  In April participant
    9 has no employer, and participant 10 works for employer 8. *)
Definition march_april : list LogFile :=
  [ Some [ {| timestamp := Some (at_hour 2022 3 1 8);
              participantId := 9; currentEmployer := Some 7%Z |};
           {| timestamp := Some (at_hour 2022 3 1 20);
              participantId := 9; currentEmployer := None |};
           {| timestamp := Some (at_hour 2022 3 2 8);
              participantId := 9; currentEmployer := Some 7%Z |} ];
    None;
    Some [ {| timestamp := Some (at_hour 2022 4 1 8);
              participantId := 9; currentEmployer := None |};
           {| timestamp := Some (at_hour 2022 4 1 8);
              participantId := 10; currentEmployer := Some 8%Z |};
           {| timestamp := None;
              participantId := 10; currentEmployer := Some 7%Z |} ] ].

(** C9. When the script saves its tables, work.csv has, for each
    participant and day, one record when the day has a reading with an
    employer, bearing the employer of a chronologically last such reading,
    and none otherwise; workers_by_company_month.csv has, for each
    employer and month, one row when the employer has a record in the
    month, whose count is the number of distinct participants with such a
    record and is at least one, and none otherwise. *)
Theorem employment_records_and_headcount
    (S : Sorter) (log_files : list LogFile)
    (work : list EmployedRow) (workers : list CompanyMonthRow) :
  preprocess_turnover log_files = Saved work workers ->
  daily_records_spec (List.concat (all_chunks log_files)) work /\
  headcount_spec work workers.
Proof.
  unfold preprocess_turnover.
  destruct log_files as [|f fs]; [discriminate|].
  destruct (all_chunks (f :: fs)) as [|c cs]; [discriminate|].
  intros H. inversion H; subst. split.
  - apply df_employed_spec.
  - apply workers_by_company_spec.
Qed.

Lemma employment_records_and_headcount_witness :
  daily_records_spec (List.concat (all_chunks march_april))
    (df_employed (S := stable_sorter) (List.concat (all_chunks march_april)))
  /\
  headcount_spec
    (df_employed (S := stable_sorter) (List.concat (all_chunks march_april)))
    (workers_by_company (S := stable_sorter)
       (List.concat (all_chunks march_april))).
Proof.
  apply (employment_records_and_headcount stable_sorter march_april).
  reflexivity.
Defined.

(** The scenario of the specification: employer 7 has one worker in March
    and no row in April. *)
Example scenario_headcount :
  preprocess_turnover (S := stable_sorter) march_april =
  Saved
    [ {| e_participantId := 9; e_date := days_from_civil 2022 3 1;
         employerId := 7; e_month := month_ordinal 2022 3 |};
      {| e_participantId := 9; e_date := days_from_civil 2022 3 2;
         employerId := 7; e_month := month_ordinal 2022 3 |};
      {| e_participantId := 10; e_date := days_from_civil 2022 4 1;
         employerId := 8; e_month := month_ordinal 2022 4 |} ]
    [ {| w_employerId := 7; w_month := month_ordinal 2022 3;
         worker_count := 1 |};
      {| w_employerId := 8; w_month := month_ordinal 2022 4;
         worker_count := 1 |} ].
Proof. vm_compute. reflexivity. Qed.

(** The script saves its tables as soon as one log file can be read. *)
Lemma turnover_saves (S : Sorter) (log_files : list LogFile)
      (file_rows : list LogRow) :
  In (Some file_rows) log_files ->
  exists work workers, preprocess_turnover log_files = Saved work workers.
Proof.
  intros Hin. unfold preprocess_turnover.
  destruct log_files as [|f fs]; [destruct Hin|].
  destruct (all_chunks (f :: fs)) as [|c cs] eqn:E; [|eauto].
  exfalso. revert E Hin. generalize (f :: fs). clear.
  induction l as [|g gs IH]; simpl; [tauto|].
  destruct g; [discriminate|].
  intros E [H|H]; [discriminate|]. now apply IH.
Qed.

End TurnoverClaims.

(** * Facts about rows and about the expense pivot *)

Section RowFacts.

Lemma get_set (c c' : string) (v : cell) (r : Row) :
  get c (set c' v r) = if String.eqb c c' then v else get c r.
Proof.
  induction r as [|[k x] t IH]; simpl.
  - reflexivity.
  - destruct (String.eqb c' k) eqn:E; simpl.
    + apply String.eqb_eq in E. subst k.
      destruct (String.eqb c c'); reflexivity.
    + rewrite IH. destruct (String.eqb c k) eqn:E'; [|reflexivity].
      apply String.eqb_eq in E'. subst k.
      now rewrite String.eqb_sym, E.
Qed.

Lemma get_app (c : string) (l1 l2 : Row) :
  get c (l1 ++ l2) =
  if has_column c (map fst l1) then get c l1 else get c l2.
Proof.
  induction l1 as [|[k x] t IH]; simpl; [reflexivity|].
  destruct (String.eqb c k); simpl; [reflexivity|exact IH].
Qed.

(** A column looked up in cells that were built from a list of names. *)
Lemma get_map_named (name : string -> string) (value : string -> cell)
      (c : string) (l : list string) :
  (forall a b, name a = name b -> a = b) ->
  In c l ->
  get (name c) (map (fun a => (name a, value a)) l) = value c.
Proof.
  intros Hinj. induction l as [|a t IH]; simpl; [tauto|].
  intros [->|H].
  - now rewrite String.eqb_refl.
  - destruct (String.eqb (name c) (name a)) eqn:E; [|now apply IH].
    apply String.eqb_eq, Hinj in E. now subst.
Qed.

Lemma has_column_map_named (name : string -> string) (c : string)
      (l : list string) :
  (forall a, String.eqb c (name a) = false) ->
  has_column c (map name l) = false.
Proof.
  intros H. induction l as [|a t IH]; simpl; [reflexivity|].
  now rewrite H, IH.
Qed.

Lemma has_column_In (c : string) (l : list string) :
  has_column c l = true <-> In c l.
Proof.
  unfold has_column. rewrite existsb_exists. split.
  - intros (x & Hx & E). apply String.eqb_eq in E. now subst.
  - intros H. exists c. split; [exact H|apply String.eqb_refl].
Qed.

Lemma present_map_Some (A B : Type) (f : A -> B) (l : list A) :
  present (map (fun a => Some (f a)) l) = map f l.
Proof. induction l; simpl; congruence. Qed.

End RowFacts.

Module JournalFacts.
Import Journal.
Local Open Scope string_scope.

Lemma prefix_empty (s : string) : String.prefix "" s = true.
Proof. now destruct s. Qed.

Lemma amount_column_prefix (c : string) :
  String.prefix "logged_expense_" (amount_column c) = true.
Proof. cbv -[String.prefix]. cbn. apply prefix_empty. Qed.

Lemma count_column_prefix (c : string) :
  String.prefix "logged_count_" (count_column c) = true.
Proof. cbv -[String.prefix]. cbn. apply prefix_empty. Qed.

Lemma amount_column_not_count (c : string) :
  String.prefix "logged_count_" (amount_column c) = false.
Proof. reflexivity. Qed.

Lemma count_column_not_amount (c : string) :
  String.prefix "logged_expense_" (count_column c) = false.
Proof. reflexivity. Qed.

Lemma amount_column_inj (a b : string) :
  amount_column a = amount_column b -> a = b.
Proof. unfold amount_column. simpl. congruence. Qed.

Lemma count_column_inj (a b : string) :
  count_column a = count_column b -> a = b.
Proof. unfold count_column. simpl. congruence. Qed.

Lemma count_is_not_amount (a b : string) :
  String.eqb (count_column a) (amount_column b) = false.
Proof. reflexivity. Qed.

Lemma amount_column_is_total (c : string) :
  String.eqb (amount_column c) "logged_expense_total" = String.eqb c "total".
Proof. reflexivity. Qed.

Lemma amount_column_is_count (c : string) :
  String.eqb (amount_column c) "logged_expense_count" = String.eqb c "count".
Proof. reflexivity. Qed.

Lemma filter_all (A : Type) (f : A -> bool) (l : list A) :
  (forall x, In x l -> f x = true) -> filter f l = l.
Proof.
  induction l as [|x t IH]; simpl; intros H; [reflexivity|].
  rewrite (H x (or_introl eq_refl)), IH; [reflexivity|].
  intros; apply H; now right.
Qed.

Lemma filter_none (A : Type) (f : A -> bool) (l : list A) :
  (forall x, In x l -> f x = false) -> filter f l = [].
Proof. apply filter_nil_iff. Qed.

(** Line 174 finds the amount columns and line 180 the count columns. *)
Lemma expense_columns_unstacked (expenses : list Transaction)
      (categories : list string) :
  expense_columns (unstacked expenses categories)
  = map amount_column categories.
Proof.
  unfold expense_columns, unstacked. cbn [columns].
  rewrite !filter_app.
  rewrite (filter_all (String.prefix "logged_expense_")
             (map amount_column categories)).
  - rewrite (filter_none (String.prefix "logged_expense_")
               (map count_column categories)).
    + apply app_nil_r.
    + intros x Hx. apply in_map_iff in Hx. destruct Hx as (c & <- & _).
      apply count_column_not_amount.
  - intros x Hx. apply in_map_iff in Hx. destruct Hx as (c & <- & _).
    apply amount_column_prefix.
Qed.

Lemma count_columns_with_total (expenses : list Transaction)
      (categories : list string) :
  count_columns (with_expense_total (unstacked expenses categories))
  = map count_column categories.
Proof.
  assert (H : filter (String.prefix "logged_count_")
                (columns (unstacked expenses categories))
              = map count_column categories).
  { unfold unstacked. cbn [columns]. rewrite !filter_app.
    rewrite (filter_none (String.prefix "logged_count_")
               (map amount_column categories)).
    - rewrite (filter_all (String.prefix "logged_count_")
                 (map count_column categories)); [reflexivity|].
      intros x Hx. apply in_map_iff in Hx. destruct Hx as (c & <- & _).
      apply count_column_prefix.
    - intros x Hx. apply in_map_iff in Hx. destruct Hx as (c & <- & _).
      apply amount_column_not_count. }
  unfold count_columns, with_expense_total.
  destruct (expense_columns (unstacked expenses categories)); [exact H|].
  unfold assign. cbn [columns].
  destruct (has_column _ _); [exact H|].
  rewrite filter_app, H. simpl. apply app_nil_r.
Qed.

(** The cells of a row of the unstacked table. *)
Lemma pivot_row_keys (expenses : list Transaction)
      (categories : list string) (p m : Z) :
  get "participantId" (pivot_row expenses categories p m) = Int p /\
  get "Month" (pivot_row expenses categories p m) = Int m.
Proof. split; reflexivity. Qed.

Lemma pivot_row_amount (expenses : list Transaction)
      (categories : list string) (p m : Z) (c : string) :
  In c categories ->
  get (amount_column c) (pivot_row expenses categories p m)
  = Flt (total_amount expenses p m c).
Proof.
  intros Hc. unfold pivot_row.
  change (get (amount_column c)
            (map (fun c => (amount_column c,
                            Flt (total_amount expenses p m c))) categories
             ++ map (fun c => (count_column c,
                               Flt (transaction_count expenses p m c)))
                    categories)%list
          = Flt (total_amount expenses p m c)).
  rewrite get_app.
  assert (H : has_column (amount_column c)
                (map fst
                   (map (fun c => (amount_column c,
                                   Flt (total_amount expenses p m c)))
                      categories)) = true).
  { apply has_column_In. rewrite map_map. apply in_map_iff.
    exists c. split; [reflexivity|exact Hc]. }
  rewrite H.
  apply (get_map_named amount_column
           (fun c => Flt (total_amount expenses p m c)));
    [exact amount_column_inj|exact Hc].
Qed.

Lemma pivot_row_count (expenses : list Transaction)
      (categories : list string) (p m : Z) (c : string) :
  In c categories ->
  get (count_column c) (pivot_row expenses categories p m)
  = Flt (transaction_count expenses p m c).
Proof.
  intros Hc. unfold pivot_row.
  change (get (count_column c)
            (map (fun c => (amount_column c,
                            Flt (total_amount expenses p m c))) categories
             ++ map (fun c => (count_column c,
                               Flt (transaction_count expenses p m c)))
                    categories)%list
          = Flt (transaction_count expenses p m c)).
  rewrite get_app, map_map.
  rewrite has_column_map_named by (intros; apply count_is_not_amount).
  apply (get_map_named count_column
           (fun c => Flt (transaction_count expenses p m c)));
    [exact count_column_inj|exact Hc].
Qed.

Lemma rows_unstacked (expenses : list Transaction)
      (categories : list string) (r : Row) :
  In r (rows (unstacked expenses categories)) ->
  exists p m, r = pivot_row expenses categories p m.
Proof.
  unfold unstacked. cbn [rows]. intros H.
  apply in_flat_map in H. destruct H as (p & _ & H).
  apply in_map_iff in H. destruct H as (m & <- & _). eauto.
Qed.

End JournalFacts.

(** * Properties of the expense pivot *)

Module JournalClaims.
Import Journal JournalFacts.
Local Open Scope string_scope.

Lemma sorted_strings_In (s : string) (l : list string) :
  In s (sorted_strings l) <-> In s l.
Proof.
  unfold sorted_strings. induction l as [|x t IH]; simpl; [tauto|].
  rewrite <- IH. generalize (fold_right insert_string [] t). clear.
  induction l as [|y u IH]; simpl; [intuition congruence|].
  destruct (String.leb x y); simpl; rewrite ?IH; intuition congruence.
Qed.

Lemma unique_strings_In (s : string) (l : list string) :
  In s (unique_strings l) <-> In s l.
Proof.
  unfold unique_strings. now rewrite sorted_strings_In, nodup_In.
Qed.

Lemma with_month_category (file_rows : list JournalRow) (t : Transaction) :
  In t (with_month file_rows) ->
  In (t_category t) (map j_category file_rows).
Proof.
  induction file_rows as [|x l IH]; simpl; [tauto|].
  destruct (j_timestamp x); simpl.
  - intros [<-|H]; [now left|right; now apply IH].
  - intros H. right. now apply IH.
Qed.

(** The rows of the pivot: the rows of the unstacked table with the two
    totals of lines 179 and 182. *)
Lemma rows_expenses_pivot (expenses : list Transaction)
      (categories : list string) :
  categories <> [] ->
  rows (expenses_pivot expenses categories) =
  map (fun r0 =>
         let r1 := set "logged_expense_total"
                       (sum_axis1 (map amount_column categories) r0) r0 in
         set "logged_expense_count"
             (sum_axis1 (map count_column categories) r1) r1)
      (rows (unstacked expenses categories)).
Proof.
  intros Hne. unfold expenses_pivot, with_expense_count.
  rewrite count_columns_with_total.
  unfold with_expense_total. rewrite expense_columns_unstacked.
  destruct categories as [|c cs]; [congruence|].
  cbn [map]. unfold assign. cbn [rows]. now rewrite map_map.
Qed.

Lemma sum_of_amounts (expenses : list Transaction)
      (categories : list string) (p m : Z) :
  sum_axis1 (map amount_column categories)
            (pivot_row expenses categories p m)
  = Flt (Qred (Qsum (map (total_amount expenses p m) categories))).
Proof.
  unfold sum_axis1, agg_sum. rewrite map_map.
  rewrite (map_ext_in _ (fun c => Some (total_amount expenses p m c))).
  - now rewrite present_map_Some.
  - intros c Hc. now rewrite pivot_row_amount.
Qed.

Lemma sum_of_counts (expenses : list Transaction)
      (categories : list string) (p m : Z) (v : cell) :
  sum_axis1 (map count_column categories)
            (set "logged_expense_total" v
                 (pivot_row expenses categories p m))
  = Flt (Qred (Qsum (map (transaction_count expenses p m) categories))).
Proof.
  unfold sum_axis1, agg_sum. rewrite map_map.
  rewrite (map_ext_in _ (fun c => Some (transaction_count expenses p m c))).
  - now rewrite present_map_Some.
  - intros c Hc. rewrite get_set.
    change (String.eqb (count_column c) "logged_expense_total") with false.
    now rewrite pivot_row_count.
Qed.

(** X25. In every row of the expense pivot, [logged_expense_total] is the
    sum over the categories of the journal of the amount of the row for
    the category, and [logged_expense_count] the sum of its counts; the
    amount and the count of a category are those of the transactions of
    the participant in the month for that category, every expense
    transaction falls under one of the categories, and a combination
    without transactions contributes the number 0.  The count column of
    every category holds its count, and the amount column of every
    category holds its amount unless the category is called total or
    count: the amount columns of these two share their names with the two
    totals and are overwritten by them. *)
Theorem expense_pivot_totals (file_rows : list JournalRow) (r : Row) :
  let expenses := df_expense_trans (with_month file_rows) in
  let categories := unique_strings (map j_category file_rows) in
  In r (rows (df_expenses_pivot (process_journal (Some file_rows)))) ->
  exists p m,
    get "participantId" r = Int p /\ get "Month" r = Int m /\
    get "logged_expense_total" r
      = Flt (Qred (Qsum (map (total_amount expenses p m) categories))) /\
    get "logged_expense_count" r
      = Flt (Qred (Qsum (map (transaction_count expenses p m) categories))) /\
    (forall c, In c categories -> c <> "total" -> c <> "count" ->
       get (amount_column c) r = Flt (total_amount expenses p m c)) /\
    (forall c, In c categories ->
       get (count_column c) r = Flt (transaction_count expenses p m c)) /\
    (forall t, In t expenses -> In (t_category t) categories) /\
    (forall c, cell_transactions expenses p m c = [] ->
       total_amount expenses p m c = 0%Q /\
       transaction_count expenses p m c = 0%Q).
Proof.
  intros expenses categories Hr.
  assert (Hcat : categories <> []).
  { destruct file_rows as [|x l]; [destruct Hr|].
    intros E.
    assert (H : In (j_category x) categories)
      by (apply unique_strings_In; now left).
    rewrite E in H. destruct H. }
  assert (Hrows : In r (rows (expenses_pivot expenses categories))).
  { destruct file_rows as [|x l]; [destruct Hr|].
    unfold process_journal in Hr. cbn [df_expenses_pivot] in Hr.
    fold expenses in Hr. fold categories in Hr.
    destruct expenses; [destruct Hr|exact Hr]. }
  rewrite (rows_expenses_pivot expenses Hcat) in Hrows.
  apply in_map_iff in Hrows. destruct Hrows as (r0 & <- & Hr0).
  apply rows_unstacked in Hr0. destruct Hr0 as (p & m & ->).
  exists p, m. cbv zeta.
  rewrite sum_of_amounts, sum_of_counts.
  split; [reflexivity|]. split; [reflexivity|].
  split; [now rewrite !get_set|]. split; [now rewrite !get_set|].
  split; [|split; [|split]].
  - intros c Hc Htotal Hcount. rewrite !get_set.
    rewrite amount_column_is_count, amount_column_is_total.
    apply String.eqb_neq in Htotal, Hcount. rewrite Htotal, Hcount.
    now apply pivot_row_amount.
  - intros c Hc. rewrite !get_set.
    change (String.eqb (count_column c) "logged_expense_count") with false.
    change (String.eqb (count_column c) "logged_expense_total") with false.
    now apply pivot_row_count.
  - intros t Ht. apply unique_strings_In.
    apply with_month_category.
    unfold expenses, df_expense_trans in Ht.
    now apply filter_In in Ht.
  - intros c H. unfold total_amount, transaction_count. rewrite H.
    split; reflexivity.
Qed.

Definition food_journal : list JournalRow :=
  [ {| j_timestamp := Some (at_hour 2022 2 3 9);
       j_participantId := 5;
       j_category := "Food";
       j_amount := Some (-20)%Q |};
    {| j_timestamp := Some (at_hour 2022 2 9 9);
       j_participantId := 5;
       j_category := "Food";
       j_amount := Some (-30)%Q |} ].

Definition food_row : Row :=
  [ ("participantId", Int 5); ("Month", Int (month_ordinal 2022 2));
    ("logged_expense_Food", Flt (-50)); ("logged_count_Food", Flt 2);
    ("logged_expense_total", Flt (-50)); ("logged_expense_count", Flt 2) ].

Lemma expense_pivot_totals_witness :
  let expenses := df_expense_trans (with_month food_journal) in
  let categories := unique_strings (map j_category food_journal) in
  exists p m,
    get "participantId" food_row = Int p /\
    get "Month" food_row = Int m /\
    get "logged_expense_total" food_row
      = Flt (Qred (Qsum (map (total_amount expenses p m) categories))) /\
    get "logged_expense_count" food_row
      = Flt (Qred (Qsum (map (transaction_count expenses p m) categories))) /\
    (forall c, In c categories -> c <> "total" -> c <> "count" ->
       get (amount_column c) food_row = Flt (total_amount expenses p m c)) /\
    (forall c, In c categories ->
       get (count_column c) food_row
       = Flt (transaction_count expenses p m c)) /\
    (forall t, In t expenses -> In (t_category t) categories) /\
    (forall c, cell_transactions expenses p m c = [] ->
       total_amount expenses p m c = 0%Q /\
       transaction_count expenses p m c = 0%Q).
Proof.
  apply (expense_pivot_totals food_journal food_row).
  vm_compute. left. reflexivity.
Defined.

(** The scenario of the specification: two purchases of food by
    participant 5 in February. *)
Example scenario_food :
  map (fun r => (get "participantId" r, get "Month" r,
                 get "logged_expense_Food" r, get "logged_count_Food" r,
                 get "logged_expense_total" r, get "logged_expense_count" r))
      (rows (df_expenses_pivot (process_journal MergeClaims.two_purchases)))
  = [ (Int 5, Int (month_ordinal 2022 2),
       Flt (-50), Flt 2, Flt (-50), Flt 2) ].
Proof. vm_compute. reflexivity. Qed.

(** Two expenses of participant 5 in February, one of them under a
    category that is called total. *)
Definition total_journal : list JournalRow :=
  [ {| j_timestamp := Some (at_hour 2022 2 3 9);
       j_participantId := 5;
       j_category := "Food";
       j_amount := Some (-20)%Q |};
    {| j_timestamp := Some (at_hour 2022 2 9 9);
       j_participantId := 5;
       j_category := "total";
       j_amount := Some (-30)%Q |} ].

(** The same with a category that is called count. *)
Definition count_journal : list JournalRow :=
  [ {| j_timestamp := Some (at_hour 2022 2 3 9);
       j_participantId := 5;
       j_category := "Food";
       j_amount := Some (-20)%Q |};
    {| j_timestamp := Some (at_hour 2022 2 9 9);
       j_participantId := 5;
       j_category := "count";
       j_amount := Some (-30)%Q |} ].

(** C7 fails on the code. The amount column of a category is named
    logged_expense_ followed by the category, and the total of the row
    logged_expense_total: for a category called total the two are one
    column.  Line 174 lists it among the amount columns, line 176 sums
    them, -20 and -30, and writes the sum, -50, over it.  In the row of the
    pivot the amount -30 of the category is lost, and the amount columns
    of the two categories, -20 and -50, add up to -70: not to the total
    of the row, -50. *)
Theorem category_named_total_is_overwritten :
  let expenses := df_expense_trans (with_month total_journal) in
  let categories := unique_strings (map j_category total_journal) in
  let february := month_ordinal 2022 2 in
  categories = ["Food"; "total"] /\
  map (total_amount expenses 5 february) categories = [(-20)%Q; (-30)%Q] /\
  exists r,
    rows (df_expenses_pivot (process_journal (Some total_journal))) = [r] /\
    get "participantId" r = Int 5 /\ get "Month" r = Int february /\
    map (fun c => get (amount_column c) r) categories
      = [Flt (-20); Flt (-50)] /\
    get "logged_expense_total" r = Flt (-50) /\
    sum_axis1 (map amount_column categories) r = Flt (-70).
Proof.
  cbv zeta. split; [vm_compute; reflexivity|].
  split; [vm_compute; reflexivity|].
  eexists. split; [vm_compute; reflexivity|].
  vm_compute. repeat split.
Qed.

(** A category called count loses its amount column to the count of the
    row, which line 180 writes over it: the amount columns of the row, -20
    and 2, add up to -18 against a total of -50. *)
Example category_named_count_is_overwritten :
  let expenses := df_expense_trans (with_month count_journal) in
  let categories := unique_strings (map j_category count_journal) in
  let february := month_ordinal 2022 2 in
  categories = ["Food"; "count"] /\
  map (total_amount expenses 5 february) categories = [(-20)%Q; (-30)%Q] /\
  exists r,
    rows (df_expenses_pivot (process_journal (Some count_journal))) = [r] /\
    map (fun c => get (amount_column c) r) categories
      = [Flt (-20); Flt 2] /\
    get "logged_expense_total" r = Flt (-50) /\
    get "logged_expense_count" r = Flt 2 /\
    sum_axis1 (map amount_column categories) r = Flt (-18).
Proof.
  cbv zeta. split; [vm_compute; reflexivity|].
  split; [vm_compute; reflexivity|].
  eexists. split; [vm_compute; reflexivity|].
  vm_compute. repeat split.
Qed.

End JournalClaims.

(** * Facts about the post-processing of the merged table *)

Module PostProcessFacts.
Import Merge.
Local Open Scope string_scope.

Lemma has_column_app (c : string) (l1 l2 : list string) :
  has_column c (l1 ++ l2)%list = has_column c l1 || has_column c l2.
Proof. apply existsb_app. Qed.

Lemma has_column_filter (c : string) (P : string -> bool) (l : list string) :
  has_column c (filter P l) = has_column c l && P c.
Proof.
  induction l as [|x t IH]; simpl; [reflexivity|].
  destruct (P x) eqn:E; simpl; rewrite IH.
  - destruct (String.eqb c x) eqn:E'; simpl; [|reflexivity].
    apply String.eqb_eq in E'. subst. now rewrite E.
  - destruct (String.eqb c x) eqn:E'; simpl; [|reflexivity].
    apply String.eqb_eq in E'. subst. rewrite E.
    now rewrite andb_false_r.
Qed.

Lemma has_column_assign (x c : string) (f : Row -> cell) (df : DataFrame) :
  has_column x (columns (assign c f df))
  = has_column x (columns df) || String.eqb x c.
Proof.
  unfold assign. cbn [columns].
  destruct (has_column c (columns df)) eqn:E.
  - destruct (String.eqb x c) eqn:E'; [|now rewrite orb_false_r].
    apply String.eqb_eq in E'. subst. now rewrite E.
  - rewrite has_column_app. simpl. now rewrite orb_false_r.
Qed.

Lemma fillna_idem (v x : cell) : fillna v (fillna v x) = fillna v x.
Proof. destruct x; simpl; auto. destruct v; reflexivity. Qed.

(** ** The fill loops *)

(** What a fill loop does to one row, for the columns of the list that
    are columns of the frame. *)
Definition fill_cells (v : cell) (l : list string) (r : Row) : Row :=
  fold_left (fun r c => set c (fillna v (get c r)) r) l r.

Lemma get_fill_cells (v : cell) (c : string) (l : list string) (r : Row) :
  get c (fill_cells v l r)
  = if has_column c l then fillna v (get c r) else get c r.
Proof.
  unfold fill_cells. revert r.
  induction l as [|c0 t IH]; intros r; simpl; [reflexivity|].
  rewrite IH, get_set.
  destruct (String.eqb c c0) eqn:E; simpl.
  - apply String.eqb_eq in E. subst c0.
    destruct (has_column c t); [apply fillna_idem|reflexivity].
  - reflexivity.
Qed.

Lemma columns_fill_column (v : cell) (df : DataFrame) (c0 : string) :
  columns (fill_column v df c0) = columns df.
Proof.
  unfold fill_column, assign.
  destruct (has_column c0 (columns df)) eqn:E; cbn [columns];
    rewrite ?E; reflexivity.
Qed.

Lemma columns_fill_loop (v : cell) (l : list string) (df : DataFrame) :
  columns (fold_left (fill_column v) l df) = columns df.
Proof.
  revert df. induction l as [|c0 t IH]; intros df; simpl; [reflexivity|].
  now rewrite IH, columns_fill_column.
Qed.

Lemma rows_fill_loop (v : cell) (l : list string) (df : DataFrame) :
  rows (fold_left (fill_column v) l df)
  = map (fill_cells v (filter (fun c => has_column c (columns df)) l))
        (rows df).
Proof.
  revert df. induction l as [|c0 t IH]; intros df; simpl.
  - symmetry. apply map_id.
  - rewrite IH, columns_fill_column. unfold fill_column.
    destruct (has_column c0 (columns df)); [|reflexivity].
    unfold assign. cbn [rows]. now rewrite map_map.
Qed.

(** ** The loop that adds the columns no source brought *)

Fixpoint add_cells (cols l : list string) (r : Row) : Row :=
  match l with
  | [] => r
  | c :: t =>
      if has_column c cols then add_cells cols t r
      else add_cells (cols ++ [c]) t (set c (default_value c) r)
  end.

Lemma rows_add_missing (l : list string) (df : DataFrame) :
  rows (fold_left add_missing_column l df)
  = map (add_cells (columns df) l) (rows df).
Proof.
  revert df. induction l as [|c0 t IH]; intros df; simpl.
  - symmetry. apply map_id.
  - rewrite IH. unfold add_missing_column.
    destruct (has_column c0 (columns df)) eqn:E; [reflexivity|].
    unfold assign. cbn [rows columns]. now rewrite E, map_map.
Qed.

Lemma get_add_cells (c : string) (l cols : list string) (r : Row) :
  get c (add_cells cols l r)
  = if has_column c cols then get c r
    else if has_column c l then default_value c else get c r.
Proof.
  revert cols r. induction l as [|c0 t IH]; intros cols r; simpl.
  - now destruct (has_column c cols).
  - destruct (has_column c0 cols) eqn:E0; rewrite IH.
    + destruct (has_column c cols) eqn:Ec; [reflexivity|].
      destruct (String.eqb c c0) eqn:E; [|reflexivity].
      apply String.eqb_eq in E. subst. congruence.
    + rewrite has_column_app, get_set. simpl. rewrite orb_false_r.
      destruct (String.eqb c c0) eqn:E.
      * apply String.eqb_eq in E. subst c0. rewrite E0. reflexivity.
      * rewrite orb_false_r. reflexivity.
Qed.

(** ** Selecting the final columns *)

Lemma get_select (c : string) (cols : list string) (r : Row) :
  get c (map (fun c' => (c', get c' r)) cols)
  = if has_column c cols then get c r else NA.
Proof.
  induction cols as [|c0 t IH]; simpl; [reflexivity|].
  destruct (String.eqb c c0) eqn:E; [|exact IH].
  apply String.eqb_eq in E. now subst.
Qed.

(** ** Columns computed by a function that may fail *)

Lemma traverse_Forall2 (A B : Type) (f : A -> option B)
      (l : list A) (l' : list B) :
  traverse f l = Some l' -> Forall2 (fun x y => f x = Some y) l l'.
Proof.
  revert l'. induction l as [|x t IH]; intros l'; simpl.
  - intros H. inversion H. constructor.
  - destruct (f x) eqn:E; [|discriminate].
    destruct (traverse f t); [|discriminate].
    intros H. inversion H; subst. constructor; auto.
Qed.

Lemma assign_partial_rows (c : string) (f : Row -> option cell) (e : Exn)
      (df df' : DataFrame) :
  assign_partial c f e df = inr df' ->
  Forall2 (fun r r' => exists v, f r = Some v /\ r' = set c v r)
          (rows df) (rows df').
Proof.
  unfold assign_partial.
  destruct (traverse _ (rows df)) as [rs|] eqn:E; [|discriminate].
  intros H. inversion H; subst. cbn [rows].
  apply traverse_Forall2 in E.
  eapply Forall2_impl; [|exact E].
  intros r r' Hr. simpl in Hr.
  destruct (f r) as [v|]; [|discriminate].
  inversion Hr. eauto.
Qed.

Lemma assign_partial_columns (x c : string) (f : Row -> option cell)
      (e : Exn) (df df' : DataFrame) :
  assign_partial c f e df = inr df' ->
  has_column x (columns df') = has_column x (columns df) || String.eqb x c.
Proof.
  unfold assign_partial.
  destruct (traverse _ (rows df)) as [rs|]; [|discriminate].
  intros H. inversion H; subst.
  apply (has_column_assign x c (fun _ => NA) df).
Qed.

Lemma Forall2_map_left (A B C : Type) (R : B -> C -> Prop) (f : A -> B)
      (l : list A) (l' : list C) :
  Forall2 R (map f l) l' <-> Forall2 (fun x y => R (f x) y) l l'.
Proof.
  revert l'. induction l as [|x t IH]; intros l'; simpl.
  - split; intros H; inversion H; constructor.
  - split; intros H; inversion H; subst; constructor; auto;
      now apply IH.
Qed.

Lemma Forall2_compose (A B C : Type) (R1 : A -> B -> Prop)
      (R2 : B -> C -> Prop) (l1 : list A) (l2 : list B) (l3 : list C) :
  Forall2 R1 l1 l2 -> Forall2 R2 l2 l3 ->
  Forall2 (fun a c => exists b, R1 a b /\ R2 b c) l1 l3.
Proof.
  intros H. revert l3. induction H as [|a b t1 t2 Hab _ IH]; intros l3 H3.
  - inversion H3. constructor.
  - inversion H3; subst. constructor; eauto.
Qed.

(** ** The cast of the count columns *)

(** What the loop of lines 362-363 does to one row: the columns of the
    list are cast, the others are kept. *)
Definition cast_rel (l : list string) (r r' : Row) : Prop :=
  forall c,
    if has_column c l then astype_int (get c r) = Some (get c r')
    else get c r' = get c r.

Lemma astype_int_idem (x v : cell) :
  astype_int x = Some v -> astype_int v = Some v.
Proof.
  destruct x; simpl; intros H; inversion H; reflexivity.
Qed.

Lemma cast_loop_raised (l : list string) (e : Exn) :
  fold_left cast_count_column l (inl e) = inl e.
Proof. induction l as [|c t IH]; simpl; auto. Qed.

Lemma cast_loop_rows (l : list string) (df df' : DataFrame) :
  fold_left cast_count_column l (inr df) = inr df' ->
  Forall2 (cast_rel l) (rows df) (rows df').
Proof.
  revert df. induction l as [|c0 t IH]; intros df; simpl.
  - intros H. inversion H; subst.
    clear. induction (rows df'); constructor; auto.
    intros c. reflexivity.
  - destruct (assign_partial c0 (fun r => astype_int (get c0 r))
                (ValueError c0) df) as [e|df1] eqn:E.
    + rewrite cast_loop_raised. discriminate.
    + intros H. apply IH in H. apply assign_partial_rows in E.
      pose proof (Forall2_compose E H) as HC.
      eapply Forall2_impl; [|exact HC].
      intros r r' (r1 & (v & Hv & ->) & Hrel) c.
      specialize (Hrel c). rewrite get_set in Hrel.
      change (has_column c (c0 :: t))
        with (String.eqb c c0 || has_column c t).
      destruct (String.eqb c c0) eqn:Ec; cbn [orb].
      * apply String.eqb_eq in Ec. subst c0.
        destruct (has_column c t).
        -- rewrite (astype_int_idem _ Hv) in Hrel. congruence.
        -- congruence.
      * exact Hrel.
Qed.

End PostProcessFacts.

(** * Properties of the post-processing *)

Module PostProcessClaims.
Import Merge PostProcessFacts.
Local Open Scope string_scope.

(** Every cell of every row belongs to a column of the frame. *)
Definition well_formed (df : DataFrame) : bool :=
  forallb (fun r => forallb (fun e => has_column (fst e) (columns df)) r)
          (rows df).

Lemma get_absent (c : string) (r : Row) :
  (forall e, In e r -> String.eqb c (fst e) = false) -> get c r = NA.
Proof.
  induction r as [|[k x] t IH]; simpl; intros H; [reflexivity|].
  pose proof (H (k, x) (or_introl eq_refl)) as Hk. cbn [fst] in Hk.
  rewrite Hk. apply IH.
  intros e He. apply H. now right.
Qed.

Lemma well_formed_get (df : DataFrame) (r : Row) (c : string) :
  well_formed df = true -> In r (rows df) ->
  has_column c (columns df) = false -> get c r = NA.
Proof.
  unfold well_formed. rewrite forallb_forall. intros Hwf Hr Hc.
  specialize (Hwf r Hr). rewrite forallb_forall in Hwf.
  apply get_absent. intros e He. specialize (Hwf e He).
  destruct (String.eqb c (fst e)) eqn:E; [|reflexivity].
  apply String.eqb_eq in E. subst c. congruence.
Qed.

(** A cell of a merged row after the two fill loops (lines 319-333). *)
Definition filled (logged_expense_cols cols0 : list string)
           (c : string) (r0 : Row) : cell :=
  let x := if has_column c (financial_fill_cols logged_expense_cols)
              && has_column c cols0
           then fillna (Flt 0) (get c r0) else get c r0 in
  if has_column c demo_group_cols && has_column c cols0
  then fillna (Str "Unknown") x else x.

(** A cell of the table selected at line 359, from the merged row [r0]
    and the net change [v] computed for it at line 337. *)
Definition selected (logged_expense_cols cols0 : list string)
           (v : cell) (c : string) (r0 : Row) : cell :=
  if has_column c (final_cols logged_expense_cols)
  then if has_column c cols0 || String.eqb c "mean_balance"
          || String.eqb c "net_logged_change"
       then if String.eqb c "net_logged_change" then v
            else if String.eqb c "mean_balance"
                 then filled logged_expense_cols cols0
                             "mean_balance_approx" r0
                 else filled logged_expense_cols cols0 c r0
       else default_value c
  else NA.

(** How a row of [df_final] comes from the row of [df_merged] at the same
    position. *)
Definition finalized (logged_expense_cols cols0 : list string)
           (r0 r7 : Row) : Prop :=
  exists v,
    cell_sub (filled logged_expense_cols cols0 "logged_income_total" r0)
             (filled logged_expense_cols cols0 "logged_expense_total" r0)
    = Some v /\
    forall c,
      if has_column c (filter (is_infix "count")
                              (final_cols logged_expense_cols))
      then astype_int (selected logged_expense_cols cols0 v c r0)
           = Some (get c r7)
      else get c r7 = selected logged_expense_cols cols0 v c r0.

Lemma post_process_rows (logged_expense_cols : list string)
      (df_merged df_final : DataFrame) :
  post_process logged_expense_cols df_merged = inr df_final ->
  has_column "mean_balance_approx" (columns df_merged) = true /\
  has_column "logged_income_total" (columns df_merged) = true /\
  has_column "logged_expense_total" (columns df_merged) = true /\
  Forall2 (finalized logged_expense_cols (columns df_merged))
          (rows df_merged) (rows df_final).
Proof.
  unfold post_process.
  set (cols := logged_expense_cols).
  set (df2 := fill_demographics (fill_financial cols df_merged)).
  assert (Hc2 : columns df2 = columns df_merged).
  { unfold df2, fill_demographics, fill_financial.
    now rewrite !columns_fill_loop. }
  assert (Hr2 : rows df2 =
                map (fun r0 =>
                       fill_cells (Str "Unknown")
                         (filter (fun c => has_column c (columns df_merged))
                                 demo_group_cols)
                         (fill_cells (Flt 0)
                            (filter
                               (fun c => has_column c (columns df_merged))
                               (financial_fill_cols cols)) r0))
                    (rows df_merged)).
  { unfold df2, fill_demographics, fill_financial.
    rewrite rows_fill_loop, columns_fill_loop, rows_fill_loop, map_map.
    reflexivity. }
  assert (Hg2 : forall c r0,
             get c (fill_cells (Str "Unknown")
                      (filter (fun c => has_column c (columns df_merged))
                              demo_group_cols)
                      (fill_cells (Flt 0)
                         (filter (fun c => has_column c (columns df_merged))
                                 (financial_fill_cols cols)) r0))
             = filled cols (columns df_merged) c r0).
  { intros c r0. unfold filled.
    now rewrite !get_fill_cells, !has_column_filter. }
  unfold derive_mean_balance. rewrite Hc2.
  destruct (has_column "mean_balance_approx" (columns df_merged)) eqn:Hmba;
    [|discriminate].
  cbn [bind].
  set (df3 := assign "mean_balance" (get "mean_balance_approx") df2).
  unfold derive_net_change.
  assert (Hc3 : forall c, has_column c (columns df3)
                          = has_column c (columns df_merged)
                            || String.eqb c "mean_balance").
  { intros c. unfold df3. now rewrite has_column_assign, Hc2. }
  rewrite !Hc3. cbn [String.eqb Ascii.eqb Bool.eqb]. rewrite !orb_false_r.
  destruct (has_column "logged_income_total" (columns df_merged));
    [|discriminate].
  destruct (has_column "logged_expense_total" (columns df_merged));
    [|discriminate].
  cbn [negb].
  destruct (assign_partial "net_logged_change" _ _ df3) as [e|df4] eqn:E4;
    [discriminate|].
  cbn [bind]. unfold cast_counts. cbn [columns select].
  intros H7. split; [reflexivity|]. split; [reflexivity|].
  split; [reflexivity|].
  apply cast_loop_rows in H7. unfold select in H7. cbn [rows] in H7.
  rewrite rows_add_missing in H7.
  apply (proj1 (Forall2_map_left _ _ _ _)) in H7.
  apply (proj1 (Forall2_map_left _ _ _ _)) in H7.
  pose proof (assign_partial_rows _ _ _ _ E4) as H4.
  unfold df3 in H4. unfold assign in H4. cbn [rows] in H4.
  rewrite Hr2 in H4.
  apply (proj1 (Forall2_map_left _ _ _ _)) in H4.
  apply (proj1 (Forall2_map_left _ _ _ _)) in H4.
  pose proof (Forall2_compose H4 H7) as H.
  eapply Forall2_impl; [|exact H].
  clear H H4 H7.
  intros r0 r7 (r4 & (v & Hv & ->) & Hrel).
  rewrite !get_set in Hv. cbn [String.eqb Ascii.eqb Bool.eqb] in Hv.
  rewrite !Hg2 in Hv.
  exists v. split; [exact Hv|].
  intros c. specialize (Hrel c).
  rewrite get_select, get_add_cells in Hrel.
  rewrite (assign_partial_columns c _ _ _ _ E4), Hc3 in Hrel.
  rewrite !get_set, !Hg2 in Hrel.
  unfold selected.
  destruct (has_column c (final_cols cols)); [|exact Hrel].
  destruct (has_column c (columns df_merged) || String.eqb c "mean_balance"
            || String.eqb c "net_logged_change"); exact Hrel.
Qed.

Lemma prefix_split (p s : string) :
  String.prefix p s = true -> exists t, s = String.append p t.
Proof.
  revert s. induction p as [|a p IH]; intros s H.
  - exists s. reflexivity.
  - destruct s as [|b s]; [discriminate|]. simpl in H.
    destruct (ascii_dec a b) as [->|]; [|discriminate].
    destruct (IH s H) as [t ->]. exists t. reflexivity.
Qed.

Lemma expense_column_logged (x : string) :
  String.prefix "logged_expense_" x = true ->
  String.prefix "logged_" x = true /\
  String.prefix "logged_" (replace "expense" "count" x) = true.
Proof.
  intros H. apply prefix_split in H. destruct H as [t ->].
  split; reflexivity.
Qed.

(** A column whose name does not start with "logged_" is none of the
    per-category columns. *)
Lemma not_logged (cols : list string) (c : string) :
  forallb (String.prefix "logged_expense_") cols = true ->
  String.prefix "logged_" c = false ->
  has_column c cols = false /\
  has_column c (map (replace "expense" "count") cols) = false /\
  has_column c (sorted_strings cols) = false.
Proof.
  rewrite forallb_forall. intros Hcols Hc.
  assert (H1 : ~ In c cols).
  { intros H. apply Hcols, expense_column_logged in H. destruct H. congruence. }
  assert (H2 : ~ In c (map (replace "expense" "count") cols)).
  { intros H. apply in_map_iff in H. destruct H as (x & <- & Hx).
    apply Hcols, expense_column_logged in Hx. destruct Hx. congruence. }
  assert (H3 : ~ In c (sorted_strings cols))
    by now rewrite JournalClaims.sorted_strings_In.
  rewrite <- has_column_In in H1, H2, H3.
  repeat split; now apply not_true_is_false.
Qed.

Lemma cell_sub_filled (a b v : cell) :
  cell_sub (fillna (Flt 0) a) (fillna (Flt 0) b) = Some v -> v <> NA.
Proof.
  destruct a, b; simpl; intros H; inversion H; discriminate.
Qed.

Lemma Forall2_with (A B : Type) (P : A -> Prop) (R : A -> B -> Prop)
      (l : list A) (l' : list B) :
  (forall x, In x l -> P x) -> Forall2 R l l' ->
  Forall2 (fun x y => P x /\ R x y) l l'.
Proof.
  intros HP H. induction H as [|x y t t' Hxy _ IH]; constructor.
  - split; [apply HP; now left|exact Hxy].
  - apply IH. intros; apply HP; now right.
Qed.

(** The closed boolean tests of a statement are replaced by their
    values. *)
Ltac eval_tests H :=
  repeat match type of H with
    | context [has_column ?c ?l] =>
        let b := eval vm_compute in (has_column c l) in
        match b with
        | true => change (has_column c l) with true in H
        | false => change (has_column c l) with false in H
        end
    | context [String.eqb ?a ?b] =>
        let v := eval vm_compute in (String.eqb a b) in
        match v with
        | true => change (String.eqb a b) with true in H
        | false => change (String.eqb a b) with false in H
        end
    | context [is_infix ?a ?b] =>
        let v := eval vm_compute in (is_infix a b) in
        match v with
        | true => change (is_infix a b) with true in H
        | false => change (is_infix a b) with false in H
        end
    end;
  cbn [orb andb negb] in H;
  rewrite ?orb_false_r, ?orb_true_r, ?andb_false_r, ?andb_true_r in H;
  cbn [orb andb negb] in H.

Ltac unfold_selected H :=
  unfold selected, filled, final_cols, financial_fill_cols in H;
  rewrite ?has_column_filter, ?has_column_app in H.

(** What lines 310-363 make of a row [r0] of [df_merged]: the row [r] of
    [df_final]. *)
Definition fill_spec (logged_expense_cols cols0 : list string)
           (r0 r : Row) : Prop :=
  (forall c, In c demo_group_cols ->
     get c r = fillna (Str "Unknown") (get c r0)) /\
  (forall c, In c ["start_balance"; "end_balance"; "logged_income_total";
                   "logged_expense_total"] ->
     get c r = fillna (Flt 0) (get c r0)) /\
  get "mean_balance" r = fillna (Flt 0) (get "mean_balance_approx" r0) /\
  (forall c, In c ["logged_income_count"; "logged_expense_count"] ->
     astype_int (fillna (Flt 0) (get c r0)) = Some (get c r)) /\
  cell_sub (fillna (Flt 0) (get "logged_income_total" r0))
           (fillna (Flt 0) (get "logged_expense_total" r0))
    = Some (get "net_logged_change" r) /\
  get "net_logged_change" r <> NA /\
  (forall c, In c logged_expense_cols -> has_column c cols0 = true ->
     is_infix "count" c = false ->
     get c r = fillna (Flt 0) (get c r0)) /\
  (forall c, In c ["age"; "householdSize"; "haveKids"; "joviality"] ->
     get c r = if has_column c cols0 then get c r0 else Str "Unknown").

Lemma logged_is_plain_free (c : string) :
  String.prefix "logged_expense_" c = true ->
  has_column c demo_group_cols = false /\
  String.eqb c "mean_balance" = false /\
  String.eqb c "net_logged_change" = false.
Proof.
  intros H. apply prefix_split in H. destruct H as [t ->].
  repeat split; reflexivity.
Qed.

Lemma finalized_fill_spec (cols cols0 : list string) (r0 r7 : Row) :
  forallb (String.prefix "logged_expense_") cols = true ->
  (forall c, has_column c cols0 = false -> get c r0 = NA) ->
  has_column "mean_balance_approx" cols0 = true ->
  has_column "logged_income_total" cols0 = true ->
  has_column "logged_expense_total" cols0 = true ->
  finalized cols cols0 r0 r7 -> fill_spec cols cols0 r0 r7.
Proof.
  intros Hcols Hwf Hmba Hit Het (v & Hv & Hrel).
  unfold_selected Hv. rewrite Hit, Het in Hv. eval_tests Hv.
  assert (Hplain : forall c, String.prefix "logged_" c = false ->
            has_column c cols = false /\
            has_column c (map (replace "expense" "count") cols) = false /\
            has_column c (sorted_strings cols) = false)
    by (intros c; now apply not_logged).
  assert (Hnet : get "net_logged_change" r7 = v).
  { pose proof (Hrel "net_logged_change") as H. unfold_selected H.
    destruct (Hplain "net_logged_change" eq_refl) as (N1 & N2 & N3).
    rewrite ?N1, ?N2, ?N3 in H. eval_tests H. exact H. }
  unfold fill_spec. repeat apply conj.
  - intros c Hc. simpl in Hc.
    repeat (destruct Hc as [<-|Hc]); try contradiction;
      match goal with |- get ?c _ = _ =>
        pose proof (Hrel c) as H; unfold_selected H;
        destruct (Hplain c eq_refl) as (N1 & N2 & N3);
        rewrite ?N1, ?N2, ?N3 in H; eval_tests H;
        destruct (has_column c cols0) eqn:E; cbn [andb orb] in H;
        [exact H|now rewrite (Hwf _ E)]
      end.
  - intros c Hc. simpl in Hc.
    repeat (destruct Hc as [<-|Hc]); try contradiction;
      match goal with |- get ?c _ = _ =>
        pose proof (Hrel c) as H; unfold_selected H;
        try (destruct (Hplain c eq_refl) as (N1 & N2 & N3);
             rewrite ?N1, ?N2, ?N3 in H);
        eval_tests H;
        destruct (has_column c cols0) eqn:E; cbn [andb orb] in H;
        [exact H|now rewrite (Hwf _ E)]
      end.
  - pose proof (Hrel "mean_balance") as H. unfold_selected H.
    destruct (Hplain "mean_balance" eq_refl) as (N1 & N2 & N3).
    rewrite ?N1, ?N2, ?N3, ?Hmba in H. eval_tests H. exact H.
  - intros c Hc. simpl in Hc.
    repeat (destruct Hc as [<-|Hc]); try contradiction;
      match goal with |- astype_int (fillna _ (get ?c _)) = _ =>
        pose proof (Hrel c) as H; unfold_selected H;
        eval_tests H;
        destruct (has_column c cols0) eqn:E; cbn [andb orb] in H;
        [exact H|now rewrite (Hwf _ E)]
      end.
  - now rewrite Hnet.
  - rewrite Hnet. now apply cell_sub_filled in Hv.
  - intros c Hc Hin Hcount.
    assert (Hp : String.prefix "logged_expense_" c = true)
      by (rewrite forallb_forall in Hcols; now apply Hcols).
    destruct (logged_is_plain_free c Hp) as (D1 & D2 & D3).
    assert (Hs : has_column c (sorted_strings cols) = true)
      by (now apply has_column_In, JournalClaims.sorted_strings_In).
    apply has_column_In in Hc.
    pose proof (Hrel c) as H. unfold_selected H.
    rewrite ?Hs, ?Hc, ?Hin, ?Hcount, ?D1, ?D2, ?D3 in H.
    eval_tests H. exact H.
  - intros c Hc. simpl in Hc.
    repeat (destruct Hc as [<-|Hc]); try contradiction;
      match goal with |- get ?c _ = _ =>
        pose proof (Hrel c) as H; unfold_selected H;
        destruct (Hplain c eq_refl) as (N1 & N2 & N3);
        rewrite ?N1, ?N2, ?N3 in H; eval_tests H;
        destruct (has_column c cols0) eqn:E; cbn [andb orb] in H;
        exact H
      end.
Qed.





End PostProcessClaims.

(** * The merged table of a run is well formed *)

Module PipelineFacts.
Import Balances Journal Demographics Merge Financial.
Import PostProcessFacts PostProcessClaims.
Local Open Scope string_scope.

(** [well_formed], as a proposition. *)
Definition cells_in_columns (df : DataFrame) : Prop :=
  forall r e, In r (rows df) -> In e r -> In (fst e) (columns df).

Lemma well_formed_iff (df : DataFrame) :
  well_formed df = true <-> cells_in_columns df.
Proof.
  unfold well_formed, cells_in_columns. rewrite forallb_forall. split.
  - intros H r e Hr He. specialize (H r Hr). rewrite forallb_forall in H.
    now apply has_column_In, H.
  - intros H r Hr. apply forallb_forall. intros e He.
    apply has_column_In. now apply (H r).
Qed.

Lemma In_set (c : string) (v : cell) (r : Row) (e : string * cell) :
  In e (set c v r) -> e = (c, v) \/ In e r.
Proof.
  induction r as [|[k x] t IH]; simpl.
  - intros [<-|[]]. now left.
  - destruct (String.eqb c k); simpl.
    + intros [<-|H]; auto.
    + intros [<-|H]; auto. destruct (IH H); auto.
Qed.

Lemma In_columns_assign (x c : string) (f : Row -> cell) (df : DataFrame) :
  In x (columns (assign c f df)) <-> In x (columns df) \/ x = c.
Proof.
  rewrite <- !has_column_In, has_column_assign, orb_true_iff.
  now rewrite String.eqb_eq.
Qed.

Lemma assign_cells_in_columns (c : string) (f : Row -> cell)
      (df : DataFrame) :
  cells_in_columns df -> cells_in_columns (assign c f df).
Proof.
  intros H r e Hr He. apply In_columns_assign.
  unfold assign in Hr. cbn [rows] in Hr. apply in_map_iff in Hr.
  destruct Hr as (r0 & <- & Hr0). apply In_set in He.
  destruct He as [->|He]; [now right|left; now apply (H r0)].
Qed.

Lemma left_rows_cells (on : list string) (L R : DataFrame) :
  cells_in_columns L -> cells_in_columns R ->
  forall r e, In r (left_rows on L R) -> In e r ->
              In (fst e) (merged_columns on L R).
Proof.
  intros HL HR r e Hr He. unfold left_rows in Hr. unfold merged_columns.
  apply in_flat_map in Hr. destruct Hr as (l & Hl & Hr).
  apply in_or_app.
  destruct (filter (same_key on l) (rows R)) as [|m ms] eqn:E.
  - destruct Hr as [<-|[]]. left. now apply (HL l).
  - apply in_map_iff in Hr. destruct Hr as (r' & <- & Hr').
    assert (HrR : In r' (rows R)).
    { assert (H : In r' (filter (same_key on l) (rows R)))
        by (rewrite E; exact Hr').
      now apply filter_In in H. }
    unfold joined in He. apply in_app_or in He.
    destruct He as [He|He]; [left; now apply (HL l)|].
    apply filter_In in He. destruct He as [He Hon].
    right. apply filter_In. split; [now apply (HR r')|exact Hon].
Qed.

Lemma merge_left_cells_in_columns (on : list string) (L R : DataFrame) :
  cells_in_columns L -> cells_in_columns R ->
  cells_in_columns (merge_left on L R).
Proof.
  intros HL HR r e Hr He. now apply (left_rows_cells on HL HR r).
Qed.

Lemma merge_outer_cells_in_columns (on : list string) (L R : DataFrame) :
  incl on (columns L) ->
  cells_in_columns L -> cells_in_columns R ->
  cells_in_columns (merge_outer on L R).
Proof.
  intros Hon HL HR r e Hr He. unfold merge_outer in *. cbn [rows columns] in *.
  apply in_app_or in Hr. destruct Hr as [Hr|Hr].
  - now apply (left_rows_cells on HL HR r).
  - apply filter_In in Hr. destruct Hr as [Hr _].
    unfold merged_columns. apply in_or_app.
    destruct (has_column (fst e) on) eqn:E.
    + left. apply Hon. now apply has_column_In.
    + right. apply filter_In. split; [now apply (HR r)|now rewrite E].
Qed.

Lemma empty_frame_cells : cells_in_columns empty_frame.
Proof. intros r e []. Qed.

Lemma mapped_rows_cells (A : Type) (mk : A -> Row) (cols : list string)
      (l : list A) :
  (forall a e, In e (mk a) -> In (fst e) cols) ->
  cells_in_columns {| columns := cols; rows := map mk l |}.
Proof.
  intros H r e Hr He. cbn [rows columns] in *.
  apply in_map_iff in Hr. destruct Hr as (a & <- & _). now apply (H a).
Qed.

Lemma income_frame_cells (income : list Transaction) :
  cells_in_columns (income_frame income).
Proof.
  unfold income_frame. destruct income; [apply empty_frame_cells|].
  apply mapped_rows_cells. intros g e He. simpl in He. simpl.
  intuition (subst; simpl; auto).
Qed.

Lemma unstacked_cells (expenses : list Transaction)
      (categories : list string) :
  cells_in_columns (unstacked expenses categories).
Proof.
  intros r e Hr He. apply JournalFacts.rows_unstacked in Hr.
  destruct Hr as (p & m & ->). unfold pivot_row in He.
  unfold unstacked. cbn [columns].
  apply in_app_or in He. destruct He as [He|He].
  - apply in_or_app. left. simpl in He. simpl.
    intuition (subst; simpl; auto).
  - apply in_or_app. right. apply in_app_or in He. apply in_or_app.
    destruct He as [He|He]; [left|right];
      apply in_map_iff in He; destruct He as (c & <- & Hc);
      cbn [fst]; now apply in_map.
Qed.

Lemma expenses_pivot_cells (expenses : list Transaction)
      (categories : list string) :
  cells_in_columns (expenses_pivot expenses categories).
Proof.
  unfold expenses_pivot, with_expense_count, with_expense_total.
  pose proof (unstacked_cells expenses categories) as H.
  destruct (expense_columns (unstacked expenses categories));
    destruct (count_columns _);
    auto using assign_cells_in_columns.
Qed.

Lemma process_journal_cells (f : JournalFile) :
  cells_in_columns (df_income (process_journal f)) /\
  cells_in_columns (df_expenses_pivot (process_journal f)) /\
  forallb (String.prefix "logged_expense_")
          (logged_expense_cols (process_journal f)) = true.
Proof.
  destruct f as [[|x l]|]; try (repeat split; apply empty_frame_cells).
  unfold process_journal. cbn [df_income df_expenses_pivot logged_expense_cols].
  split; [apply income_frame_cells|]. split.
  - destruct (df_expense_trans _);
      [apply empty_frame_cells|apply expenses_pivot_cells].
  - destruct (df_expense_trans _); [reflexivity|].
    apply forallb_forall. intros c Hc. unfold expense_columns in Hc.
    now apply filter_In in Hc.
Qed.

Lemma process_participants_cells (current_year : Z)
      (f : option (list ParticipantRow)) :
  cells_in_columns (process_participants current_year f).
Proof.
  unfold process_participants. destruct f as [l|]; [|apply empty_frame_cells].
  destruct (_ && _); [|apply empty_frame_cells].
  apply mapped_rows_cells. intros a e He. simpl in He. simpl.
  intuition (subst; simpl; auto).
Qed.

Lemma month_to_timestamp_cells (S : Sorter) (files : list LogFile)
      (balances : DataFrame) :
  month_to_timestamp (monthly_balances_df files) = inr balances ->
  cells_in_columns balances /\ incl key_columns (columns balances).
Proof.
  unfold month_to_timestamp, monthly_balances_df.
  destruct (monthly_balance_summaries_list files); cbn; [discriminate|].
  intros H. inversion H; subst. split.
  - apply mapped_rows_cells. intros a e He. simpl in He. simpl.
    intuition (subst; simpl; auto).
  - intros c Hc. simpl in Hc. simpl. intuition.
Qed.

Lemma base_grid_cells (bal exp inc base : DataFrame) :
  cells_in_columns bal -> incl key_columns (columns bal) ->
  base_grid bal exp inc = Some base ->
  cells_in_columns base /\ incl key_columns (columns base).
Proof.
  intros Hbal Hkeys. unfold base_grid.
  assert (Hsel : forall t,
             cells_in_columns (drop_duplicates (select key_columns t)) /\
             incl key_columns
                  (columns (drop_duplicates (select key_columns t)))).
  { intros t. split; [|apply incl_refl].
    intros r e Hr He. cbn [drop_duplicates select rows columns] in *.
    apply drop_duplicate_rows_incl in Hr. apply in_map_iff in Hr.
    destruct Hr as (r0 & <- & _). apply in_map_iff in He.
    destruct He as (c & <- & Hc). exact Hc. }
  destruct (negb (is_empty bal)); [intros H; inversion H; subst; auto|].
  destruct (negb (is_empty exp)); [intros H; inversion H; subst; auto|].
  destruct (negb (is_empty inc)); [intros H; inversion H; subst; auto|].
  discriminate.
Qed.

Lemma merge_sources_cells (base parts inc exp : DataFrame) :
  cells_in_columns base -> incl key_columns (columns base) ->
  cells_in_columns parts -> cells_in_columns inc -> cells_in_columns exp ->
  cells_in_columns (merge_sources base parts inc exp).
Proof.
  intros Hbase Hkeys Hparts Hinc Hexp.
  unfold merge_sources, merge_expenses, merge_income, merge_demographics.
  set (m1 := if negb (is_empty parts)
             then merge_left ["participantId"] base parts else base).
  assert (H1 : cells_in_columns m1 /\ incl key_columns (columns m1)).
  { unfold m1. destruct (negb (is_empty parts)); [|auto]. split.
    - now apply merge_left_cells_in_columns.
    - intros c Hc. cbn [merge_left columns]. unfold merged_columns.
      apply in_or_app. left. now apply Hkeys. }
  destruct H1 as [H1 K1].
  set (m2 := if negb (is_empty inc) then merge_outer key_columns m1 inc
             else assign "logged_income_count" (fun _ => Flt 0)
                    (assign "logged_income_total" (fun _ => Flt 0) m1)).
  assert (H2 : cells_in_columns m2 /\ incl key_columns (columns m2)).
  { unfold m2. destruct (negb (is_empty inc)); split.
    - now apply merge_outer_cells_in_columns.
    - intros c Hc. cbn [merge_outer columns]. unfold merged_columns.
      apply in_or_app. left. now apply K1.
    - auto using assign_cells_in_columns.
    - intros c Hc. apply In_columns_assign. left.
      apply In_columns_assign. left. now apply K1. }
  destruct H2 as [H2 K2].
  destruct (negb (is_empty exp)).
  - now apply merge_outer_cells_in_columns.
  - auto using assign_cells_in_columns.
Qed.

(** Every run that writes an output meets what [post_process_fills]
    asks of the merged table. *)
Lemma written_output_is_filled (S : Sorter) (inp : Inputs)
      (df_final : DataFrame) :
  preprocess_financial inp = Written df_final ->
  let cols := logged_expense_cols (process_journal (financial_journal inp)) in
  exists df_merged,
    well_formed df_merged = true /\
    forallb (String.prefix "logged_expense_") cols = true /\
    post_process cols df_merged = inr df_final /\
    Forall2 (fill_spec cols (columns df_merged))
            (rows df_merged) (rows df_final).
Proof.
  unfold preprocess_financial.
  destruct (month_to_timestamp (monthly_balances_df (log_files inp)))
    as [e|balances] eqn:Eb; [discriminate|].
  apply month_to_timestamp_cells in Eb. destruct Eb as [Hbal Hkeys].
  destruct (process_journal_cells (financial_journal inp))
    as (Hinc & Hexp & Hcols).
  pose proof (process_participants_cells (current_year inp)
                (participants inp)) as Hparts.
  cbv zeta. unfold merge_and_finalize.
  destruct (base_grid _ _ _) as [base|] eqn:Eg; [|discriminate].
  destruct (base_grid_cells _ _ Hbal Hkeys Eg) as [Hbase Kbase].
  destruct (post_process _ _) as [e|df] eqn:Ep; [discriminate|].
  intros H. inversion H; subst df.
  pose proof (merge_sources_cells Hbase Kbase Hparts Hinc Hexp) as Hwf.
  apply well_formed_iff in Hwf.
  eexists. split; [exact Hwf|]. split; [exact Hcols|].
  split; [exact Ep|].
  pose proof (post_process_rows _ _ Ep) as (Hmba & Hit & Het & HF).
  assert (Hget : forall r0, In r0 (rows (merge_sources base
                     (process_participants (current_year inp)
                        (participants inp))
                     (df_income (process_journal (financial_journal inp)))
                     (df_expenses_pivot
                        (process_journal (financial_journal inp))))) ->
            forall c, has_column c (columns (merge_sources base
                     (process_participants (current_year inp)
                        (participants inp))
                     (df_income (process_journal (financial_journal inp)))
                     (df_expenses_pivot
                        (process_journal (financial_journal inp)))))
                      = false -> get c r0 = NA)
    by (intros r0 Hr0 c Hc; now apply (well_formed_get _ _ _ Hwf)).
  pose proof (@Forall2_with _ _ _ _ _ _ Hget HF) as H'. cbv beta in H'.
  eapply Forall2_impl; [|exact H'].
  intros r0 r7 (Hr0 & Hfin). now apply finalized_fill_spec.
Qed.

End PipelineFacts.

(** * The table of monthly balances, key by key *)

Module BalanceTableFacts.
Import Balances BalancesFacts.

Lemma agg_first_Some (A : Type) (l : list (option A)) (v : A) :
  agg_first l = Some v -> In (Some v) l.
Proof.
  induction l as [|[x|] t IH]; simpl; [discriminate| |].
  - intros H. inversion H. now left.
  - intros H. right. now apply IH.
Qed.

Lemma agg_first_None (A : Type) (l : list (option A)) :
  agg_first l = None <-> forall x, In x l -> x = None.
Proof.
  induction l as [|[x|] t IH]; simpl.
  - split; [intros _ x []|reflexivity].
  - split; [discriminate|]. intros H.
    specialize (H (Some x) (or_introl eq_refl)). discriminate.
  - rewrite IH. split.
    + intros H x [<-|Hx]; [reflexivity|now apply H].
    + intros H x Hx. apply H. now right.
Qed.

Lemma agg_last_Some (A : Type) (l : list (option A)) (v : A) :
  agg_last l = Some v -> In (Some v) l.
Proof.
  unfold agg_last. intros H. apply agg_first_Some in H.
  now apply in_rev.
Qed.

Lemma agg_last_None (A : Type) (l : list (option A)) :
  agg_last l = None <-> forall x, In x l -> x = None.
Proof.
  unfold agg_last. rewrite agg_first_None. split; intros H x Hx; apply H.
  - now apply in_rev in Hx.
  - now apply in_rev.
Qed.

Lemma present_perm (A : Type) (l l' : list (option A)) :
  Permutation l l' -> Permutation (present l) (present l').
Proof.
  induction 1 as [|[x|] l l' _ IH|[x|] [y|] l|l l' l'' _ IH1 _ IH2];
    simpl; auto.
  - apply perm_swap.
  - now apply perm_trans with (present l').
Qed.

Lemma agg_mean_perm (l l' : list (option Q)) :
  Permutation l l' -> agg_mean l = agg_mean l'.
Proof.
  intros HP. apply present_perm in HP. unfold agg_mean.
  destruct (present l) as [|x t] eqn:E.
  - apply Permutation_nil in HP. now rewrite HP.
  - destruct (present l') as [|x' t'] eqn:E'.
    + apply Permutation_sym, Permutation_nil in HP. discriminate.
    + f_equal. apply Qred_complete.
      rewrite (Qsum_perm HP).
      assert (HL : List.length (x :: t) = List.length (x' :: t'))
        by apply (Permutation_length HP).
      now rewrite HL.
Qed.

(** The rows of all files that belong to a key. *)
Definition log_rows (k : Key) (log_files : list LogFile) : list ChunkRow :=
  flat_map (rows_of_key k) log_files.

Section WithSorter.
Context {S : Sorter}.

(** The chunk summaries of a key, file by file. *)
Definition key_summaries (k : Key) (log_files : list LogFile)
  : list ChunkSummaryRow :=
  flat_map (fun f => filter (fun r => key_eqb k (summary_key r))
                            (process_log_file f)) log_files.

Lemma summaries_of_key (k : Key) (log_files : list LogFile) :
  filter (fun r => key_eqb k (summary_key r))
         (List.concat (monthly_balance_summaries_list log_files)) =
  key_summaries k log_files.
Proof.
  unfold monthly_balance_summaries_list, key_summaries.
  rewrite concat_drop_empty, <- flat_map_concat_map.
  induction log_files as [|f t IH]; simpl; [reflexivity|].
  now rewrite filter_app, IH.
Qed.

(** The group of a key in the combined summaries. *)
Definition month_group (k : Key) (log_files : list LogFile)
  : list ChunkSummaryRow :=
  filter (fun r => key_eqb k (summary_key r))
         (sort_values s_Month
            (List.concat (monthly_balance_summaries_list log_files))).

Lemma month_group_perm (k : Key) (log_files : list LogFile) :
  Permutation (month_group k log_files) (key_summaries k log_files).
Proof.
  unfold month_group. rewrite <- summaries_of_key.
  apply Permutation_filter, sort_values_perm.
Qed.

Lemma balance_rows_of_key (k : Key) (log_files : list LogFile) :
  filter (fun r => key_eqb k (balance_key r))
         (bf_rows (monthly_balances_df log_files)) =
  match month_group k log_files with
  | [] => []
  | g => [summarize_month_group (k, g)]
  end.
Proof.
  rewrite bf_rows_monthly_balances_df. unfold combine_balances.
  apply (groupby_by_key summary_key balance_key summarize_month_group).
  now intros [[? ?] ?].
Qed.

Lemma key_summaries_nil (k : Key) (log_files : list LogFile) :
  key_summaries k log_files = [] <-> log_rows k log_files = [].
Proof.
  unfold key_summaries, log_rows.
  induction log_files as [|f t IH]; simpl; [tauto|].
  rewrite process_log_file_by_key.
  destruct (rows_of_key k f) as [|x xs] eqn:E; simpl; [exact IH|].
  destruct f as [rows|]; [|discriminate].
  split; discriminate.
Qed.

Lemma find_filter (A : Type) (p : A -> bool) (l : list A) :
  find p l = hd_error (filter p l).
Proof.
  induction l as [|x t IH]; simpl; [reflexivity|].
  destruct (p x); [reflexivity|exact IH].
Qed.

(** A summary of the combined table for a key is the summary of the rows
    of the key in one of the files. *)
Lemma key_summaries_In (k : Key) (log_files : list LogFile)
      (s : ChunkSummaryRow) :
  In s (key_summaries k log_files) <->
  exists rows, In (Some rows) log_files /\
               rows_of_key k (Some rows) <> [] /\
               s = summarize_chunk_group (chunk_group k (with_month rows)).
Proof.
  unfold key_summaries. rewrite in_flat_map. split.
  - intros (f & Hf & Hs). rewrite process_log_file_by_key in Hs.
    destruct (rows_of_key k f) as [|x xs] eqn:E; [destruct Hs|].
    destruct f as [rows|]; [|destruct Hs].
    destruct Hs as [<-|[]]. exists rows. rewrite E. repeat split; auto.
    discriminate.
  - intros (rows & Hf & Hne & ->). exists (Some rows). split; [exact Hf|].
    rewrite process_log_file_by_key.
    destruct (rows_of_key k (Some rows)); [congruence|now left].
Qed.

Lemma log_readings_nil (k : Key) (log_files : list LogFile) :
  log_readings k log_files = [] <->
  forall f, In f log_files -> readings (rows_of_key k f) = [].
Proof.
  unfold log_readings. induction log_files as [|f t IH]; simpl.
  - split; [intros _ f []|reflexivity].
  - split.
    + intros H. apply app_eq_nil in H. destruct H as [H1 H2].
      intros g [<-|Hg]; [exact H1|]. now apply IH.
    + intros H. rewrite (H f (or_introl eq_refl)). simpl.
      apply IH. intros g Hg. apply H. now right.
Qed.

Lemma readings_nil_of_rows (rows : list ChunkRow) :
  rows = [] -> readings rows = [].
Proof. now intros ->. Qed.

Lemma present_app (A : Type) (l1 l2 : list (option A)) :
  present (l1 ++ l2) = (present l1 ++ present l2)%list.
Proof.
  induction l1 as [|[x|] t IH]; simpl; [reflexivity| |exact IH].
  now rewrite IH.
Qed.

(** The per-file means of a key are the means that the combined table
    averages. *)
Lemma present_file_means (k : Key) (log_files : list LogFile) :
  present (map chunk_mean_balance (key_summaries k log_files)) =
  present (map (fun f => mean_of_readings (readings (rows_of_key k f)))
               log_files).
Proof.
  unfold key_summaries.
  induction log_files as [|f t IH]; simpl; [reflexivity|].
  rewrite map_app, present_app, IH, process_log_file_by_key.
  destruct (rows_of_key k f) as [|x xs] eqn:E; [reflexivity|].
  destruct f as [rows|]; [|discriminate].
  pose proof (summarize_chunk_group_spec k rows) as (_ & _ & _ & Hmean).
  cbv zeta in Hmean. rewrite E in Hmean. cbn [map present]. rewrite Hmean.
  destruct (mean_of_readings (readings (x :: xs))); reflexivity.
Qed.

Lemma process_log_file_nil (f : LogFile) :
  (forall rows, f = Some rows -> with_month rows = []) ->
  process_log_file f = [].
Proof.
  intros H. destruct f as [rows|]; [|reflexivity].
  rewrite process_log_file_some, (H rows eq_refl).
  unfold chunk_summary, groupby. now rewrite sort_values_nil.
Qed.

End WithSorter.
End BalanceTableFacts.

Module BalanceTableProperties.
Import Balances BalancesFacts BalanceTableFacts.

(** X1. The table of monthly balances has exactly one row for each
    (participant, month) that has a row with a timestamp in some readable
    log file, and no row for any other key. *)
Theorem balance_table_one_row_per_key
    (S : Sorter) (log_files : list LogFile) (k : Key) :
  let table := bf_rows (monthly_balances_df log_files) in
  match log_rows k log_files with
  | [] => filter (fun r => key_eqb k (balance_key r)) table = [] /\
          lookup_balance k table = None
  | _ :: _ =>
      exists r,
        filter (fun r => key_eqb k (balance_key r)) table = [r] /\
        lookup_balance k table = Some r /\
        balance_key r = k
  end.
Proof.
  cbv zeta. unfold lookup_balance. rewrite find_filter.
  rewrite balance_rows_of_key.
  pose proof (month_group_perm k log_files) as HP.
  pose proof (key_summaries_nil k log_files) as Hnil.
  destruct (log_rows k log_files) as [|x xs].
  - rewrite (proj2 Hnil eq_refl) in HP.
    apply Permutation_sym, Permutation_nil in HP.
    rewrite HP. split; reflexivity.
  - destruct (month_group k log_files) as [|s g].
    + apply Permutation_nil in HP.
      apply Hnil in HP. discriminate.
    + eexists. split; [reflexivity|]. split; [reflexivity|].
      now destruct k.
Qed.

(** X2. When the rows of a key are spread over several files, its start
    balance is the balance of an earliest reading of the key in one of the
    files, and its end balance that of a latest reading in one of the
    files (not always the same file, nor the globally earliest or latest
    reading); each is missing exactly when the key has no reading at
    all. *)
Theorem split_key_start_end
    (S : Sorter) (log_files : list LogFile) (k : Key) (r : BalanceRow) :
  lookup_balance k (bf_rows (monthly_balances_df log_files)) = Some r ->
  match start_balance r with
  | Some v => exists f, In f log_files /\
                        earliest (readings (rows_of_key k f)) v
  | None => log_readings k log_files = []
  end /\
  match end_balance r with
  | Some v => exists f, In f log_files /\
                        latest (readings (rows_of_key k f)) v
  | None => log_readings k log_files = []
  end.
Proof.
  unfold lookup_balance. rewrite find_filter, balance_rows_of_key.
  pose proof (month_group_perm k log_files) as HP.
  destruct (month_group k log_files) as [|s0 g0] eqn:Eg; [discriminate|].
  cbn [hd_error]. intros H. inversion H as [Hr]. clear H Hr.
  cbn [summarize_month_group start_balance end_balance snd].
  assert (Hmem : forall s, In s (s0 :: g0) <->
            exists rows, In (Some rows) log_files /\
                         rows_of_key k (Some rows) <> [] /\
                         s = summarize_chunk_group
                               (chunk_group k (with_month rows))).
  { intros s. rewrite <- key_summaries_In. split; apply Permutation_in;
      [exact HP|now apply Permutation_sym]. }
  assert (Hnone : forall (get : ChunkSummaryRow -> option Q),
            (forall rows, get (summarize_chunk_group
                                 (chunk_group k (with_month rows))) = None ->
                          readings (rows_of_key k (Some rows)) = []) ->
            (forall x, In x (map get (s0 :: g0)) -> x = None) ->
            log_readings k log_files = []).
  { intros get Hget Hall. apply log_readings_nil. intros f Hf.
    destruct (rows_of_key k f) as [|x xs] eqn:E; [reflexivity|].
    destruct f as [rows|]; [|discriminate]. rewrite <- E.
    apply Hget. apply Hall. apply in_map. apply Hmem.
    exists rows. rewrite E. repeat split; auto. discriminate. }
  split.
  - destruct (agg_first (map chunk_start_balance (s0 :: g0))) as [v|] eqn:E.
    + apply agg_first_Some, in_map_iff in E. destruct E as (s & Hs & Hin).
      apply Hmem in Hin. destruct Hin as (rows & Hf & _ & ->).
      exists (Some rows). split; [exact Hf|].
      pose proof (summarize_chunk_group_spec k rows) as (_ & H1 & _).
      now rewrite Hs in H1.
    + apply (Hnone chunk_start_balance).
      * intros rows Hn.
        pose proof (summarize_chunk_group_spec k rows) as (_ & H1 & _).
        now rewrite Hn in H1.
      * now apply agg_first_None.
  - destruct (agg_last (map chunk_end_balance (s0 :: g0))) as [v|] eqn:E.
    + apply agg_last_Some, in_map_iff in E. destruct E as (s & Hs & Hin).
      apply Hmem in Hin. destruct Hin as (rows & Hf & _ & ->).
      exists (Some rows). split; [exact Hf|].
      pose proof (summarize_chunk_group_spec k rows) as (_ & _ & H1 & _).
      now rewrite Hs in H1.
    + apply (Hnone chunk_end_balance).
      * intros rows Hn.
        pose proof (summarize_chunk_group_spec k rows) as (_ & _ & H1 & _).
        now rewrite Hn in H1.
      * now apply agg_last_None.
Qed.

(** Participant 1 in January 2022: one file holds the readings of 2 and
    3 January, another one the reading of 20 January.  The two chunk
    summaries bear the same month, so the sort of line 106 may leave them
    in either order. *)
Definition early_file : LogFile :=
  Some [ {| timestamp := Some (at_hour 2022 1 2 9);
            participantId := 1;
            availableBalance := Some 100%Q |};
         {| timestamp := Some (at_hour 2022 1 3 9);
            participantId := 1;
            availableBalance := Some 200%Q |} ].

Definition late_file : LogFile :=
  Some [ {| timestamp := Some (at_hour 2022 1 20 9);
            participantId := 1;
            availableBalance := Some 600%Q |} ].

Definition split_row : BalanceRow :=
  {| b_participantId := 1;
     b_Month := month_ordinal 2022 1;
     start_balance := Some 600%Q;
     end_balance := Some 200%Q;
     mean_balance_approx := Some 375%Q |}.

Lemma split_key_start_end_witness :
  lookup_balance (1%Z, month_ordinal 2022 1)
    (bf_rows (monthly_balances_df (S := stable_sorter)
                [early_file; late_file])) = Some split_row /\
  (exists f, In f [early_file; late_file] /\
             earliest (readings (rows_of_key (1%Z, month_ordinal 2022 1) f))
                      600%Q) /\
  (exists f, In f [early_file; late_file] /\
             latest (readings (rows_of_key (1%Z, month_ordinal 2022 1) f))
                    200%Q).
Proof.
  split; [vm_compute; reflexivity|].
  apply (@split_key_start_end stable_sorter [early_file; late_file]
           (1%Z, month_ordinal 2022 1) split_row).
  vm_compute. reflexivity.
Defined.

(** X3. The mean balance of a (participant, month) is the mean of the
    per-file means of its readings, each file that holds a reading of the
    key counting once whatever its number of readings; it is missing when
    no file holds a reading of the key. *)
Theorem mean_balance_is_mean_of_file_means
    (S : Sorter) (log_files : list LogFile) (k : Key) (r : BalanceRow) :
  lookup_balance k (bf_rows (monthly_balances_df log_files)) = Some r ->
  mean_balance_approx r =
  agg_mean (map (fun f => mean_of_readings (readings (rows_of_key k f)))
                log_files).
Proof.
  unfold lookup_balance. rewrite find_filter, balance_rows_of_key.
  pose proof (month_group_perm k log_files) as HP.
  destruct (month_group k log_files) as [|s0 g0] eqn:Eg; [discriminate|].
  cbn [hd_error]. intros H. inversion H as [Hr]. clear H Hr.
  cbn [summarize_month_group mean_balance_approx snd].
  rewrite (agg_mean_perm (Permutation_map chunk_mean_balance HP)).
  unfold agg_mean. now rewrite present_file_means.
Qed.

Lemma mean_balance_is_mean_of_file_means_witness :
  lookup_balance (1%Z, month_ordinal 2022 1)
    (bf_rows (monthly_balances_df (S := stable_sorter)
                [early_file; late_file])) = Some split_row /\
  mean_balance_approx split_row =
  agg_mean (map (fun f => mean_of_readings
                            (readings
                               (rows_of_key (1%Z, month_ordinal 2022 1) f)))
                [early_file; late_file]).
Proof.
  split; [vm_compute; reflexivity|].
  apply (@mean_balance_is_mean_of_file_means stable_sorter
           [early_file; late_file] (1%Z, month_ordinal 2022 1) split_row).
  vm_compute. reflexivity.
Defined.

(** The mean of the three readings of the key is 300; the table says
    375. *)
Example mean_of_means_is_not_the_mean :
  mean_balance_approx split_row = Some 375%Q /\
  mean_of_readings (log_readings (1%Z, month_ordinal 2022 1)
                                 [early_file; late_file]) = Some 300%Q.
Proof. split; vm_compute; reflexivity. Qed.

(** X4. A log file that cannot be read, or that has no row with a
    timestamp (an empty file included), leaves the table of monthly
    balances as it is without the file. *)
Theorem skipped_file_leaves_no_trace
    (S : Sorter) (before after : list LogFile) (f : LogFile) :
  (forall rows, f = Some rows -> with_month rows = []) ->
  monthly_balances_df (before ++ f :: after) =
  monthly_balances_df (before ++ after).
Proof.
  intros H. unfold monthly_balances_df, monthly_balance_summaries_list.
  rewrite !map_app, !filter_app. cbn [map filter].
  now rewrite (process_log_file_nil H).
Qed.

Definition no_timestamp_file : LogFile :=
  Some [ {| timestamp := None;
            participantId := 1;
            availableBalance := Some 50%Q |} ].

Lemma skipped_file_leaves_no_trace_witness :
  monthly_balances_df (S := stable_sorter)
    ([early_file] ++ no_timestamp_file :: [late_file]) =
  monthly_balances_df (S := stable_sorter) ([early_file] ++ [late_file]).
Proof.
  apply (@skipped_file_leaves_no_trace stable_sorter [early_file]
           [late_file] no_timestamp_file).
  intros rows H. inversion H. reflexivity.
Defined.

End BalanceTableProperties.

(** * The demographic groups *)

Module DemographicsFacts.
Import Demographics.

Lemma edge_leb_inject_Z (b x : Z) :
  edge_leb (Finite (inject_Z b)) (inject_Z x) = (b <=? x)%Z.
Proof.
  unfold edge_leb, Qle_bool, inject_Z. simpl. now rewrite !Z.mul_1_r.
Qed.

Lemma int_of_string_of_Z (z : Z) :
  NilZero.int_of_string (string_of_Z z) = Some (Z.to_int z).
Proof.
  unfold string_of_Z.
  apply NilZero.isi; intros H;
    assert (Hz : z = 0%Z) by (now rewrite <- (DecimalZ.of_to z), H);
    subst z; discriminate H.
Qed.

Lemma string_of_Z_inj (a b : Z) : string_of_Z a = string_of_Z b -> a = b.
Proof.
  intros H. apply DecimalZ.to_int_inj.
  assert (H' : Some (Z.to_int a) = Some (Z.to_int b))
    by (rewrite <- !int_of_string_of_Z; now rewrite H).
  now inversion H'.
Qed.

Lemma string_of_Z_not_NA (a : Z) : string_of_Z a <> "<NA>"%string.
Proof.
  intros H. pose proof (int_of_string_of_Z a) as E.
  rewrite H in E. discriminate.
Qed.

End DemographicsFacts.

Module DemographicsProperties.
Import Demographics DemographicsFacts.
Local Open Scope string_scope.

(** X5. In a run of the year 1997 or later, a participant whose birth
    year (the year of the run minus the age) is before 1965 is a Boomer+,
    from 1965 to 1980 Gen X, from 1981 to 1996 Millennial, from 1997 to the
    year of the run Gen Z; a birth year before 1900, a negative age and a
    missing age give "Unknown". *)
Theorem age_group_bands (current_year a : Z) :
  (1997 <= current_year)%Z ->
  age_group current_year None = "Unknown" /\
  age_group current_year (Some a) =
    (let born := (current_year - a)%Z in
     if (born <? 1900)%Z then "Unknown"
     else if (born <? 1965)%Z then "Boomer+ (<1965)"
     else if (born <? 1981)%Z then "Gen X (1965-80)"
     else if (born <? 1997)%Z then "Millennial (1981-96)"
     else if (born <=? current_year)%Z then "Gen Z (1997+)"
     else "Unknown").
Proof.
  intros Hy. split; [reflexivity|].
  unfold age_group, birthYear, age_bins, cut, searchsorted_right.
  cbn [option_map map filter]. rewrite !edge_leb_inject_Z. cbv zeta.
  set (born := (current_year - a)%Z).
  destruct (1900 <=? born)%Z eqn:E1, (1965 <=? born)%Z eqn:E2,
           (1981 <=? born)%Z eqn:E3, (1997 <=? born)%Z eqn:E4,
           (current_year + 1 <=? born)%Z eqn:E5;
    destruct (born <? 1900)%Z eqn:F1, (born <? 1965)%Z eqn:F2,
             (born <? 1981)%Z eqn:F3, (born <? 1997)%Z eqn:F4,
             (born <=? current_year)%Z eqn:F5;
    try reflexivity; exfalso; lia.
Qed.

Lemma age_group_bands_witness :
  (1997 <= 2026)%Z /\
  age_group 2026 None = "Unknown" /\
  age_group 2026 (Some 45%Z) = "Millennial (1981-96)".
Proof.
  split; [lia|]. apply (@age_group_bands 2026%Z 45%Z). lia.
Defined.

(** X6. A household of 5, 6, 7 or 8 is in the group "5+"; any other size,
    9 and more included, is a group of its own, named by the number; a
    missing size is "Unknown". *)
Theorem household_size_group_labels (size : Z) :
  household_size_group None = "Unknown" /\
  household_size_group (Some size) =
    if (5 <=? size)%Z && (size <=? 8)%Z then "5+" else string_of_Z size.
Proof.
  split; [reflexivity|].
  unfold household_size_group, household_size_replacements.
  destruct ((5 <=? size)%Z && (size <=? 8)%Z) eqn:E.
  - apply andb_true_iff in E. destruct E as [E1 E2].
    apply Z.leb_le in E1, E2.
    assert (H : (size = 5 \/ size = 6 \/ size = 7 \/ size = 8)%Z) by lia.
    destruct H as [-> | [-> | [-> | ->] ] ]; reflexivity.
  - assert (Hne : forall n : Z, (5 <= n <= 8)%Z ->
                    String.eqb (string_of_Z size) (string_of_Z n) = false).
    { intros n Hn. apply String.eqb_neq. intros H.
      apply string_of_Z_inj in H. subst n.
      apply andb_false_iff in E. destruct E as [E|E];
        [apply Z.leb_gt in E|apply Z.leb_gt in E]; lia. }
    cbn [replace_value].
    change "5" with (string_of_Z 5). change "6" with (string_of_Z 6).
    change "7" with (string_of_Z 7). change "8" with (string_of_Z 8).
    rewrite !Hne by lia.
    destruct (String.eqb (string_of_Z size) "<NA>") eqn:N; [|reflexivity].
    apply String.eqb_eq in N. now apply string_of_Z_not_NA in N.
Qed.

End DemographicsProperties.

(** * The income table *)

Module IncomeFacts.
Import Journal.
Local Open Scope string_scope.

(** The row bears the key (p, m) in its two key columns. *)
Definition bears_key (p m : Z) (r : Row) : bool :=
  cell_eqb (get "participantId" r) (Int p)
  && cell_eqb (get "Month" r) (Int m).

(** The wage transactions of a participant in a month: the rows of the
    journal with a timestamp in the month and the category "Wage". *)
Definition wages (file_rows : list JournalRow) (p m : Z)
  : list Transaction :=
  filter (fun t => key_eqb (p, m) (transaction_key t))
         (df_income_trans (with_month file_rows)).

Lemma bears_key_income_row (p m : Z) (g : Key * list Transaction) :
  bears_key p m (income_row g) = key_eqb (p, m) (fst g).
Proof.
  destruct g as [[a b] l]. unfold bears_key, key_eqb. simpl.
  now rewrite (Z.eqb_sym a), (Z.eqb_sym b).
Qed.

Lemma income_rows_of_key (income : list Transaction) (p m : Z) :
  filter (bears_key p m) (rows (income_frame income)) =
  match filter (fun t => key_eqb (p, m) (transaction_key t)) income with
  | [] => []
  | g => [income_row ((p, m), g)]
  end.
Proof.
  unfold income_frame. destruct income as [|t income]; [reflexivity|].
  cbn [rows].
  rewrite <- (groupby_by_key transaction_key
                (fun r : Row => match get "participantId" r, get "Month" r with
                                | Int a, Int b => (a, b)
                                | _, _ => (0, 0)%Z
                                end) income_row)
    by now intros [[? ?] ?].
  apply filter_ext_in. intros r Hr. apply in_map_iff in Hr.
  destruct Hr as ([[a b] l] & <- & _). apply bears_key_income_row.
Qed.

End IncomeFacts.

Module IncomeProperties.
Import Journal IncomeFacts.
Local Open Scope string_scope.

(** X7. The income table has exactly one row for each (participant,
    month) with a wage transaction, and none for the others; its total is
    the sum of the amounts of the wage transactions of the participant in
    the month, and its count the number of those that have an amount. *)
Theorem income_row_per_wage_month
    (file_rows : list JournalRow) (p m : Z) :
  filter (bears_key p m)
         (rows (df_income (process_journal (Some file_rows)))) =
  match wages file_rows p m with
  | [] => []
  | ws =>
      [ [ ("participantId", Int p);
          ("Month", Int m);
          ("logged_income_total", Flt (agg_sum (map t_amount ws)));
          ("logged_income_count",
           Flt (inject_Z (Z.of_nat (agg_count (map t_amount ws))))) ] ]
  end.
Proof.
  unfold wages. destruct file_rows as [|x l]; [reflexivity|].
  unfold process_journal. cbn [df_income].
  apply income_rows_of_key.
Qed.

End IncomeProperties.

(** * The table that a run writes *)

Module OutputFacts.
Import Balances Journal Demographics Merge Financial.
Import PostProcessFacts PostProcessClaims PipelineFacts.
Local Open Scope string_scope.

(** The balance table as line 119 leaves it, when it has rows. *)
Definition balances_frame (S : Sorter) (log_files : list LogFile)
  : DataFrame :=
  {| columns := ["participantId"; "Month"; "start_balance"; "end_balance";
                 "mean_balance_approx"];
     rows := map balance_row (bf_rows (monthly_balances_df log_files)) |}.

(** The merged table of a run. *)
Definition merged_table (S : Sorter) (inp : Inputs) : DataFrame :=
  let journal := process_journal (financial_journal inp) in
  merge_sources (balances_frame S (log_files inp))
    (process_participants (current_year inp) (participants inp))
    (df_income journal) (df_expenses_pivot journal).

(** A run that writes its output had a balance table with rows, took it
    as the grid, and post-processed the merged table without error. *)
Lemma written_run (S : Sorter) (inp : Inputs) (df_final : DataFrame) :
  preprocess_financial inp = Written df_final ->
  bf_rows (monthly_balances_df (log_files inp)) <> [] /\
  post_process (logged_expense_cols (process_journal (financial_journal inp)))
               (merged_table S inp) = inr df_final.
Proof.
  unfold preprocess_financial, merged_table, balances_frame,
    monthly_balances_df.
  destruct (monthly_balance_summaries_list (log_files inp)) as [|s l] eqn:E;
    [discriminate|].
  pose proof (@MergeClaims.combine_balances_not_empty S s l
                (@MergeClaims.summaries_not_empty S _ _ _ E)) as Hne.
  unfold month_to_timestamp. cbn [bf_Month_dtype bf_columns bf_rows].
  unfold merge_and_finalize, base_grid, is_empty. cbn [columns rows].
  destruct (combine_balances (s :: l)) as [|b bs] eqn:Eb; [congruence|].
  cbn [map negb].
  destruct (post_process _ _) as [e|df] eqn:Ep; [discriminate|].
  intros H. inversion H; subst. split; [discriminate|reflexivity].
Qed.

Lemma set_names (c : string) (v : cell) (r : Row) :
  In c (map fst r) -> map fst (set c v r) = map fst r.
Proof.
  induction r as [|[k x] t IH]; simpl; [tauto|].
  destruct (String.eqb c k) eqn:E.
  - apply String.eqb_eq in E. subst. reflexivity.
  - intros [H|H]; [subst; now rewrite String.eqb_refl in E|].
    simpl. now rewrite IH.
Qed.

Lemma cast_loop_schema (l : list string) (df df' : DataFrame) :
  incl l (columns df) ->
  Forall (fun r => map fst r = columns df) (rows df) ->
  fold_left cast_count_column l (inr df) = inr df' ->
  columns df' = columns df /\
  Forall (fun r => map fst r = columns df) (rows df').
Proof.
  revert df. induction l as [|c0 t IH]; intros df Hl Hrows; simpl.
  - intros H. inversion H; subst. auto.
  - destruct (assign_partial c0 (fun r => astype_int (get c0 r))
                (ValueError c0) df) as [e|df1] eqn:E.
    + rewrite cast_loop_raised. discriminate.
    + intros H.
      assert (Hc0 : In c0 (columns df)) by (apply Hl; now left).
      assert (Hcols : columns df1 = columns df).
      { unfold assign_partial in E.
        destruct (traverse _ (rows df)); [|discriminate].
        inversion E. cbn [columns].
        now rewrite (proj2 (has_column_In c0 (columns df)) Hc0). }
      apply assign_partial_rows in E.
      apply IH in H.
      * now rewrite Hcols in H.
      * rewrite Hcols. intros c Hc. apply Hl. now right.
      * rewrite Hcols. clear - E Hrows Hc0.
        induction E as [|r r' rs rs' (v & _ & ->) _ IHE]; [constructor|].
        inversion Hrows as [|? ? Hr Hrs]; subst.
        constructor; [|now apply IHE].
        rewrite set_names; [exact Hr|now rewrite Hr].
Qed.

Lemma Forall2_right (A B : Type) (P : B -> Prop) (R : A -> B -> Prop)
      (l : list A) (l' : list B) :
  (forall x y, R x y -> P y) -> Forall2 R l l' -> Forall P l'.
Proof.
  intros H. induction 1; constructor; eauto.
Qed.

(** The table that [post_process] returns has the final columns, every
    row has a cell for each of them, and the columns with "count" in
    their name hold integers. *)
Lemma post_process_schema (cols : list string) (df_merged df_final : DataFrame) :
  post_process cols df_merged = inr df_final ->
  columns df_final = final_cols cols /\
  Forall (fun r => map fst r = final_cols cols /\
                   forall c, In c (final_cols cols) ->
                             is_infix "count" c = true ->
                             exists z, get c r = Int z)
         (rows df_final).
Proof.
  unfold post_process.
  destruct (derive_mean_balance _) as [e|df3]; [discriminate|].
  cbn [bind].
  destruct (derive_net_change df3) as [e|df4]; [discriminate|].
  cbn [bind]. unfold cast_counts. cbn [columns select].
  set (df6 := select (final_cols cols)
                (fold_left add_missing_column (final_cols cols) df4)).
  intros H.
  assert (Hsel : Forall (fun r => map fst r = columns df6) (rows df6)).
  { unfold df6, select. cbn [columns rows]. apply Forall_forall.
    intros r Hr. apply in_map_iff in Hr. destruct Hr as (r0 & <- & _).
    rewrite map_map. cbn [fst]. apply map_id. }
  assert (Hincl : incl (filter (is_infix "count") (final_cols cols))
                       (columns df6)).
  { intros c Hc. now apply filter_In in Hc. }
  destruct (cast_loop_schema _ Hincl Hsel H) as [Hcols Hr].
  split; [exact Hcols|].
  pose proof (cast_loop_rows _ _ H) as Hrel.
  apply (@Forall2_right _ _
           (fun r' => forall c, In c (final_cols cols) ->
                                is_infix "count" c = true ->
                                exists z, get c r' = Int z)) in Hrel.
  - rewrite Forall_forall in *. intros r Hin. split; [now apply Hr|].
    now apply Hrel.
  - intros r r' Hcast c Hc Hcount. specialize (Hcast c).
    assert (Hhas : has_column c (filter (is_infix "count") (final_cols cols))
                   = true).
    { apply has_column_In, filter_In. auto. }
    rewrite Hhas in Hcast.
    destruct (get c r); simpl in Hcast; inversion Hcast; eauto.
Qed.

(** The table of a run that writes one. *)
Definition written_table (o : Outcome) : DataFrame :=
  match o with
  | Written df_final => df_final
  | _ => empty_frame
  end.

End OutputFacts.

Module OutputProperties.
Import Balances Journal Demographics Merge Financial.
Import PostProcessFacts PostProcessClaims PipelineFacts OutputFacts.
Local Open Scope string_scope.

(** X8. The table a run writes has the twenty fixed columns, in their
    fixed order, followed by one column per expense category in
    alphabetical order (the per-category count columns are not kept);
    every row has a cell for each column, and the columns with "count" in
    their name hold integers. *)
Theorem output_schema (S : Sorter) (inp : Inputs) (df_final : DataFrame) :
  preprocess_financial inp = Written df_final ->
  let cols :=
    final_cols (logged_expense_cols
                  (process_journal (financial_journal inp))) in
  columns df_final = cols /\
  Forall (fun r => map fst r = cols /\
                   forall c, In c cols -> is_infix "count" c = true ->
                             exists z, get c r = Int z)
         (rows df_final).
Proof.
  intros H. apply written_run in H. destruct H as [_ H].
  cbv zeta. now apply post_process_schema in H.
Qed.

Lemma output_schema_witness :
  let out := written_table
               (preprocess_financial (S := stable_sorter)
                  MergeClaims.grown_grid) in
  columns out = fixed_final_cols /\
  Forall (fun r => map fst r = fixed_final_cols /\
                   forall c, In c fixed_final_cols ->
                             is_infix "count" c = true ->
                             exists z, get c r = Int z)
         (rows out).
Proof.
  apply (@output_schema stable_sorter MergeClaims.grown_grid
           (written_table (preprocess_financial (S := stable_sorter)
                             MergeClaims.grown_grid))).
  vm_compute. reflexivity.
Defined.

End OutputProperties.

(** * Runs without demographics *)

Module DemographicColumnFacts.
Import Balances Journal Demographics Merge Financial.
Import PostProcessFacts PostProcessClaims PipelineFacts OutputFacts.
Local Open Scope string_scope.

Lemma balances_frame_cells (S : Sorter) (log_files : list LogFile) :
  cells_in_columns (balances_frame S log_files) /\
  incl key_columns (columns (balances_frame S log_files)).
Proof.
  split.
  - apply mapped_rows_cells. intros a e He. simpl in He. simpl.
    intuition (subst; simpl; auto).
  - intros c Hc. simpl in Hc. simpl. intuition.
Qed.

Lemma merged_table_cells (S : Sorter) (inp : Inputs) :
  cells_in_columns (merged_table S inp).
Proof.
  unfold merged_table.
  destruct (process_journal_cells (financial_journal inp))
    as (Hinc & Hexp & _).
  destruct (balances_frame_cells S (log_files inp)) as [Hb Hk].
  apply merge_sources_cells; auto.
  apply process_participants_cells.
Qed.

(** The rows of the output, from the rows of the merged table. *)
Lemma written_rows_filled (S : Sorter) (inp : Inputs) (df_final : DataFrame) :
  preprocess_financial inp = Written df_final ->
  Forall2 (fun r0 r =>
             finalized (logged_expense_cols
                          (process_journal (financial_journal inp)))
                       (columns (merged_table S inp)) r0 r /\
             fill_spec (logged_expense_cols
                          (process_journal (financial_journal inp)))
                       (columns (merged_table S inp)) r0 r)
          (rows (merged_table S inp)) (rows df_final).
Proof.
  intros H. apply written_run in H. destruct H as [_ Hp].
  destruct (process_journal_cells (financial_journal inp))
    as (_ & _ & Hcols).
  pose proof (merged_table_cells S inp) as Hwf.
  apply well_formed_iff in Hwf.
  pose proof (post_process_rows _ _ Hp) as (Hmba & Hit & Het & HF).
  assert (Hget : forall r0, In r0 (rows (merged_table S inp)) ->
            forall c, has_column c (columns (merged_table S inp)) = false ->
                      get c r0 = NA)
    by (intros r0 Hr0 c Hc; now apply (well_formed_get _ _ _ Hwf)).
  pose proof (@Forall2_with _ _ _ _ _ _ Hget HF) as H'. cbv beta in H'.
  eapply Forall2_impl; [|exact H'].
  intros r0 r7 (Hr0 & Hfin). split; [exact Hfin|].
  now apply finalized_fill_spec.
Qed.

Lemma Forall2_In_right (A B : Type) (R : A -> B -> Prop)
      (l : list A) (l' : list B) (y : B) :
  Forall2 R l l' -> In y l' -> exists x, In x l /\ R x y.
Proof.
  induction 1 as [|a b t t' Hab _ IH]; simpl; [tauto|].
  intros [<-|H]; [eauto|]. destruct (IH H) as (x & Hx & Hr). eauto.
Qed.

Lemma Forall2_In_left (A B : Type) (R : A -> B -> Prop)
      (l : list A) (l' : list B) (x : A) :
  Forall2 R l l' -> In x l -> exists y, In y l' /\ R x y.
Proof.
  induction 1 as [|a b t t' Hab _ IH]; simpl; [tauto|].
  intros [<-|H]; [eauto|]. destruct (IH H) as (y & Hy & Hr). eauto.
Qed.

(** ** The columns of the merged table without demographics *)

(** The names of the columns that the balances and the journal bring. *)
Definition financial_name (c : string) : bool :=
  String.prefix "logged_" c
  || has_column c ["participantId"; "Month"; "start_balance"; "end_balance";
                   "mean_balance_approx"].

Lemma income_frame_names (income : list Transaction) (c : string) :
  In c (columns (income_frame income)) -> financial_name c = true.
Proof.
  unfold income_frame. destruct income; simpl; [tauto|].
  intuition (subst; reflexivity).
Qed.

Lemma unstacked_names (expenses : list Transaction)
      (categories : list string) (c : string) :
  In c (columns (unstacked expenses categories)) -> financial_name c = true.
Proof.
  unfold unstacked. cbn [columns]. intros H.
  apply in_app_or in H. destruct H as [H|H].
  - simpl in H. intuition (subst; reflexivity).
  - apply in_app_or in H. destruct H as [H|H];
      apply in_map_iff in H; destruct H as (x & <- & _); reflexivity.
Qed.

Lemma expenses_pivot_names (expenses : list Transaction)
      (categories : list string) (c : string) :
  In c (columns (expenses_pivot expenses categories)) ->
  financial_name c = true.
Proof.
  unfold expenses_pivot, with_expense_count, with_expense_total.
  pose proof (@unstacked_names expenses categories c) as H.
  destruct (expense_columns (unstacked expenses categories)).
  - destruct (count_columns _); [apply H|].
    intros Hc. apply In_columns_assign in Hc.
    destruct Hc as [Hc| ->]; [now apply H|reflexivity].
  - destruct (count_columns _).
    + intros Hc. apply In_columns_assign in Hc.
      destruct Hc as [Hc| ->]; [now apply H|reflexivity].
    + intros Hc. apply In_columns_assign in Hc.
      destruct Hc as [Hc| ->]; [|reflexivity].
      apply In_columns_assign in Hc.
      destruct Hc as [Hc| ->]; [now apply H|reflexivity].
Qed.

Lemma process_journal_names (f : JournalFile) (c : string) :
  (In c (columns (df_income (process_journal f))) ->
   financial_name c = true) /\
  (In c (columns (df_expenses_pivot (process_journal f))) ->
   financial_name c = true).
Proof.
  destruct f as [[|x l]|]; try (split; intros []).
  unfold process_journal. cbn [df_income df_expenses_pivot].
  split; [apply income_frame_names|].
  destruct (df_expense_trans _); [intros []|apply expenses_pivot_names].
Qed.

Lemma merged_columns_In (on : list string) (L R : DataFrame) (c : string) :
  In c (merged_columns on L R) -> In c (columns L) \/ In c (columns R).
Proof.
  unfold merged_columns. intros H. apply in_app_or in H.
  destruct H as [H|H]; [now left|right]. now apply filter_In in H.
Qed.

Lemma merged_table_names (S : Sorter) (inp : Inputs) (c : string) :
  is_empty (process_participants (current_year inp) (participants inp))
  = true ->
  In c (columns (merged_table S inp)) -> financial_name c = true.
Proof.
  intros Hempty. unfold merged_table, merge_sources, merge_demographics.
  rewrite Hempty. cbn [negb].
  destruct (process_journal_names (financial_journal inp) c) as [Hi He].
  assert (Hb : In c (columns (balances_frame S (log_files inp))) ->
               financial_name c = true).
  { simpl. intuition (subst; reflexivity). }
  set (m2 := merge_income _ _).
  assert (H2 : In c (columns m2) -> financial_name c = true).
  { unfold m2, merge_income.
    destruct (negb (is_empty (df_income _))).
    - intros H. apply merged_columns_In in H. tauto.
    - intros H. apply In_columns_assign in H.
      destruct H as [H| ->]; [|reflexivity].
      apply In_columns_assign in H.
      destruct H as [H| ->]; [auto|reflexivity]. }
  unfold merge_expenses.
  destruct (negb (is_empty (df_expenses_pivot _))).
  - intros H. apply merged_columns_In in H. tauto.
  - intros H. apply In_columns_assign in H.
    destruct H as [H| ->]; [|reflexivity].
    apply In_columns_assign in H.
    destruct H as [H| ->]; [auto|reflexivity].
Qed.

(** Nothing usable comes out of section 3: the file is absent or cannot
    be read, it has no row, the clock is before 1997 (the age bins do not
    increase), or some row has an age or a household size that is not a
    whole number. *)
Definition demographics_fail (current_year : Z)
           (f : option (list ParticipantRow)) : bool :=
  match f with
  | None => true
  | Some file_rows =>
      match file_rows with [] => true | _ => false end
      || (current_year <? 1997)%Z
      || existsb (fun r => negb (integral (age r))
                           || negb (integral (householdSize r))) file_rows
  end.

Lemma demographics_fail_empty (current_year : Z)
      (f : option (list ParticipantRow)) :
  demographics_fail current_year f = true ->
  is_empty (process_participants current_year f) = true.
Proof.
  unfold demographics_fail, process_participants.
  destruct f as [file_rows|]; [|reflexivity].
  intros H.
  destruct (increasing (age_bins current_year)
            && forallb (fun r => integral (age r)
                                 && integral (householdSize r)) file_rows)
    eqn:E; [|reflexivity].
  apply andb_true_iff in E. destruct E as [Einc Eall].
  unfold is_empty. cbn [columns rows participant_columns].
  destruct file_rows as [|r t]; [reflexivity|]. exfalso.
  cbn [orb] in H. apply orb_true_iff in H. destruct H as [H|H].
  - apply Z.ltb_lt in H. unfold age_bins, increasing in Einc.
    rewrite !andb_true_iff in Einc.
    destruct Einc as (_ & _ & _ & Einc & _). apply Z.ltb_lt in Einc. lia.
  - apply existsb_exists in H. destruct H as (x & Hx & Hbad).
    rewrite forallb_forall in Eall. specialize (Eall x Hx).
    apply andb_true_iff in Eall. destruct Eall as [E1 E2].
    rewrite E1, E2 in Hbad. discriminate.
Qed.

End DemographicColumnFacts.

Module DemographicColumnProperties.
Import Balances Journal Demographics Merge Financial.
Import PostProcessFacts PostProcessClaims PipelineFacts.
Import OutputFacts DemographicColumnFacts.
Local Open Scope string_scope.

Definition demographic_columns : list string :=
  ["age"; "age_group"; "educationLevel"; "householdSize";
   "household_size_group"; "haveKids"; "haveKids_group"; "interestGroup";
   "joviality"; "joviality_group"].

(** X9. When Participants.csv is absent or unreadable, has no row, or
    has one row whose age or household size is not a whole number (or the
    clock is before 1997), every row of the output has "Unknown" in each
    of the ten demographic columns, the raw ones included. *)
Theorem failed_demographics_give_unknown
    (S : Sorter) (inp : Inputs) (df_final : DataFrame) :
  demographics_fail (current_year inp) (participants inp) = true ->
  preprocess_financial inp = Written df_final ->
  Forall (fun r => forall c, In c demographic_columns ->
                             get c r = Str "Unknown")
         (rows df_final).
Proof.
  intros Hfail Hw. apply demographics_fail_empty in Hfail.
  pose proof (written_rows_filled S inp Hw) as HF.
  pose proof (merged_table_cells S inp) as Hwf.
  apply well_formed_iff in Hwf.
  apply Forall_forall. intros r Hr.
  destruct (Forall2_In_right _ HF Hr) as (r0 & Hr0 & _ & Hspec).
  assert (Habsent : forall c, In c demographic_columns ->
            has_column c (columns (merged_table S inp)) = false).
  { intros c Hc.
    destruct (has_column c (columns (merged_table S inp))) eqn:E;
      [|reflexivity].
    apply has_column_In, (merged_table_names S inp c Hfail) in E.
    simpl in Hc.
    repeat (destruct Hc as [<-|Hc]; [discriminate E|]). destruct Hc. }
  destruct Hspec as (Hgroup & _ & _ & _ & _ & _ & _ & Hraw).
  intros c Hc. pose proof (Habsent c Hc) as Hno.
  assert (Hcases : In c demo_group_cols \/
                   In c ["age"; "householdSize"; "haveKids"; "joviality"]).
  { simpl in Hc. simpl. intuition. }
  destruct Hcases as [Hg|Hg].
  - rewrite (Hgroup c Hg), (well_formed_get _ _ _ Hwf Hr0 Hno). reflexivity.
  - rewrite (Hraw c Hg), Hno. reflexivity.
Qed.

(** One balance reading, one wage, and an attribute row with an age of
    30.5. *)
Definition fractional_age : Inputs :=
  {| log_files := [MergeClaims.january_log];
     financial_journal := MergeClaims.february_wage;
     participants :=
       Some [ {| p_participantId := 1;
                 householdSize := Number 3;
                 haveKids := Some true;
                 age := Number (61 # 2);
                 educationLevel := Some "Bachelors";
                 interestGroup := Some "A";
                 joviality := Number (1 # 2) |} ];
     current_year := 2026 |}.

Lemma failed_demographics_give_unknown_witness :
  Forall (fun r => forall c, In c demographic_columns ->
                             get c r = Str "Unknown")
         (rows (written_table
                  (preprocess_financial (S := stable_sorter)
                     fractional_age))).
Proof.
  apply (@failed_demographics_give_unknown stable_sorter fractional_age).
  - reflexivity.
  - vm_compute. reflexivity.
Defined.

End DemographicColumnProperties.

(** * The keys of the output *)

Module KeyFacts.
Import Balances Journal Demographics Merge Financial.
Import PostProcessFacts PostProcessClaims PipelineFacts.
Import OutputFacts DemographicColumnFacts.
Local Open Scope string_scope.

(** Some row bears the key (p, m). *)
Definition has_key (p m : Z) (l : list Row) : Prop :=
  exists r, In r l /\ get "participantId" r = Int p /\ get "Month" r = Int m.

Definition key_of (p m : Z) (r : Row) : Prop :=
  get "participantId" r = Int p /\ get "Month" r = Int m.

Lemma get_joined (on : list string) (c : string) (l m : Row) :
  has_column c on = true \/ has_column c (map fst m) = false ->
  get c (joined on l m) = get c l.
Proof.
  intros H. unfold joined. rewrite get_app.
  destruct (has_column c (map fst l)) eqn:E; [reflexivity|].
  assert (Hl : get c l = NA).
  { apply get_absent. intros e He.
    destruct (String.eqb c (fst e)) eqn:E'; [|reflexivity].
    apply String.eqb_eq in E'. subst c.
    apply not_true_iff_false in E. exfalso. apply E.
    apply has_column_In. now apply in_map. }
  rewrite Hl. apply get_absent. intros e He. apply filter_In in He.
  destruct He as [He Hon].
  destruct (String.eqb c (fst e)) eqn:E'; [|reflexivity].
  apply String.eqb_eq in E'. subst c. exfalso.
  destruct H as [H|H].
  - rewrite H in Hon. discriminate.
  - apply not_true_iff_false in H. apply H.
    apply has_column_In. now apply in_map.
Qed.

Lemma cell_eqb_Int (z : Z) (x : cell) :
  cell_eqb (Int z) x = true -> x = Int z.
Proof.
  destruct x; simpl; try discriminate. intros H.
  apply Z.eqb_eq in H. now subst.
Qed.

Lemma same_key_key_of (p m : Z) (l r : Row) :
  same_key key_columns l r = true -> key_of p m l -> key_of p m r.
Proof.
  unfold same_key, key_columns, key_of. cbn [forallb].
  rewrite !andb_true_iff. intros (H1 & H2 & _) [Hp Hm].
  rewrite Hp in H1. rewrite Hm in H2.
  split; now apply cell_eqb_Int.
Qed.

(** The keys of the rows of a left merge are the keys of the left
    table, when the join columns are key columns and the right rows have
    no cell for a key column outside the join columns. *)
Lemma left_rows_keys (on : list string) (L R : DataFrame) (p m : Z) :
  (forall c, In c key_columns ->
             has_column c on = true \/
             forall r, In r (rows R) -> has_column c (map fst r) = false) ->
  has_key p m (left_rows on L R) <-> has_key p m (rows L).
Proof.
  intros Hon.
  assert (Hj : forall l r, In r (rows R) ->
             get "participantId" (joined on l r) = get "participantId" l /\
             get "Month" (joined on l r) = get "Month" l).
  { intros l r Hr. split; apply get_joined.
    - destruct (Hon "participantId") as [H|H]; [simpl; auto|now left|].
      right. now apply H.
    - destruct (Hon "Month") as [H|H]; [simpl; auto|now left|].
      right. now apply H. }
  unfold has_key, left_rows. split.
  - intros (r & Hr & Hp & Hm). apply in_flat_map in Hr.
    destruct Hr as (l & Hl & Hr). exists l. split; [exact Hl|].
    destruct (filter (same_key on l) (rows R)) as [|x xs] eqn:E.
    + destruct Hr as [<-|[]]. auto.
    + apply in_map_iff in Hr. destruct Hr as (r' & <- & Hr').
      assert (HrR : In r' (rows R)).
      { assert (H : In r' (filter (same_key on l) (rows R)))
          by (rewrite E; exact Hr').
        now apply filter_In in H. }
      destruct (Hj l r' HrR) as [E1 E2]. now rewrite <- E1, <- E2.
  - intros (l & Hl & Hp & Hm).
    destruct (filter (same_key on l) (rows R)) as [|x xs] eqn:E.
    + exists l. split; [|auto]. apply in_flat_map. exists l.
      split; [exact Hl|]. rewrite E. now left.
    + exists (joined on l x).
      assert (HxR : In x (rows R)).
      { assert (H : In x (filter (same_key on l) (rows R)))
          by (rewrite E; now left).
        now apply filter_In in H. }
      destruct (Hj l x HxR) as [E1 E2]. rewrite E1, E2.
      split; [|auto]. apply in_flat_map. exists l.
      split; [exact Hl|]. rewrite E. now left.
Qed.

(** The keys of an outer merge on the key columns are the keys of the two
    tables. *)
Lemma merge_outer_keys (L R : DataFrame) (p m : Z) :
  has_key p m (rows (merge_outer key_columns L R)) <->
  has_key p m (rows L) \/ has_key p m (rows R).
Proof.
  assert (Hleft : has_key p m (left_rows key_columns L R)
                  <-> has_key p m (rows L)).
  { apply left_rows_keys. intros c Hc. left. now apply has_column_In. }
  unfold merge_outer. cbn [rows]. split.
  - intros (r & Hr & Hk). apply in_app_or in Hr. destruct Hr as [Hr|Hr].
    + left. apply Hleft. exists r. auto.
    + right. apply filter_In in Hr. exists r. tauto.
  - intros [H|(r & Hr & Hk)].
    + apply Hleft in H. destruct H as (r & Hr & Hk).
      exists r. split; [apply in_or_app; now left|exact Hk].
    + destruct (existsb (fun l => same_key key_columns l r) (rows L)) eqn:E.
      * apply existsb_exists in E. destruct E as (l & Hl & Hs).
        assert (Hkl : key_of p m l).
        { apply (same_key_key_of (l := r)); [|exact Hk].
          now rewrite same_key_sym. }
        assert (H : has_key p m (rows L)) by (exists l; auto).
        apply Hleft in H. destruct H as (r' & Hr' & Hk').
        exists r'. split; [apply in_or_app; now left|exact Hk'].
      * exists r. split; [|exact Hk]. apply in_or_app. right.
        apply filter_In. split; [exact Hr|]. now rewrite E.
Qed.

Lemma assign_keys (c : string) (v : cell) (df : DataFrame) (p m : Z) :
  String.eqb "participantId" c = false -> String.eqb "Month" c = false ->
  has_key p m (rows (assign c (fun _ => v) df)) <-> has_key p m (rows df).
Proof.
  intros H1 H2. unfold has_key, assign. cbn [rows]. split.
  - intros (r & Hr & Hp & Hm). apply in_map_iff in Hr.
    destruct Hr as (r0 & <- & Hr0). rewrite get_set in Hp, Hm.
    rewrite H1 in Hp. rewrite H2 in Hm.
    exists r0. auto.
  - intros (r & Hr & Hp & Hm). exists (set c v r).
    split; [now apply in_map|]. now rewrite !get_set, H1, H2.
Qed.

(** An empty table has no key. *)
Lemma empty_no_key (df : DataFrame) (p m : Z) :
  cells_in_columns df -> is_empty df = true -> ~ has_key p m (rows df).
Proof.
  intros Hwf He (r & Hr & Hp & _). unfold is_empty in He.
  destruct (columns df) as [|c cs] eqn:Ec.
  - assert (Hna : get "participantId" r = NA).
    { apply get_absent. intros e Hin.
      specialize (Hwf r e Hr Hin). rewrite Ec in Hwf. destruct Hwf. }
    congruence.
  - destruct (rows df); [destruct Hr|discriminate].
Qed.

Lemma participants_no_month (current_year : Z)
      (f : option (list ParticipantRow)) (r : Row) :
  In r (rows (process_participants current_year f)) ->
  has_column "Month" (map fst r) = false.
Proof.
  intros Hr.
  destruct (has_column "Month" (map fst r)) eqn:E; [|reflexivity].
  apply has_column_In, in_map_iff in E. destruct E as (e & He & Hin).
  pose proof (process_participants_cells current_year f r e Hr Hin) as Hc.
  rewrite He in Hc. unfold process_participants in Hc.
  destruct f as [l|]; [|destruct Hc].
  destruct (_ && _); [|destruct Hc].
  simpl in Hc. intuition discriminate.
Qed.

Lemma merge_sources_keys (base parts inc exp : DataFrame) (p m : Z) :
  (forall r, In r (rows parts) -> has_column "Month" (map fst r) = false) ->
  cells_in_columns inc -> cells_in_columns exp ->
  has_key p m (rows (merge_sources base parts inc exp)) <->
  has_key p m (rows base) \/ has_key p m (rows inc) \/ has_key p m (rows exp).
Proof.
  intros Hparts Hinc Hexp.
  unfold merge_sources, merge_expenses, merge_income, merge_demographics.
  set (m1 := if negb (is_empty parts)
             then merge_left ["participantId"] base parts else base).
  assert (H1 : has_key p m (rows m1) <-> has_key p m (rows base)).
  { unfold m1. destruct (negb (is_empty parts)); [|tauto].
    cbn [merge_left rows]. apply left_rows_keys.
    intros c Hc. simpl in Hc. destruct Hc as [<-|[<-|[]]].
    - now left.
    - now right. }
  set (m2 := if negb (is_empty inc) then merge_outer key_columns m1 inc
             else assign "logged_income_count" (fun _ => Flt 0)
                    (assign "logged_income_total" (fun _ => Flt 0) m1)).
  assert (H2 : has_key p m (rows m2) <->
               has_key p m (rows base) \/ has_key p m (rows inc)).
  { unfold m2. destruct (is_empty inc) eqn:E; cbn [negb].
    - rewrite !assign_keys by reflexivity. rewrite H1.
      pose proof (@empty_no_key inc p m Hinc E). tauto.
    - rewrite merge_outer_keys, H1. tauto. }
  destruct (is_empty exp) eqn:E; cbn [negb].
  - rewrite !assign_keys by reflexivity. rewrite H2.
    pose proof (@empty_no_key exp p m Hexp E). tauto.
  - rewrite merge_outer_keys, H2. tauto.
Qed.

Lemma merge_sources_columns (base parts inc exp : DataFrame) (c : string) :
  In c (columns base) -> In c (columns (merge_sources base parts inc exp)).
Proof.
  intros Hc.
  unfold merge_sources, merge_expenses, merge_income, merge_demographics.
  set (m1 := if negb (is_empty parts)
             then merge_left ["participantId"] base parts else base).
  assert (H1 : In c (columns m1)).
  { unfold m1. destruct (negb (is_empty parts)); [|exact Hc].
    cbn [merge_left columns]. unfold merged_columns. apply in_or_app.
    now left. }
  set (m2 := if negb (is_empty inc) then merge_outer key_columns m1 inc
             else assign "logged_income_count" (fun _ => Flt 0)
                    (assign "logged_income_total" (fun _ => Flt 0) m1)).
  assert (H2 : In c (columns m2)).
  { unfold m2. destruct (negb (is_empty inc)).
    - cbn [merge_outer columns]. unfold merged_columns. apply in_or_app.
      now left.
    - apply In_columns_assign. left. apply In_columns_assign. now left. }
  destruct (negb (is_empty exp)).
  - cbn [merge_outer columns]. unfold merged_columns. apply in_or_app.
    now left.
  - apply In_columns_assign. left. apply In_columns_assign. now left.
Qed.

Lemma merged_table_key_columns (S : Sorter) (inp : Inputs) (c : string) :
  In c key_columns -> In c (columns (merged_table S inp)).
Proof.
  intros Hc. unfold merged_table. apply merge_sources_columns.
  simpl in *. intuition.
Qed.

(** A key column goes through lines 310-363 untouched. *)
Lemma finalized_key (cols cols0 : list string) (r0 r7 : Row) (c : string) :
  forallb (String.prefix "logged_expense_") cols = true ->
  In c key_columns -> In c cols0 ->
  finalized cols cols0 r0 r7 -> get c r7 = get c r0.
Proof.
  intros Hcols Hc Hin (v & _ & Hrel). specialize (Hrel c).
  apply has_column_In in Hin.
  assert (Hplain : String.prefix "logged_" c = false).
  { simpl in Hc. destruct Hc as [<-|[<-|[]]]; reflexivity. }
  destruct (not_logged cols c Hcols Hplain) as (N1 & N2 & N3).
  unfold selected, filled, final_cols, financial_fill_cols in Hrel.
  rewrite ?has_column_filter, ?has_column_app in Hrel.
  rewrite ?N1, ?N2, ?N3, ?Hin in Hrel.
  simpl in Hc. destruct Hc as [<-|[<-|[]]]; exact Hrel.
Qed.

Lemma balance_row_key (r : BalanceRow) (p m : Z) :
  key_of p m (balance_row r) <-> balance_key r = (p, m).
Proof.
  unfold key_of, balance_row, balance_key. simpl. split.
  - intros [H1 H2]. inversion H1. inversion H2. reflexivity.
  - intros H. inversion H. auto.
Qed.

End KeyFacts.

Module KeyProperties.
Import Balances Journal Demographics Merge Financial.
Import PostProcessFacts PostProcessClaims PipelineFacts.
Import OutputFacts DemographicColumnFacts KeyFacts.
Import BalancesFacts BalanceTableFacts.
Local Open Scope string_scope.

(** X10. The output of a run has a row for a (participant, month) exactly
    when some readable log file has a row with a timestamp for it, or the
    income table has a row for it, or the expense pivot has a row for it:
    the outer joins lose no key and invent none. *)
Theorem output_keys_cover_sources
    (S : Sorter) (inp : Inputs) (df_final : DataFrame) :
  preprocess_financial inp = Written df_final ->
  let journal := process_journal (financial_journal inp) in
  forall p m,
    has_key p m (rows df_final) <->
    log_rows (p, m) (log_files inp) <> [] \/
    has_key p m (rows (df_income journal)) \/
    has_key p m (rows (df_expenses_pivot journal)).
Proof.
  intros Hw. cbv zeta. intros p m.
  pose proof (written_rows_filled S inp Hw) as HF.
  destruct (process_journal_cells (financial_journal inp))
    as (Hinc & Hexp & Hcols).
  assert (Hfinal : has_key p m (rows df_final) <->
                   has_key p m (rows (merged_table S inp))).
  { assert (Hk : forall r0 r,
              finalized (logged_expense_cols
                           (process_journal (financial_journal inp)))
                        (columns (merged_table S inp)) r0 r ->
              get "participantId" r = get "participantId" r0 /\
              get "Month" r = get "Month" r0).
    { intros r0 r Hfin. split.
      - apply (@finalized_key _ (columns (merged_table S inp)) r0 r
                 "participantId" Hcols); [simpl; auto| |exact Hfin].
        apply merged_table_key_columns. simpl; auto.
      - apply (@finalized_key _ (columns (merged_table S inp)) r0 r
                 "Month" Hcols); [simpl; auto| |exact Hfin].
        apply merged_table_key_columns. simpl; auto. }
    split.
    - intros (r & Hr & Hp & Hm).
      destruct (Forall2_In_right _ HF Hr) as (r0 & Hr0 & Hfin & _).
      destruct (Hk r0 r Hfin) as [E1 E2].
      exists r0. rewrite <- E1, <- E2. auto.
    - intros (r0 & Hr0 & Hp & Hm).
      destruct (Forall2_In_left _ HF Hr0) as (r & Hr & Hfin & _).
      destruct (Hk r0 r Hfin) as [E1 E2].
      exists r. rewrite E1, E2. auto. }
  rewrite Hfinal. unfold merged_table.
  rewrite merge_sources_keys;
    [|apply participants_no_month|exact Hinc|exact Hexp].
  assert (Hbal : has_key p m (rows (balances_frame S (log_files inp))) <->
                 log_rows (p, m) (log_files inp) <> []).
  { unfold balances_frame. cbn [rows].
    pose proof (balance_rows_of_key (p, m) (log_files inp)) as Hrows.
    pose proof (month_group_perm (p, m) (log_files inp)) as HP.
    pose proof (key_summaries_nil (p, m) (log_files inp)) as Hnil.
    split.
    - intros (r & Hr & Hk). apply in_map_iff in Hr.
      destruct Hr as (b & <- & Hb).
      apply (proj1 (balance_row_key b p m)) in Hk.
      intros Hno. apply Hnil in Hno. rewrite Hno in HP.
      apply Permutation_sym, Permutation_nil in HP. rewrite HP in Hrows.
      assert (Hin : In b (filter (fun r => key_eqb (p, m) (balance_key r))
                            (bf_rows (monthly_balances_df (log_files inp))))).
      { apply filter_In. split; [exact Hb|]. apply key_eqb_eq. now symmetry. }
      rewrite Hrows in Hin. destruct Hin.
    - intros Hne.
      destruct (month_group (p, m) (log_files inp)) as [|s g] eqn:Eg.
      + apply Permutation_nil in HP. apply Hnil in HP. contradiction.
      + assert (Hin : In (summarize_month_group ((p, m), s :: g))
                         (filter (fun r => key_eqb (p, m) (balance_key r))
                            (bf_rows (monthly_balances_df (log_files inp)))))
          by (rewrite Hrows; now left).
        apply filter_In in Hin. destruct Hin as [Hin _].
        exists (balance_row (summarize_month_group ((p, m), s :: g))).
        split; [now apply in_map|]. split; reflexivity. }
  rewrite Hbal. tauto.
Qed.

Lemma output_keys_cover_sources_witness :
  let out := written_table
               (preprocess_financial (S := stable_sorter)
                  MergeClaims.grown_grid) in
  let journal := process_journal
                   (financial_journal MergeClaims.grown_grid) in
  has_key 1 (month_ordinal 2022 2) (rows out) <->
  log_rows (1%Z, month_ordinal 2022 2) (log_files MergeClaims.grown_grid)
    <> [] \/
  has_key 1 (month_ordinal 2022 2) (rows (df_income journal)) \/
  has_key 1 (month_ordinal 2022 2) (rows (df_expenses_pivot journal)).
Proof.
  apply (@output_keys_cover_sources stable_sorter MergeClaims.grown_grid
           (written_table (preprocess_financial (S := stable_sorter)
                             MergeClaims.grown_grid))).
  vm_compute. reflexivity.
Defined.

End KeyProperties.

(** * Runs that write their output *)

Module RunFacts.
Import Balances Journal Demographics Merge Financial.
Import PostProcessFacts PostProcessClaims PipelineFacts.
Import OutputFacts DemographicColumnFacts KeyFacts.
Import BalancesFacts BalanceTableFacts.
Local Open Scope string_scope.

(** Past line 119 the outcome of a run is the outcome of the
    post-processing of its merged table. *)
Lemma run_outcome (S : Sorter) (inp : Inputs) :
  bf_rows (monthly_balances_df (log_files inp)) <> [] ->
  preprocess_financial inp =
  match post_process (logged_expense_cols
                        (process_journal (financial_journal inp)))
                     (merged_table S inp)
  with
  | inl e => Raised e
  | inr df_final => Written df_final
  end.
Proof.
  unfold preprocess_financial, merged_table, balances_frame,
    monthly_balances_df.
  destruct (monthly_balance_summaries_list (log_files inp)) as [|s l] eqn:E;
    [intros H; exfalso; apply H; reflexivity|].
  intros _.
  pose proof (@MergeClaims.combine_balances_not_empty S s l
                (@MergeClaims.summaries_not_empty S _ _ _ E)) as Hne.
  unfold month_to_timestamp. cbn [bf_Month_dtype bf_columns bf_rows].
  unfold merge_and_finalize, base_grid, is_empty. cbn [columns rows].
  destruct (combine_balances (s :: l)) as [|b bs] eqn:Eb; [congruence|].
  reflexivity.
Qed.

Lemma balances_not_empty (S : Sorter) (log_files : list LogFile) (k : Key) :
  log_rows k log_files <> [] ->
  bf_rows (monthly_balances_df log_files) <> [].
Proof.
  intros Hk Hnil.
  pose proof (balance_rows_of_key k log_files) as Hrows.
  rewrite Hnil in Hrows. cbn [filter] in Hrows.
  pose proof (month_group_perm k log_files) as HP.
  destruct (month_group k log_files) as [|s g]; [|discriminate].
  apply Permutation_nil in HP. apply key_summaries_nil in HP.
  contradiction.
Qed.

(** ** Cells of the logged columns are numbers *)

Definition number_or_missing (x : cell) : Prop :=
  x = NA \/ exists q, x = Flt q.

(** In a row, the cells whose name starts with "logged_" hold a float or
    nothing. *)
Definition logged_numeric (r : Row) : Prop :=
  forall e, In e r -> String.prefix "logged_" (fst e) = true ->
            number_or_missing (snd e).

Lemma get_logged_numeric (c : string) (r : Row) :
  logged_numeric r -> String.prefix "logged_" c = true ->
  number_or_missing (get c r).
Proof.
  intros H Hc. induction r as [|[k x] t IH]; simpl; [now left|].
  destruct (String.eqb c k) eqn:E.
  - apply String.eqb_eq in E. subst k.
    apply (H (c, x)); [now left|exact Hc].
  - apply IH. intros e He. apply H. now right.
Qed.

Lemma set_logged_numeric (c : string) (v : cell) (r : Row) :
  number_or_missing v -> logged_numeric r -> logged_numeric (set c v r).
Proof.
  intros Hv Hr e He Hp. apply In_set in He.
  destruct He as [->|He]; [exact Hv|now apply Hr].
Qed.

Lemma rows_logged_numeric_assign (c : string) (f : Row -> cell)
      (df : DataFrame) :
  (forall r, number_or_missing (f r)) ->
  Forall logged_numeric (rows df) ->
  Forall logged_numeric (rows (assign c f df)).
Proof.
  intros Hf H. unfold assign. cbn [rows]. apply Forall_forall.
  intros r Hr. apply in_map_iff in Hr. destruct Hr as (r0 & <- & Hr0).
  apply set_logged_numeric; [apply Hf|].
  rewrite Forall_forall in H. now apply H.
Qed.

Lemma left_rows_logged_numeric (on : list string) (L R : DataFrame) :
  Forall logged_numeric (rows L) -> Forall logged_numeric (rows R) ->
  Forall logged_numeric (left_rows on L R).
Proof.
  rewrite !Forall_forall. intros HL HR r Hr.
  unfold left_rows in Hr. apply in_flat_map in Hr.
  destruct Hr as (l & Hl & Hr).
  destruct (filter (same_key on l) (rows R)) as [|x xs] eqn:E.
  - destruct Hr as [<-|[]]. now apply HL.
  - apply in_map_iff in Hr. destruct Hr as (r' & <- & Hr').
    assert (HrR : In r' (rows R)).
    { assert (H : In r' (filter (same_key on l) (rows R)))
        by (rewrite E; exact Hr').
      now apply filter_In in H. }
    intros e He Hp. unfold joined in He. apply in_app_or in He.
    destruct He as [He|He]; [now apply (HL l Hl)|].
    apply filter_In in He. destruct He as [He _]. now apply (HR r' HrR).
Qed.

Lemma merge_outer_logged_numeric (on : list string) (L R : DataFrame) :
  Forall logged_numeric (rows L) -> Forall logged_numeric (rows R) ->
  Forall logged_numeric (rows (merge_outer on L R)).
Proof.
  intros HL HR. unfold merge_outer. cbn [rows]. apply Forall_app. split.
  - now apply left_rows_logged_numeric.
  - rewrite Forall_forall in *. intros r Hr. apply filter_In in Hr.
    now apply HR.
Qed.

Lemma merge_sources_logged_numeric (base parts inc exp : DataFrame) :
  Forall logged_numeric (rows base) -> Forall logged_numeric (rows parts) ->
  Forall logged_numeric (rows inc) -> Forall logged_numeric (rows exp) ->
  Forall logged_numeric (rows (merge_sources base parts inc exp)).
Proof.
  intros Hb Hp Hi He.
  unfold merge_sources, merge_expenses, merge_income, merge_demographics.
  set (m1 := if negb (is_empty parts)
             then merge_left ["participantId"] base parts else base).
  assert (H1 : Forall logged_numeric (rows m1)).
  { unfold m1. destruct (negb (is_empty parts)); [|exact Hb].
    cbn [merge_left rows]. now apply left_rows_logged_numeric. }
  set (m2 := if negb (is_empty inc) then merge_outer key_columns m1 inc
             else assign "logged_income_count" (fun _ => Flt 0)
                    (assign "logged_income_total" (fun _ => Flt 0) m1)).
  assert (H2 : Forall logged_numeric (rows m2)).
  { unfold m2. destruct (negb (is_empty inc)).
    - now apply merge_outer_logged_numeric.
    - apply rows_logged_numeric_assign; [intros; right; eauto|].
      apply rows_logged_numeric_assign; [intros; right; eauto|exact H1]. }
  destruct (negb (is_empty exp)).
  - now apply merge_outer_logged_numeric.
  - apply rows_logged_numeric_assign; [intros; right; eauto|].
    apply rows_logged_numeric_assign; [intros; right; eauto|exact H2].
Qed.

Lemma mapped_rows_logged_numeric (A : Type) (mk : A -> Row) (l : list A) :
  (forall a, logged_numeric (mk a)) -> Forall logged_numeric (map mk l).
Proof.
  intros H. apply Forall_forall. intros r Hr. apply in_map_iff in Hr.
  destruct Hr as (a & <- & _). apply H.
Qed.

Lemma income_frame_logged_numeric (income : list Transaction) :
  Forall logged_numeric (rows (income_frame income)).
Proof.
  unfold income_frame. destruct income; [constructor|]. cbn [rows].
  apply mapped_rows_logged_numeric. intros g e He Hp. simpl in He.
  destruct He as [<-|[<-|[<-|[<-|[]]]]]; cbn in Hp; try discriminate Hp;
    right; cbn [snd]; eauto.
Qed.

Lemma pivot_row_logged_numeric (expenses : list Transaction)
      (categories : list string) (p m : Z) :
  logged_numeric (pivot_row expenses categories p m).
Proof.
  intros e He Hp. unfold pivot_row in He. apply in_app_or in He.
  destruct He as [He|He].
  - simpl in He. destruct He as [<-|[<-|[]]]; cbn in Hp; discriminate Hp.
  - apply in_app_or in He.
    destruct He as [He|He]; apply in_map_iff in He;
      destruct He as (c & <- & _); right; cbn [snd]; eauto.
Qed.

Lemma expenses_pivot_logged_numeric (expenses : list Transaction)
      (categories : list string) :
  Forall logged_numeric (rows (expenses_pivot expenses categories)).
Proof.
  assert (H : Forall logged_numeric (rows (unstacked expenses categories))).
  { apply Forall_forall. intros r Hr. apply JournalFacts.rows_unstacked in Hr.
    destruct Hr as (p & m & ->). apply pivot_row_logged_numeric. }
  assert (Hsum : forall cols r, number_or_missing (sum_axis1 cols r))
    by (intros; right; unfold sum_axis1; eauto).
  unfold expenses_pivot, with_expense_count, with_expense_total.
  destruct (expense_columns (unstacked expenses categories));
    destruct (count_columns _);
    auto using rows_logged_numeric_assign.
Qed.

Lemma process_journal_logged_numeric (f : JournalFile) :
  Forall logged_numeric (rows (df_income (process_journal f))) /\
  Forall logged_numeric (rows (df_expenses_pivot (process_journal f))).
Proof.
  destruct f as [[|x l]|]; try (split; constructor).
  unfold process_journal. cbn [df_income df_expenses_pivot].
  split; [apply income_frame_logged_numeric|].
  destruct (df_expense_trans _);
    [constructor|apply expenses_pivot_logged_numeric].
Qed.

Lemma process_participants_logged_numeric (current_year : Z)
      (f : option (list ParticipantRow)) :
  Forall logged_numeric (rows (process_participants current_year f)).
Proof.
  unfold process_participants. destruct f as [l|]; [|constructor].
  destruct (_ && _); [|constructor]. cbn [rows].
  apply mapped_rows_logged_numeric. intros a e He Hp. simpl in He.
  repeat (destruct He as [<-|He]; [cbn in Hp; discriminate Hp|]).
  destruct He.
Qed.

Lemma merged_table_logged_numeric (S : Sorter) (inp : Inputs) :
  Forall logged_numeric (rows (merged_table S inp)).
Proof.
  unfold merged_table.
  destruct (process_journal_logged_numeric (financial_journal inp))
    as [Hi He].
  apply merge_sources_logged_numeric; auto.
  - unfold balances_frame. cbn [rows]. apply mapped_rows_logged_numeric.
    intros a e Hin Hp. simpl in Hin.
    repeat (destruct Hin as [<-|Hin]; [cbn in Hp; discriminate Hp|]).
    destruct Hin.
  - apply process_participants_logged_numeric.
Qed.

(** The merged table has the two totals that line 337 reads. *)
Lemma merge_sources_totals (base parts inc exp : DataFrame) :
  (is_empty inc = false -> In "logged_income_total" (columns inc)) ->
  (is_empty exp = false -> In "logged_expense_total" (columns exp)) ->
  In "logged_income_total" (columns (merge_sources base parts inc exp)) /\
  In "logged_expense_total" (columns (merge_sources base parts inc exp)).
Proof.
  intros Hi He.
  unfold merge_sources, merge_expenses, merge_income, merge_demographics.
  set (m1 := if negb (is_empty parts)
             then merge_left ["participantId"] base parts else base).
  set (m2 := if negb (is_empty inc) then merge_outer key_columns m1 inc
             else assign "logged_income_count" (fun _ => Flt 0)
                    (assign "logged_income_total" (fun _ => Flt 0) m1)).
  assert (H2 : In "logged_income_total" (columns m2)).
  { unfold m2. destruct (is_empty inc) eqn:E; cbn [negb].
    - apply In_columns_assign. left. apply In_columns_assign. now right.
    - cbn [merge_outer columns]. unfold merged_columns. apply in_or_app.
      right. apply filter_In. split; [now apply Hi|reflexivity]. }
  destruct (is_empty exp) eqn:E; cbn [negb].
  - split.
    + apply In_columns_assign. left. apply In_columns_assign. now left.
    + apply In_columns_assign. left. apply In_columns_assign. now right.
  - cbn [merge_outer columns]. unfold merged_columns. split.
    + apply in_or_app. now left.
    + apply in_or_app. right. apply filter_In.
      split; [now apply He|reflexivity].
Qed.

Lemma process_journal_totals (f : JournalFile) :
  (is_empty (df_income (process_journal f)) = false ->
   In "logged_income_total" (columns (df_income (process_journal f)))) /\
  (is_empty (df_expenses_pivot (process_journal f)) = false ->
   In "logged_expense_total"
      (columns (df_expenses_pivot (process_journal f)))).
Proof.
  destruct f as [[|x l]|]; try (split; discriminate).
  unfold process_journal. cbn [df_income df_expenses_pivot]. split.
  - unfold income_frame. destruct (df_income_trans _); [discriminate|].
    intros _. simpl. auto.
  - destruct (df_expense_trans _) as [|t ts]; [discriminate|]. intros Hne.
    unfold expenses_pivot, with_expense_count.
    assert (Ht : In "logged_expense_total"
                    (columns (with_expense_total
                                (unstacked (t :: ts)
                                   (unique_strings
                                      (map j_category (x :: l))))))).
    { unfold with_expense_total.
      rewrite JournalFacts.expense_columns_unstacked.
      destruct (unique_strings (map j_category (x :: l))) as [|c cs] eqn:Ec.
      - exfalso. clear - Ec.
        assert (Hin : In (j_category x)
                         (unique_strings (map j_category (x :: l)))).
        { apply JournalClaims.unique_strings_In. now left. }
        rewrite Ec in Hin. destruct Hin.
      - cbn [map]. apply In_columns_assign. now right. }
    destruct (count_columns _); [exact Ht|].
    apply In_columns_assign. now left.
Qed.

(** ** Stages that cannot fail *)

Lemma traverse_total (A B : Type) (f : A -> option B) (l : list A) :
  (forall x, In x l -> f x <> None) -> exists l', traverse f l = Some l'.
Proof.
  induction l as [|x t IH]; simpl; intros H; [eauto|].
  destruct (f x) as [y|] eqn:E; [|exfalso; apply (H x); auto].
  destruct IH as (ys & ->); [intros; apply H; now right|]. eauto.
Qed.

Lemma assign_partial_total (c : string) (f : Row -> option cell) (e : Exn)
      (df : DataFrame) :
  (forall r, In r (rows df) -> f r <> None) ->
  exists df', assign_partial c f e df = inr df'.
Proof.
  intros H. unfold assign_partial.
  destruct (@traverse_total _ _
              (fun r => option_map (fun v => set c v r) (f r)) (rows df))
    as (rs & ->); [|eauto].
  intros r Hr. specialize (H r Hr). now destruct (f r).
Qed.

Lemma cast_loop_total (l : list string) (df : DataFrame) :
  (forall r c, In r (rows df) -> In c l -> astype_int (get c r) <> None) ->
  exists df', fold_left cast_count_column l (inr df) = inr df'.
Proof.
  revert df. induction l as [|c0 t IH]; intros df H; simpl; [eauto|].
  destruct (@assign_partial_total c0 (fun r => astype_int (get c0 r))
              (ValueError c0) df) as (df1 & E).
  { intros r Hr. apply H; [exact Hr|now left]. }
  rewrite E. apply IH. intros r' c Hr' Hc.
  apply assign_partial_rows in E.
  destruct (Forall2_In_right _ E Hr') as (r & Hr & v & Hv & ->).
  rewrite get_set. destruct (String.eqb c c0).
  - rewrite (astype_int_idem _ Hv). discriminate.
  - apply H; [exact Hr|now right].
Qed.

Lemma filled_logged (cols cols0 : list string) (c : string) (r0 : Row) :
  logged_numeric r0 -> String.prefix "logged_" c = true ->
  has_column c (financial_fill_cols cols) = true ->
  has_column c cols0 = true ->
  exists q, filled cols cols0 c r0 = Flt q.
Proof.
  intros Hr Hp Hfill Hin. unfold filled. rewrite Hfill, Hin. cbn [andb].
  assert (Hd : has_column c demo_group_cols = false).
  { destruct (has_column c demo_group_cols) eqn:E; [|reflexivity].
    apply has_column_In in E. simpl in E.
    repeat (destruct E as [<-|E]; [discriminate Hp|]). destruct E. }
  rewrite Hd. cbn [andb].
  destruct (get_logged_numeric c Hr Hp) as [->|(q & ->)]; simpl; eauto.
Qed.

(** A column of the output with "count" in its name is one of the two
    logged counts or a per-category expense column. *)
Lemma count_column_filled (cols : list string) (c : string) :
  forallb (String.prefix "logged_expense_") cols = true ->
  In c (final_cols cols) -> is_infix "count" c = true ->
  String.prefix "logged_" c = true /\
  has_column c (financial_fill_cols cols) = true /\
  String.eqb c "net_logged_change" = false /\
  String.eqb c "mean_balance" = false.
Proof.
  intros Hcols Hc Hcount. unfold final_cols in Hc.
  apply in_app_or in Hc. destruct Hc as [Hc|Hc].
  - simpl in Hc.
    repeat (destruct Hc as [<-|Hc];
            [try discriminate Hcount; repeat split; reflexivity|]).
    destruct Hc.
  - apply (proj1 (JournalClaims.sorted_strings_In c cols)) in Hc.
    rewrite forallb_forall in Hcols. pose proof (Hcols c Hc) as Hp.
    destruct (expense_column_logged c Hp) as [Hl _].
    destruct (logged_is_plain_free c Hp) as (_ & D2 & D3).
    repeat split; auto.
    unfold financial_fill_cols. rewrite !has_column_app.
    rewrite (proj2 (has_column_In c cols) Hc). cbn [orb].
    now rewrite orb_true_r.
Qed.

(** Lines 310-363 raise nothing on a table that has the mean balance and
    the two totals, and whose logged cells are numbers. *)
Lemma post_process_total (cols : list string) (df : DataFrame) :
  forallb (String.prefix "logged_expense_") cols = true ->
  has_column "mean_balance_approx" (columns df) = true ->
  has_column "logged_income_total" (columns df) = true ->
  has_column "logged_expense_total" (columns df) = true ->
  Forall logged_numeric (rows df) ->
  exists df_final, post_process cols df = inr df_final.
Proof.
  intros Hcols Hmba Hit Het Hnum. unfold post_process.
  set (df2 := fill_demographics (fill_financial cols df)).
  assert (Hc2 : columns df2 = columns df).
  { unfold df2, fill_demographics, fill_financial.
    now rewrite !columns_fill_loop. }
  assert (Hr2 : forall r2, In r2 (rows df2) ->
            exists r0, In r0 (rows df) /\
                       forall c, get c r2 = filled cols (columns df) c r0).
  { intros r2 Hr2. unfold df2, fill_demographics, fill_financial in Hr2.
    rewrite rows_fill_loop, columns_fill_loop, rows_fill_loop, map_map in Hr2.
    apply in_map_iff in Hr2. destruct Hr2 as (r0 & <- & Hr0).
    exists r0. split; [exact Hr0|]. intros c. unfold filled.
    now rewrite !get_fill_cells, !has_column_filter. }
  unfold derive_mean_balance. rewrite Hc2, Hmba. cbn [bind].
  set (df3 := assign "mean_balance" (get "mean_balance_approx") df2).
  assert (Hc3 : forall c, has_column c (columns df3)
                          = has_column c (columns df)
                            || String.eqb c "mean_balance").
  { intros c. unfold df3. now rewrite has_column_assign, Hc2. }
  assert (Hr3 : forall r3, In r3 (rows df3) ->
            exists r0, In r0 (rows df) /\
              forall c, String.eqb c "mean_balance" = false ->
                        get c r3 = filled cols (columns df) c r0).
  { intros r3 Hr3. unfold df3, assign in Hr3. cbn [rows] in Hr3.
    apply in_map_iff in Hr3. destruct Hr3 as (r2 & <- & Hin).
    destruct (Hr2 r2 Hin) as (r0 & Hr0 & Hg). exists r0.
    split; [exact Hr0|]. intros c Hc. rewrite get_set, Hc. apply Hg. }
  rewrite Forall_forall in Hnum.
  unfold derive_net_change. rewrite !Hc3, Hit, Het. cbn [orb negb].
  destruct (@assign_partial_total "net_logged_change"
              (fun r => cell_sub (get "logged_income_total" r)
                                 (get "logged_expense_total" r))
              (TypeError "net_logged_change") df3) as (df4 & E4).
  { intros r3 Hin. destruct (Hr3 r3 Hin) as (r0 & Hr0 & Hg).
    rewrite !Hg by reflexivity.
    destruct (@filled_logged cols (columns df) "logged_income_total" r0
                (Hnum r0 Hr0) eq_refl eq_refl Hit) as (a & ->).
    destruct (@filled_logged cols (columns df) "logged_expense_total" r0
                (Hnum r0 Hr0) eq_refl eq_refl Het) as (b & ->).
    discriminate. }
  rewrite E4. cbn [bind]. unfold cast_counts. cbn [columns select].
  apply cast_loop_total. intros r6 c Hr6 Hc.
  apply filter_In in Hc. destruct Hc as [Hc Hcount].
  destruct (@count_column_filled cols c Hcols Hc Hcount)
    as (Hp & Hfill & Nnet & Nmean).
  unfold select in Hr6. cbn [rows] in Hr6. rewrite rows_add_missing in Hr6.
  rewrite map_map in Hr6. apply in_map_iff in Hr6.
  destruct Hr6 as (r4 & <- & Hr4).
  rewrite get_select, (proj2 (has_column_In c _) Hc), get_add_cells.
  rewrite (proj2 (has_column_In c _) Hc).
  rewrite (assign_partial_columns c _ _ _ _ E4), Hc3, Nnet, Nmean.
  rewrite !orb_false_r.
  destruct (has_column c (columns df)) eqn:Ein.
  - apply assign_partial_rows in E4.
    destruct (Forall2_In_right _ E4 Hr4) as (r3 & Hr3in & v & _ & ->).
    destruct (Hr3 r3 Hr3in) as (r0 & Hr0 & Hg).
    rewrite get_set, Nnet, (Hg c Nmean).
    destruct (@filled_logged cols (columns df) c r0
                (Hnum r0 Hr0) Hp Hfill Ein) as (q & ->).
    discriminate.
  - unfold default_value.
    assert (Hd : existsb (fun k => is_infix k c)
                         ["total"; "balance"; "change"; "count"] = true).
    { cbn [existsb]. rewrite Hcount. now rewrite !orb_true_r. }
    rewrite Hd. discriminate.
Qed.

Lemma journal_without_rows (f : JournalFile) :
  (forall file_rows, f = Some file_rows -> with_month file_rows = []) ->
  process_journal f = no_journal.
Proof.
  intros H. destruct f as [[|x l]|]; try reflexivity.
  unfold process_journal. now rewrite (H (x :: l) eq_refl).
Qed.

End RunFacts.

Module RunProperties.
Import Balances Journal Demographics Merge Financial.
Import PostProcessFacts PostProcessClaims PipelineFacts.
Import OutputFacts DemographicColumnFacts KeyFacts RunFacts.
Import BalancesFacts BalanceTableFacts.
Local Open Scope string_scope.

(** X11. A run in which some readable log file has a row with a
    timestamp writes its output, whatever the journal and the attribute
    table hold: nothing raises after line 119. *)
Theorem run_with_balances_writes (S : Sorter) (inp : Inputs) (k : Key) :
  log_rows k (log_files inp) <> [] ->
  exists df_final, preprocess_financial inp = Written df_final.
Proof.
  intros Hk.
  rewrite (@run_outcome S inp (@balances_not_empty S (log_files inp) k Hk)).
  destruct (process_journal_cells (financial_journal inp))
    as (_ & _ & Hcols).
  destruct (process_journal_totals (financial_journal inp)) as [Ti Te].
  destruct (@post_process_total
              (logged_expense_cols (process_journal (financial_journal inp)))
              (merged_table S inp)) as (df_final & ->); [exact Hcols| | | | |].
  - apply has_column_In. unfold merged_table. apply merge_sources_columns.
    simpl. auto 10.
  - apply has_column_In. unfold merged_table.
    now apply merge_sources_totals.
  - apply has_column_In. unfold merged_table.
    now apply merge_sources_totals.
  - apply merged_table_logged_numeric.
  - eauto.
Qed.

Lemma run_with_balances_writes_witness :
  exists df_final,
    preprocess_financial (S := stable_sorter) MergeClaims.one_profile
    = Written df_final.
Proof.
  apply (@run_with_balances_writes stable_sorter MergeClaims.one_profile
           (2%Z, month_ordinal 2022 1)).
  vm_compute. discriminate.
Defined.

(** X12. When FinancialJournal.csv is absent or unreadable, or has no row
    with a timestamp, every row of the output has 0 as its logged income
    total and count, as its logged expense total and count and as its net
    logged change. *)
Theorem absent_journal_gives_zeros
    (S : Sorter) (inp : Inputs) (df_final : DataFrame) :
  (forall file_rows, financial_journal inp = Some file_rows ->
                     Journal.with_month file_rows = []) ->
  preprocess_financial inp = Written df_final ->
  Forall (fun r => get "logged_income_total" r = Flt 0 /\
                   get "logged_income_count" r = Int 0 /\
                   get "logged_expense_total" r = Flt 0 /\
                   get "logged_expense_count" r = Int 0 /\
                   get "net_logged_change" r = Flt 0)
         (rows df_final).
Proof.
  intros Hj Hw. apply journal_without_rows in Hj.
  pose proof (written_rows_filled S inp Hw) as HF.
  apply Forall_forall. intros r Hr.
  destruct (Forall2_In_right _ HF Hr) as (r0 & Hr0 & _ & Hspec).
  assert (H0 : get "logged_income_total" r0 = Flt 0 /\
               get "logged_income_count" r0 = Flt 0 /\
               get "logged_expense_total" r0 = Flt 0 /\
               get "logged_expense_count" r0 = Flt 0).
  { unfold merged_table in Hr0. rewrite Hj in Hr0.
    unfold merge_sources, merge_expenses, merge_income in Hr0.
    cbn [df_income df_expenses_pivot no_journal is_empty empty_frame
         columns rows negb] in Hr0.
    unfold assign in Hr0. cbn [rows] in Hr0.
    rewrite !map_map in Hr0. apply in_map_iff in Hr0.
    destruct Hr0 as (r1 & <- & _). rewrite !get_set.
    repeat split; reflexivity. }
  destruct H0 as (Z1 & Z2 & Z3 & Z4).
  destruct Hspec as (_ & Hfin & _ & Hcount & Hnet & _ & _ & _).
  pose proof (Hfin "logged_income_total") as F1.
  pose proof (Hfin "logged_expense_total") as F3.
  pose proof (Hcount "logged_income_count") as F2.
  pose proof (Hcount "logged_expense_count") as F4.
  rewrite Z1 in F1. rewrite Z3 in F3. rewrite Z2 in F2. rewrite Z4 in F4.
  rewrite Z1, Z3 in Hnet.
  split; [apply F1; simpl; auto|].
  split; [specialize (F2 (or_introl eq_refl)); now inversion F2|].
  split; [apply F3; simpl; auto 6|].
  split; [specialize (F4 (or_intror (or_introl eq_refl)));
          now inversion F4|].
  now inversion Hnet.
Qed.

(** The balances of two participants and one attribute row; no journal. *)
Definition no_journal_run : Inputs :=
  {| log_files := [MergeClaims.two_participants_log];
     financial_journal := None;
     participants := Some [MergeClaims.bachelor];
     current_year := 2026 |}.

Lemma absent_journal_gives_zeros_witness :
  Forall (fun r => get "logged_income_total" r = Flt 0 /\
                   get "logged_income_count" r = Int 0 /\
                   get "logged_expense_total" r = Flt 0 /\
                   get "logged_expense_count" r = Int 0 /\
                   get "net_logged_change" r = Flt 0)
         (rows (written_table
                  (preprocess_financial (S := stable_sorter)
                     no_journal_run))).
Proof.
  apply (@absent_journal_gives_zeros stable_sorter no_journal_run).
  - intros file_rows H. discriminate H.
  - vm_compute. reflexivity.
Defined.

End RunProperties.

(** * How preprocess_turnover.py fails *)

Module TurnoverProperties.
Import Turnover.

Lemma all_chunks_nil (log_files : list LogFile) :
  all_chunks log_files = [] <-> forall f, In f log_files -> f = None.
Proof.
  induction log_files as [|f t IH]; simpl.
  - split; [intros _ f []|reflexivity].
  - destruct f as [file_rows|].
    + split; [discriminate|]. intros H.
      specialize (H (Some file_rows) (or_introl eq_refl)). discriminate.
    + rewrite IH. split.
      * intros H f [<-|Hf]; [reflexivity|now apply H].
      * intros H f Hf. apply H. now right.
Qed.

(** X13. The script ends by [exit(1)] exactly when there is no log file,
    and by the error of [pd.concat] on an empty list exactly when there
    are log files and none of them can be read. *)
Theorem turnover_failures (S : Sorter) (log_files : list LogFile) :
  (preprocess_turnover log_files = Exit1 <-> log_files = []) /\
  (preprocess_turnover log_files = ConcatError <->
   log_files <> [] /\ forall f, In f log_files -> f = None).
Proof.
  unfold preprocess_turnover. destruct log_files as [|f fs].
  - split; [tauto|]. split; [discriminate|]. intros [H _]. congruence.
  - pose proof (all_chunks_nil (f :: fs)) as Hnil.
    destruct (all_chunks (f :: fs)) as [|c cs].
    + split; [split; discriminate|].
      split; [|reflexivity]. intros _. split; [discriminate|].
      now apply Hnil.
    + split; [split; discriminate|].
      split; [discriminate|]. intros [_ H]. apply Hnil in H. discriminate.
Qed.

End TurnoverProperties.

(** * Properties of the layoff tables *)

Module LayoffFacts.
Import Turnover Layoffs TurnoverClaims.

Lemma layoff_count_bounds (april_data : list CompanyMonthRow)
      (company : CompanyMonthRow) :
  (0 <= layoff_count april_data company <= Z.of_nat (worker_count company))%Z.
Proof.
  unfold layoff_count.
  destruct (filter _ april_data) as [|a t]; lia.
Qed.

Lemma percentage_bounds (count size : Z) :
  (1 <= count <= size)%Z ->
  (0 < inject_Z count / inject_Z size * 100 <= 100)%Q.
Proof.
  intros H.
  destruct size as [|p|p]; try lia.
  destruct count as [|c|c]; try lia.
  unfold Qlt, Qle, Qdiv, Qmult, Qinv, inject_Z. simpl. lia.
Qed.

(** What a row of the layoff table says about the company of March it
    comes from. *)
Definition layoff_row_spec (march_data : list CompanyMonthRow)
           (r : LayoffRow) : Prop :=
  (exists company,
      In company march_data /\
      w_employerId company = company_id r /\
      Z.of_nat (worker_count company) = original_size r) /\
  (1 <= layoffs r <= original_size r)%Z /\
  (layoff_percentage r
   == inject_Z (layoffs r) / inject_Z (original_size r) * 100)%Q /\
  (0 < layoff_percentage r <= 100)%Q.

Lemma layoff_rows_spec (april_data march_data : list CompanyMonthRow)
      (company : CompanyMonthRow) :
  In company march_data ->
  Forall (layoff_row_spec march_data) (layoff_rows april_data company).
Proof.
  intros Hin. unfold layoff_rows.
  pose proof (layoff_count_bounds april_data company) as Hb.
  destruct (0 <? layoff_count april_data company)%Z eqn:E; [|constructor].
  apply Z.ltb_lt in E. constructor; [|constructor].
  assert (Hm : (0 <? Z.of_nat (worker_count company))%Z = true)
    by (apply Z.ltb_lt; lia).
  unfold layoff_row_spec. cbn [company_id original_size layoffs
                                 layoff_percentage].
  rewrite Hm.
  assert (Hp := @percentage_bounds (layoff_count april_data company)
                  (Z.of_nat (worker_count company))).
  split; [exists company; auto|]. split; [lia|].
  split; [apply Qred_correct|]. rewrite Qred_correct. apply Hp. lia.
Qed.

Lemma Forall_flat_map_intro (A B : Type) (P : B -> Prop) (f : A -> list B)
      (l : list A) :
  (forall x, In x l -> Forall P (f x)) -> Forall P (flat_map f l).
Proof.
  intros H. apply Forall_forall. intros y Hy.
  apply in_flat_map in Hy. destruct Hy as (x & Hx & Hy).
  specialize (H x Hx). rewrite Forall_forall in H. now apply H.
Qed.

Lemma Zsum_app (l1 l2 : list Z) :
  Zsum (l1 ++ l2) = (Zsum l1 + Zsum l2)%Z.
Proof. induction l1 as [|x t IH]; simpl; [reflexivity|]. rewrite IH. lia. Qed.

(** The number of distinct participants with a record for an employer in
    a month. *)
Definition headcount (e m : Z) (work : list EmployedRow) : nat :=
  nunique (map e_participantId (staff e m work)).

Lemma employer_month_rows (e m : Z) (workers : list CompanyMonthRow) :
  filter (fun w => (w_employerId w =? e)%Z) (month_data m workers) =
  headcounts e m workers.
Proof.
  unfold month_data, headcounts, key_eqb.
  induction workers as [|w t IH]; simpl; [reflexivity|].
  rewrite (Z.eqb_sym e), (Z.eqb_sym m).
  destruct (w_month w =? m)%Z; simpl.
  - rewrite andb_true_r. destruct (w_employerId w =? e)%Z; now rewrite IH.
  - now rewrite andb_false_r.
Qed.

Lemma headcount_rows (S : Sorter) (df_logs : list StatusRow) (e m : Z) :
  headcounts e m (workers_by_company df_logs) =
  match headcount e m (df_employed df_logs) with
  | O => []
  | n => [ {| w_employerId := e; w_month := m; worker_count := n |} ]
  end.
Proof.
  pose proof (workers_by_company_spec df_logs e m) as H.
  unfold headcount, nunique.
  destruct (staff e m (df_employed df_logs)) as [|x t].
  - exact H.
  - destruct H as (w & -> & He & Hm & Hc & Hpos).
    rewrite <- Hc. clear Hc. destruct w as [we wm wc]. simpl in *. subst.
    destruct wc; [lia|reflexivity].
Qed.

Lemma filter_flat_map (A B : Type) (p : B -> bool) (f : A -> list B)
      (l : list A) :
  filter p (flat_map f l) = flat_map (fun x => filter p (f x)) l.
Proof.
  induction l as [|x t IH]; simpl; [reflexivity|].
  now rewrite filter_app, IH.
Qed.

Lemma flat_map_filter (A B : Type) (g : A -> bool) (f : A -> list B)
      (l : list A) :
  flat_map (fun x => if g x then f x else []) l = flat_map f (filter g l).
Proof.
  induction l as [|x t IH]; simpl; [reflexivity|].
  destruct (g x); simpl; now rewrite IH.
Qed.

Lemma layoff_rows_of_company (april_data : list CompanyMonthRow)
      (company : CompanyMonthRow) (e : Z) :
  filter (fun r => (company_id r =? e)%Z) (layoff_rows april_data company) =
  if (w_employerId company =? e)%Z then layoff_rows april_data company
  else [].
Proof.
  unfold layoff_rows.
  destruct (0 <? layoff_count april_data company)%Z;
    [|now destruct (w_employerId company =? e)%Z].
  cbn [filter company_id].
  now destruct (w_employerId company =? e)%Z.
Qed.

Lemma layoff_data_of_company (df : list CompanyMonthRow) (e : Z) :
  filter (fun r => (company_id r =? e)%Z) (layoff_data df) =
  flat_map (layoff_rows (month_data april_2022 df))
           (headcounts e march_2022 df).
Proof.
  unfold layoff_data. rewrite filter_flat_map.
  rewrite <- employer_month_rows, <- flat_map_filter.
  apply flat_map_ext. intros company. apply layoff_rows_of_company.
Qed.

(** [sorted] keeps the elements and their multiplicity. *)
Lemma insert_string_In (s x : string) (l : list string) :
  In x (insert_string s l) <-> x = s \/ In x l.
Proof.
  induction l as [|y t IH]; simpl; [intuition congruence|].
  destruct (String.leb s y); simpl; rewrite ?IH; intuition congruence.
Qed.

Lemma insert_string_NoDup (s : string) (l : list string) :
  ~ In s l -> NoDup l -> NoDup (insert_string s l).
Proof.
  induction l as [|y t IH]; simpl; intros Hs Hl.
  - constructor; [intros []|constructor].
  - destruct (String.leb s y).
    + now constructor.
    + inversion Hl as [|? ? Hy Ht]; subst. constructor.
      * rewrite insert_string_In. intros [->|H]; [apply Hs; now left|auto].
      * apply IH; [intros H; apply Hs; now right|exact Ht].
Qed.

Lemma sorted_strings_mem (x : string) (l : list string) :
  In x (sorted_strings l) <-> In x l.
Proof.
  unfold sorted_strings. induction l as [|y t IH]; simpl; [tauto|].
  rewrite insert_string_In, IH. intuition congruence.
Qed.

Lemma sorted_strings_NoDup (l : list string) :
  NoDup l -> NoDup (sorted_strings l).
Proof.
  unfold sorted_strings. induction 1 as [|y t Hy Ht IH]; simpl.
  - constructor.
  - apply insert_string_NoDup; [|exact IH].
    fold (sorted_strings t). now rewrite sorted_strings_mem.
Qed.

Lemma categories_NoDup (df : list LayoffRow) : NoDup (categories df).
Proof. apply sorted_strings_NoDup, NoDup_nodup. Qed.

Lemma categories_In (df : list LayoffRow) (r : LayoffRow) :
  In r df -> In (size_category r) (categories df).
Proof.
  intros H. apply sorted_strings_mem, nodup_In. now apply in_map.
Qed.

(** A sum over the values of a column that are distinct picks each row
    once. *)
Lemma Zsum_indicator (x : Z) (s : string) (l : list string) :
  NoDup l -> In s l ->
  Zsum (map (fun c => if String.eqb s c then x else 0%Z) l) = x.
Proof.
  induction 1 as [|y t Hy Ht IH]; simpl; [tauto|].
  intros [->|Hin].
  - rewrite String.eqb_refl.
    assert (H0 : Zsum (map (fun c => if String.eqb s c then x else 0%Z) t)
                 = 0%Z).
    { clear - Hy. induction t as [|z t IH]; simpl; [reflexivity|].
      destruct (String.eqb s z) eqn:E.
      - apply String.eqb_eq in E. subst. exfalso. apply Hy. now left.
      - rewrite IH; [reflexivity|]. intros H. apply Hy. now right. }
    rewrite H0. lia.
  - destruct (String.eqb s y) eqn:E.
    + apply String.eqb_eq in E. subst. contradiction.
    + now rewrite IH.
Qed.

Lemma Zsum_map_add (A : Type) (f g : A -> Z) (l : list A) :
  Zsum (map (fun c => (f c + g c)%Z) l) = (Zsum (map f l) + Zsum (map g l))%Z.
Proof. induction l as [|x t IH]; simpl; [reflexivity|]. rewrite IH. lia. Qed.

Lemma category_layoffs_total (df : list LayoffRow) (cats : list string) :
  NoDup cats -> (forall r, In r df -> In (size_category r) cats) ->
  Zsum (map (category_layoffs df) cats) = Zsum (map layoffs df).
Proof.
  intros Hnd. induction df as [|r t IH]; intros Hin.
  - unfold category_layoffs. simpl.
    induction cats as [|c cs IHc]; simpl; [reflexivity|].
    inversion Hnd; subst. now rewrite IHc.
  - assert (E : forall c, category_layoffs (r :: t) c =
                  ((if String.eqb (size_category r) c then layoffs r else 0)
                   + category_layoffs t c)%Z).
    { intros c. unfold category_layoffs. simpl.
      destruct (String.eqb (size_category r) c); simpl; lia. }
    rewrite (map_ext _ _ E), Zsum_map_add.
    rewrite Zsum_indicator; [|exact Hnd|apply Hin; now left].
    rewrite IH by (intros; apply Hin; now right). reflexivity.
Qed.

Lemma combine_app_same (A B : Type) (l1 l2 : list A) (m1 m2 : list B) :
  List.length l1 = List.length m1 ->
  combine (l1 ++ l2) (m1 ++ m2) = (combine l1 m1 ++ combine l2 m2)%list.
Proof.
  revert m1. induction l1 as [|x t IH]; intros [|y m1]; simpl;
    try discriminate; [reflexivity|].
  intros H. f_equal. apply IH. lia.
Qed.

Lemma firstn_combine_app (A B : Type) (l1 l2 : list A) (m1 m2 : list B) :
  List.length l1 = List.length m1 ->
  firstn (List.length l1) (combine (l1 ++ l2) (m1 ++ m2)) = combine l1 m1.
Proof.
  intros H. rewrite combine_app_same by exact H.
  rewrite firstn_app.
  replace (List.length l1) with (List.length (combine l1 m1))
    by (rewrite length_combine; lia).
  rewrite firstn_all, Nat.sub_diag. simpl. apply app_nil_r.
Qed.

Lemma assign_category_values (size : Z) :
  assign_category size = "Large (10+ employees)"%string \/
  assign_category size = "Medium (5-9 employees)"%string \/
  assign_category size = "Small (<5 employees)"%string.
Proof.
  unfold assign_category.
  destruct (10 <=? size)%Z; [auto|]. destruct (5 <=? size)%Z; auto.
Qed.

(** The sum of the values of the nodes whose parent is [label]. *)
Definition children_total (t : Treemap) (label : string) : Z :=
  Zsum (map snd (filter (fun n => String.eqb (fst n) label)
                        (combine (parents t) (values t)))).

Lemma company_nodes_total (df : list LayoffRow) (label : string) :
  Zsum (map snd (filter (fun n => String.eqb (fst n) label)
                        (combine (map size_category df) (map layoffs df)))) =
  category_layoffs df label.
Proof.
  unfold category_layoffs.
  induction df as [|r t IH]; simpl; [reflexivity|].
  destruct (String.eqb (size_category r) label); simpl; now rewrite IH.
Qed.

Lemma category_nodes_total (df : list LayoffRow) (cats : list string)
      (label : string) :
  Zsum (map snd (filter (fun n => String.eqb (fst n) label)
                        (combine (map (fun _ => "All Companies"%string) cats)
                                 (map (category_layoffs df) cats)))) =
  if String.eqb "All Companies" label
  then Zsum (map (category_layoffs df) cats) else 0%Z.
Proof.
  induction cats as [|c cs IH];
    cbn [map combine filter fst snd Zsum fold_right].
  - now destruct (String.eqb "All Companies" label).
  - fold (Zsum (map (category_layoffs df) cs)).
    destruct (String.eqb "All Companies" label);
      cbn [map snd Zsum fold_right] in *;
      unfold Zsum in IH; now rewrite IH.
Qed.

Lemma children_cons (p label : string) (v : Z) (ps : list string)
      (vs : list Z) :
  Zsum (map snd (filter (fun n => String.eqb (fst n) label)
                        (combine (p :: ps) (v :: vs)))) =
  ((if String.eqb p label then v else 0)
   + Zsum (map snd (filter (fun n => String.eqb (fst n) label)
                           (combine ps vs))))%Z.
Proof.
  cbn [combine filter fst]. destruct (String.eqb p label); simpl; lia.
Qed.

Lemma children_total_treemap (df : list LayoffRow) (label : string) :
  children_total (treemap df) label =
  ((if String.eqb "" label then Zsum (map layoffs df) else 0)
   + (if String.eqb "All Companies" label
      then Zsum (map (category_layoffs df) (categories df)) else 0)
   + category_layoffs df label)%Z.
Proof.
  unfold children_total, treemap. cbn [parents values app].
  rewrite children_cons.
  rewrite combine_app_same by now rewrite !length_map.
  rewrite filter_app, map_app, Zsum_app.
  rewrite category_nodes_total, company_nodes_total. lia.
Qed.

Lemma category_layoffs_other (df : list LayoffRow) (label : string) :
  (forall size, assign_category size <> label) ->
  category_layoffs df label = 0%Z.
Proof.
  intros H. unfold category_layoffs.
  induction df as [|r t IH]; simpl; [reflexivity|].
  destruct (String.eqb (size_category r) label) eqn:E; [|exact IH].
  apply String.eqb_eq in E. exfalso. apply (H (original_size r)). exact E.
Qed.

Lemma layoff_rows_totals (april_data : list CompanyMonthRow)
      (company : CompanyMonthRow) :
  (Z.of_nat (List.length (layoff_rows april_data company))
   <= Zsum (map layoffs (layoff_rows april_data company))
   <= Z.of_nat (worker_count company))%Z /\
  (List.length (layoff_rows april_data company) <= 1)%nat.
Proof.
  unfold layoff_rows.
  pose proof (layoff_count_bounds april_data company) as Hb.
  destruct (0 <? layoff_count april_data company)%Z eqn:E; simpl.
  - apply Z.ltb_lt in E. lia.
  - lia.
Qed.

End LayoffFacts.

Module LayoffProperties.
Import Turnover Layoffs LayoffFacts TurnoverClaims.

(** X14. Every row of the layoff table comes from a company of March, has
    that company's March head count as its original size, a layoff count
    between 1 and the original size, and a percentage, layoffs over
    original size times 100, that is above 0 and at most 100. *)
Theorem layoffs_within_march_headcount (df : list CompanyMonthRow) :
  Forall (layoff_row_spec (month_data march_2022 df)) (layoff_data df).
Proof.
  unfold layoff_data. apply Forall_flat_map_intro.
  intros company Hin. now apply layoff_rows_spec.
Qed.

(** X15. On the table that preprocess_turnover.py saves, a company has a
    row in the layoff table exactly when it has more distinct workers in
    March 2022 than in April 2022 (none, when it has no record in April);
    the row is then the only one of the company, its original size is the
    March head count and its layoffs are the difference of the two head
    counts. *)
Theorem layoffs_are_headcount_losses
    (S : Sorter) (df_logs : list StatusRow) (e : Z) :
  let work := df_employed df_logs in
  let before := headcount e march_2022 work in
  let after := headcount e april_2022 work in
  filter (fun r => (company_id r =? e)%Z)
         (layoff_data (workers_by_company df_logs)) =
  if (after <? before)%nat
  then [ {| company_id := e;
            original_size := Z.of_nat before;
            layoffs := Z.of_nat (before - after);
            layoff_percentage :=
              Qred (inject_Z (Z.of_nat (before - after))
                    / inject_Z (Z.of_nat before) * 100) |} ]
  else [].
Proof.
  cbv zeta. rewrite layoff_data_of_company, headcount_rows.
  destruct (headcount e march_2022 (df_employed df_logs)) as [|b] eqn:Eb.
  - cbn [flat_map].
    destruct (headcount e april_2022 (df_employed df_logs) <? 0)%nat eqn:E;
      [apply Nat.ltb_lt in E; lia|reflexivity].
  - cbn [flat_map]. rewrite app_nil_r.
    unfold layoff_rows, layoff_count. cbn [w_employerId worker_count].
    rewrite employer_month_rows, headcount_rows.
    destruct (headcount e april_2022 (df_employed df_logs)) as [|a] eqn:Ea.
    + assert (H1 : (0 <? Z.of_nat (Datatypes.S b))%Z = true)
        by (apply Z.ltb_lt; lia).
      rewrite H1.
      assert (H2 : (0 <? Datatypes.S b)%nat = true)
        by (apply Nat.ltb_lt; lia).
      rewrite H2. rewrite Nat.sub_0_r. reflexivity.
    + cbn [worker_count].
      destruct (Datatypes.S a <? Datatypes.S b)%nat eqn:E.
      * apply Nat.ltb_lt in E.
        assert (H3 : Z.max 0 (Z.of_nat (Datatypes.S b)
                              - Z.of_nat (Datatypes.S a))
                     = Z.of_nat (Datatypes.S b - Datatypes.S a)) by lia.
        rewrite H3.
        assert (H1 : (0 <? Z.of_nat (Datatypes.S b - Datatypes.S a))%Z = true)
          by (apply Z.ltb_lt; lia).
        assert (H2 : (0 <? Z.of_nat (Datatypes.S b))%Z = true)
          by (apply Z.ltb_lt; lia).
        rewrite H1, H2. reflexivity.
      * apply Nat.ltb_ge in E.
        assert (H3 : Z.max 0 (Z.of_nat (Datatypes.S b)
                              - Z.of_nat (Datatypes.S a)) = 0%Z) by lia.
        rewrite H3. reflexivity.
Qed.

(** X16. In the lists handed to the treemap, the value of the root is the
    sum of the values of the nodes whose parent is the root, and the value
    of each size category is the sum of the values of the nodes whose
    parent is that category. *)
Theorem treemap_values_add_up (treemap_df : list LayoffRow) :
  let t := treemap treemap_df in
  Forall (fun node => snd node = children_total t (fst node))
         (firstn (Datatypes.S (List.length (categories treemap_df)))
                 (combine (labels t) (values t))).
Proof.
  cbv zeta.
  assert (E : firstn (Datatypes.S (List.length (categories treemap_df)))
                     (combine (labels (treemap treemap_df))
                              (values (treemap treemap_df))) =
              ("All Companies"%string, Zsum (map layoffs treemap_df))
              :: combine (categories treemap_df)
                         (map (category_layoffs treemap_df)
                              (categories treemap_df))).
  { unfold treemap. cbn [labels values app combine firstn]. f_equal.
    apply firstn_combine_app. now rewrite length_map. }
  rewrite E. clear E.
  assert (Htotal := category_layoffs_total treemap_df
                      (categories_NoDup treemap_df)
                      (categories_In treemap_df)).
  constructor.
  - cbn [fst snd]. rewrite children_total_treemap.
    rewrite String.eqb_refl, Htotal.
    change (String.eqb "" "All Companies") with false.
    rewrite category_layoffs_other; [lia|].
    intros size. destruct (assign_category_values size) as [H|[H|H]];
      rewrite H; discriminate.
  - apply Forall_forall. intros [c v] Hin. cbn [fst snd].
    assert (Hv : v = category_layoffs treemap_df c).
    { clear - Hin. induction (categories treemap_df) as [|x t IH];
        simpl in Hin; [destruct Hin|].
      destruct Hin as [H|H]; [now inversion H|now apply IH]. }
    assert (Hc : In c (categories treemap_df)).
    { apply in_combine_l in Hin. exact Hin. }
    apply sorted_strings_mem, nodup_In, in_map_iff in Hc.
    destruct Hc as (r & Hr & _).
    rewrite children_total_treemap, <- Hv.
    unfold size_category in Hr.
    destruct (assign_category_values (original_size r)) as [H|[H|H]];
      rewrite H in Hr; subst c;
      repeat match goal with
        | |- context [String.eqb ?a ?b] =>
            let v := eval vm_compute in (String.eqb a b) in
            change (String.eqb a b) with v
        end; cbv iota; lia.
Qed.

(** X17. In the summary of app.py, there are at most as many companies with
    layoffs as companies of March, each company with layoffs counts for at
    least one layoff, and the layoffs are at most the workers of March. *)
Theorem summary_totals_bounded (df : list CompanyMonthRow) :
  let s := create_summary_stats df in
  (companies_with_layoffs s <= total_companies s)%nat /\
  (Z.of_nat (companies_with_layoffs s) <= total_layoffs s
   <= total_original_workers s)%Z.
Proof.
  cbv zeta. unfold create_summary_stats.
  cbn [companies_with_layoffs total_companies total_layoffs
       total_original_workers].
  unfold layoff_data.
  generalize (month_data april_2022 df) as april_data.
  intros april_data.
  induction (month_data march_2022 df) as [|company t IH];
    simpl; [lia|].
  rewrite length_app, map_app, Zsum_app.
  pose proof (layoff_rows_totals april_data company). lia.
Qed.

End LayoffProperties.

(** * Properties of the timeline *)

Module TimelineFacts.
Import Turnover TurnoverClaims Layoffs.

Lemma with_change_counts (prev : option nat) (l : list (Z * nat)) :
  map (fun row => (Timeline.m_month_year row, Timeline.worker_count row))
      (Timeline.with_change prev l) = l.
Proof.
  revert prev. induction l as [|[m n] t IH]; intros prev; simpl;
    [reflexivity|]. now rewrite IH.
Qed.

Lemma unique_ints_In (z : Z) (l : list Z) : In z (unique_ints l) <-> In z l.
Proof.
  unfold unique_ints. rewrite <- (nodup_In Z.eq_dec l z).
  split; apply Permutation_in;
    [|apply Permutation_sym]; apply insertion_sort_perm.
Qed.

Lemma employed_month (l : list DailyRow) (r : EmployedRow) :
  In r (employed l) -> e_month r = Timeline.month_year r.
Proof.
  induction l as [|x t IH]; simpl; [tauto|].
  destruct (d_currentEmployer x); [|exact IH].
  intros [<-|H]; [reflexivity|now apply IH].
Qed.

Lemma list_sum_flat_map (A B : Type) (f : A -> list B) (l : list A) :
  List.length (flat_map f l) = list_sum (map (fun x => List.length (f x)) l).
Proof.
  induction l as [|x t IH]; simpl; [reflexivity|].
  now rewrite length_app, IH.
Qed.

Section WithSorter.
Context {S : Sorter}.

Lemma worker_count_of_row (df_logs : list StatusRow) (w : CompanyMonthRow) :
  In w (workers_by_company df_logs) ->
  Turnover.worker_count w =
  List.length (nodup Z.eq_dec
                 (map e_participantId
                      (staff (w_employerId w) (w_month w)
                             (df_employed df_logs)))).
Proof.
  unfold workers_by_company, groupby. rewrite map_map.
  intros H. apply in_map_iff in H. destruct H as ([e m] & <- & _).
  reflexivity.
Qed.

Lemma row_of_record (df_logs : list StatusRow) (r : EmployedRow) :
  In r (df_employed df_logs) ->
  exists w, In w (workers_by_company df_logs) /\
            w_employerId w = employerId r /\ w_month w = e_month r.
Proof.
  intros Hr. unfold workers_by_company, groupby. rewrite map_map.
  exists (company_month_row
            (employed_key r,
             filter (fun r' => key_eqb (employed_key r) (employed_key r'))
                    (df_employed df_logs))).
  split; [|split; reflexivity].
  apply in_map_iff. exists (employed_key r). split; [reflexivity|].
  apply group_keys_In. now apply in_map.
Qed.

Lemma month_participants_incl (df_logs : list StatusRow) (m : Z) :
  incl (nodup Z.eq_dec
          (map e_participantId
               (filter (fun r => (Timeline.month_year r =? m)%Z)
                       (df_employed df_logs))))
       (flat_map (fun w => nodup Z.eq_dec
                             (map e_participantId
                                  (staff (w_employerId w) (w_month w)
                                         (df_employed df_logs))))
                 (month_data m (workers_by_company df_logs))).
Proof.
  intros p Hp. apply nodup_In, in_map_iff in Hp.
  destruct Hp as (r & <- & Hr). apply filter_In in Hr.
  destruct Hr as [Hr Hm]. apply Z.eqb_eq in Hm.
  destruct (row_of_record df_logs r Hr) as (w & Hw & He & Hwm).
  assert (Hrm : e_month r = m).
  { unfold df_employed in Hr. now rewrite (employed_month _ _ Hr). }
  apply in_flat_map. exists w. split.
  - apply filter_In. split; [exact Hw|]. apply Z.eqb_eq. congruence.
  - apply nodup_In, in_map. unfold staff. apply filter_In.
    split; [exact Hr|]. apply key_eqb_eq. unfold employed_key.
    now rewrite He, Hwm.
Qed.

End WithSorter.

End TimelineFacts.

Module TimelineProperties.
Import Turnover TurnoverClaims Layoffs TimelineFacts.

(** X18. On the records that preprocess_turnover.py saves, the timeline
    has one row for each month with a record; its count, the number of
    distinct participants with a record in the month, is at least one and
    at most the sum of the head counts that
    workers_by_company_month.csv gives for the companies in that month. *)
Theorem month_count_within_company_headcounts
    (S : Sorter) (df_logs : list StatusRow) :
  let work := df_employed df_logs in
  let workers := workers_by_company df_logs in
  (forall m, In m (map Timeline.m_month_year (Timeline.monthly_workers work))
             <-> exists r, In r work /\ Timeline.month_year r = m) /\
  NoDup (map Timeline.m_month_year (Timeline.monthly_workers work)) /\
  Forall (fun row =>
            Timeline.worker_count row =
            List.length
              (nodup Z.eq_dec
                 (map e_participantId
                      (filter (fun r => (Timeline.month_year r
                                         =? Timeline.m_month_year row)%Z)
                              work))) /\
            (1 <= Timeline.worker_count row
             <= list_sum (map Turnover.worker_count
                              (month_data (Timeline.m_month_year row)
                                          workers)))%nat)
         (Timeline.monthly_workers work).
Proof.
  cbv zeta. set (work := df_employed df_logs).
  assert (Hmonths : map Timeline.m_month_year (Timeline.monthly_workers work)
                    = unique_ints (map Timeline.month_year work)).
  { unfold Timeline.monthly_workers.
    rewrite <- (map_map (fun row => (Timeline.m_month_year row,
                                     Timeline.worker_count row)) fst).
    rewrite with_change_counts. unfold Timeline.month_counts.
    rewrite map_map. cbn [fst]. apply map_id. }
  split; [|split].
  - intros m. rewrite Hmonths, unique_ints_In, in_map_iff.
    split; intros (r & H1 & H2); exists r; auto.
  - rewrite Hmonths. unfold unique_ints.
    apply (Permutation_NoDup
             (Permutation_sym (insertion_sort_perm (fun z => z) _))).
    apply NoDup_nodup.
  - apply Forall_forall. intros row Hrow.
    assert (Hpair : In (Timeline.m_month_year row, Timeline.worker_count row)
                       (Timeline.month_counts work)).
    { rewrite <- (with_change_counts None (Timeline.month_counts work)).
      now apply (in_map (fun row => (Timeline.m_month_year row,
                                     Timeline.worker_count row))). }
    unfold Timeline.month_counts in Hpair. apply in_map_iff in Hpair.
    destruct Hpair as (m & Hm & Hin). inversion Hm as [[E1 E2]].
    clear Hm E2. rewrite <- E1. clear E1. unfold nunique in *.
    split; [reflexivity|].
    apply unique_ints_In, in_map_iff in Hin.
    destruct Hin as (r & Hr1 & Hr2).
    set (P := nodup Z.eq_dec
                (map e_participantId
                     (filter (fun r0 => (Timeline.month_year r0 =? m)%Z)
                             work))).
    split.
    + assert (Hp : In (e_participantId r) P).
      { apply nodup_In, in_map, filter_In. split; [exact Hr2|].
        now apply Z.eqb_eq. }
      destruct P; [destruct Hp|simpl; lia].
    + pose proof (NoDup_incl_length (NoDup_nodup Z.eq_dec _)
                    (month_participants_incl df_logs m)) as Hlen.
      fold work in Hlen. fold P in Hlen.
      rewrite list_sum_flat_map in Hlen.
      erewrite map_ext_in in Hlen; [exact Hlen|].
      intros w Hw. cbv beta. symmetry.
      apply worker_count_of_row. unfold month_data in Hw.
      now apply filter_In in Hw.
Qed.

End TimelineProperties.

(** * Properties of the weekly revenue tables *)

Module RevenueFacts.
Import Revenue.

Lemma insert_by_key_perm (A : Type) (by_ : A -> Key) (x : A) (l : list A) :
  Permutation (insert_by_key by_ x l) (x :: l).
Proof.
  induction l as [|y t IH]; simpl; [apply Permutation_refl|].
  destruct (key_ltb (by_ y) (by_ x)); [|apply Permutation_refl].
  apply perm_trans with (y :: x :: t); [now constructor|apply perm_swap].
Qed.

Lemma sort_by_key_perm (A : Type) (by_ : A -> Key) (l : list A) :
  Permutation (sort_by_key by_ l) l.
Proof.
  unfold sort_by_key. induction l as [|x t IH]; simpl; [constructor|].
  apply perm_trans with (x :: fold_right (insert_by_key by_) [] t);
    [apply insert_by_key_perm|now constructor].
Qed.

Lemma key_ltb_irrefl (a : Key) : key_ltb a a = false.
Proof.
  unfold key_ltb. rewrite !Z.ltb_irrefl. now rewrite andb_false_r.
Qed.

Lemma key_ltb_trans (a b c : Key) :
  key_ltb a b = true -> key_ltb b c = true -> key_ltb a c = true.
Proof.
  unfold key_ltb. rewrite !orb_true_iff, !andb_true_iff, !Z.ltb_lt, !Z.eqb_eq.
  lia.
Qed.

Lemma key_leb_total (a b : Key) :
  key_ltb a b = false -> key_leb b a = true.
Proof. unfold key_leb. now intros ->. Qed.

Lemma key_leb_of_ltb (a b : Key) : key_ltb a b = true -> key_leb a b = true.
Proof.
  unfold key_leb, key_ltb.
  rewrite negb_true_iff, orb_true_iff, orb_false_iff, andb_true_iff,
    andb_false_iff, !Z.ltb_lt, !Z.ltb_ge, Z.eqb_eq, Z.eqb_neq.
  lia.
Qed.

Lemma key_leb_trans (a b c : Key) :
  key_leb a b = true -> key_leb b c = true -> key_leb a c = true.
Proof.
  unfold key_leb, key_ltb.
  rewrite !negb_true_iff, !orb_false_iff, !andb_false_iff, !Z.ltb_ge,
    !Z.eqb_neq.
  lia.
Qed.

Lemma insert_by_key_sorted (A : Type) (by_ : A -> Key) (x : A) (l : list A) :
  StronglySorted (fun a b => key_leb (by_ a) (by_ b) = true) l ->
  StronglySorted (fun a b => key_leb (by_ a) (by_ b) = true)
                 (insert_by_key by_ x l).
Proof.
  induction 1 as [|y t Ht IH Hy]; simpl.
  - constructor; constructor.
  - destruct (key_ltb (by_ y) (by_ x)) eqn:E.
    + constructor; [exact IH|].
      apply Forall_forall. intros z Hz.
      apply (Permutation_in _ (insert_by_key_perm by_ x t)) in Hz.
      destruct Hz as [<-|Hz]; [now apply key_leb_of_ltb|].
      rewrite Forall_forall in Hy. now apply Hy.
    + constructor; [now constructor|].
      constructor; [now apply key_leb_total|].
      apply Forall_forall. intros z Hz. rewrite Forall_forall in Hy.
      apply key_leb_trans with (by_ y); [now apply key_leb_total|].
      now apply Hy.
Qed.

Lemma sort_by_key_sorted (A : Type) (by_ : A -> Key) (l : list A) :
  StronglySorted (fun a b => key_leb (by_ a) (by_ b) = true)
                 (sort_by_key by_ l).
Proof.
  unfold sort_by_key. induction l as [|x t IH]; simpl; [constructor|].
  now apply insert_by_key_sorted.
Qed.

End RevenueFacts.

(** A sorter on two columns, used to run the script on concrete
    inputs. *)
Definition key_sorter : Revenue.PairSorter := {|
  Revenue.sort_values2 := Revenue.sort_by_key;
  Revenue.sort_values2_perm := RevenueFacts.sort_by_key_perm;
  Revenue.sort_values2_sorted := RevenueFacts.sort_by_key_sorted
|}.

Module VenueWeekFacts.
Import Revenue RevenueFacts.

(** ** The traffic table *)

Definition traffic_row (filtered : list CheckinRow) (k : Key) : TrafficRow :=
  {| tr_week := fst k;
     tr_venueId := snd k;
     tr_check_ins :=
       List.length (filter (fun c => key_eqb k (checkin_key c)) filtered) |}.

Lemma weekly_traffic_rows (filtered : list CheckinRow) :
  weekly_traffic filtered =
  map (traffic_row filtered) (group_keys (map checkin_key filtered)).
Proof. unfold weekly_traffic, groupby. now rewrite map_map. Qed.

Lemma traffic_row_In (filtered : list CheckinRow) (t : TrafficRow) :
  In t (weekly_traffic filtered) ->
  exists c, In c filtered /\ checkin_key c = (tr_week t, tr_venueId t) /\
            t = traffic_row filtered (checkin_key c) /\
            (1 <= tr_check_ins t)%nat.
Proof.
  rewrite weekly_traffic_rows. intros H. apply in_map_iff in H.
  destruct H as (k & <- & Hk). apply group_keys_In, in_map_iff in Hk.
  destruct Hk as (c & <- & Hc). exists c.
  split; [exact Hc|]. split; [now destruct (checkin_key c)|].
  split; [reflexivity|]. cbn [traffic_row tr_check_ins].
  assert (Hin : In c (filter (fun c0 => key_eqb (checkin_key c)
                                          (checkin_key c0)) filtered)).
  { apply filter_In. split; [exact Hc|apply key_eqb_refl]. }
  destruct (filter _ filtered); [destruct Hin|simpl; lia].
Qed.

(** ** The typed table *)

Definition typed_spec (checkins : list CheckinRow) (venues : list VenueRow)
           (w v : Z) (n : nat) (ty : option string) : Prop :=
  (ty = Some "Pub"%string \/ ty = Some "Restaurant"%string) /\
  (exists venue, In venue venues /\ v_venueId venue = v /\ v_type venue = ty)
  /\
  n = List.length
        (filter (fun c => (week_start (ck_timestamp c) =? w)%Z
                          && (ck_venueId c =? v)%Z) checkins) /\
  (1 <= n)%nat.

Lemma isin_VENUE_TYPES (ty : option string) :
  isin ty VENUE_TYPES = true ->
  ty = Some "Pub"%string \/ ty = Some "Restaurant"%string.
Proof.
  destruct ty as [s|]; [|discriminate]. unfold isin, VENUE_TYPES.
  cbn [existsb]. rewrite !orb_true_iff, !String.eqb_eq.
  intros [->|[->|H]]; auto. discriminate.
Qed.

Lemma filter_filter (A : Type) (f g : A -> bool) (l : list A) :
  filter f (filter g l) = filter (fun x => g x && f x) l.
Proof.
  induction l as [|x t IH]; simpl; [reflexivity|].
  destruct (g x); simpl; [destruct (f x)|]; now rewrite IH.
Qed.

Lemma typed_rows_spec (checkins : list CheckinRow) (venues : list VenueRow)
      (r : TypedRow) :
  In r (weekly_traffic_with_type
          (weekly_traffic (checkins_filtered checkins venues)) venues) ->
  typed_spec checkins venues (ty_week r) (ty_venueId r) (ty_check_ins r)
             (ty_venue_type r).
Proof.
  unfold weekly_traffic_with_type. intros H. apply in_flat_map in H.
  destruct H as (t & Ht & Hr).
  destruct (traffic_row_In _ _ Ht) as (c & Hc & Hkey & Hrow & Hpos).
  unfold checkins_filtered in Hc. apply filter_In in Hc.
  destruct Hc as [Hc Hid]. apply existsb_exists in Hid.
  destruct Hid as (v & Hv & Hcv). apply Z.eqb_eq in Hcv.
  unfold venue_ids in Hv. apply in_map_iff in Hv.
  destruct Hv as (venue & Hvid & Hvenue).
  assert (Htv : tr_venueId t = v_venueId venue).
  { unfold checkin_key in Hkey. inversion Hkey. congruence. }
  assert (Hcount : tr_check_ins t =
            List.length
              (filter (fun c0 => (week_start (ck_timestamp c0) =? tr_week t)%Z
                                 && (ck_venueId c0 =? tr_venueId t)%Z)
                      checkins)).
  { rewrite Hrow at 1. cbn [traffic_row tr_check_ins].
    unfold checkins_filtered. rewrite filter_filter. f_equal.
    apply filter_ext. intros c0. rewrite Hkey.
    unfold key_eqb, checkin_key. cbn [fst snd].
    rewrite (Z.eqb_sym (tr_week t)), (Z.eqb_sym (tr_venueId t)).
    destruct (ck_venueId c0 =? tr_venueId t)%Z eqn:E;
      [|now rewrite !andb_false_r].
    rewrite andb_true_r. apply Z.eqb_eq in E.
    assert (Hex : existsb (Z.eqb (ck_venueId c0)) (venue_ids venues) = true).
    { apply existsb_exists. exists (v_venueId venue). split.
      - unfold venue_ids. now apply in_map.
      - apply Z.eqb_eq. congruence. }
    now rewrite Hex. }
  destruct (filter (fun v0 => (v_venueId v0 =? tr_venueId t)%Z)
                   (pub_restaurant_venues venues)) as [|m ms] eqn:E.
  - exfalso.
    assert (Hin : In venue (filter (fun v0 => (v_venueId v0 =? tr_venueId t)%Z)
                              (pub_restaurant_venues venues))).
    { apply filter_In. split; [exact Hvenue|]. apply Z.eqb_eq. congruence. }
    rewrite E in Hin. destruct Hin.
  - apply in_map_iff in Hr. destruct Hr as (m' & <- & Hm').
    assert (Hin : In m' (filter (fun v0 => (v_venueId v0 =? tr_venueId t)%Z)
                           (pub_restaurant_venues venues)))
      by (rewrite E; exact Hm').
    apply filter_In in Hin. destruct Hin as [Hpr Hid'].
    apply Z.eqb_eq in Hid'. unfold pub_restaurant_venues in Hpr.
    apply filter_In in Hpr. destruct Hpr as [Hmv Hty].
    cbn [ty_week ty_venueId ty_check_ins ty_venue_type].
    split; [now apply isin_VENUE_TYPES|].
    split; [exists m'; auto|]. split; [exact Hcount|exact Hpos].
Qed.

(** ** The spending table *)

Lemma unique_ints_mem (z : Z) (l : list Z) : In z (unique_ints l) <-> In z l.
Proof.
  unfold unique_ints. rewrite <- (nodup_In Z.eq_dec l z).
  split; apply Permutation_in;
    [|apply Permutation_sym]; apply insertion_sort_perm.
Qed.

Lemma unique_ints_NoDup (l : list Z) : NoDup (unique_ints l).
Proof.
  unfold unique_ints.
  apply (Permutation_NoDup
           (Permutation_sym (insertion_sort_perm (fun z => z) _))).
  apply NoDup_nodup.
Qed.

Lemma filter_unique (A : Type) (mk : Z -> A) (key : A -> Z) (w : Z)
      (l : list Z) :
  (forall z, key (mk z) = z) -> NoDup l ->
  filter (fun s => (key s =? w)%Z) (map mk l) =
  if in_dec Z.eq_dec w l then [mk w] else [].
Proof.
  intros Hkey. induction 1 as [|y t Hy Ht IH]; simpl; [reflexivity|].
  rewrite Hkey, IH. destruct (y =? w)%Z eqn:E.
  - apply Z.eqb_eq in E. subst y.
    destruct (Z.eq_dec w w); [|congruence].
    destruct (in_dec Z.eq_dec w t); [contradiction|reflexivity].
  - apply Z.eqb_neq in E. destruct (Z.eq_dec y w); [congruence|].
    destruct (in_dec Z.eq_dec w t); reflexivity.
Qed.

Lemma flat_map_single (A B : Type) (g : A -> B) (l : list A) :
  flat_map (fun x => [g x]) l = map g l.
Proof. induction l as [|x t IH]; simpl; congruence. Qed.

Section WithFloats.
Context {F : Float64}.

(** What the left merge of line 105 and [fillna(0)] give a row of week
    [w]: the spending of the week, or [0.0] when the journal has no Food
    or Recreation transaction in that week. *)
Definition spending_of_week (fv : list FinancialRow) (w : Timestamp) : f64 :=
  match filter (fun f => (week_start (fin_timestamp f) =? w)%Z) fv with
  | [] => fzero
  | _ => week_spending fv w
  end.

Lemma spending_of_week_none (fv : list FinancialRow) (w : Timestamp) :
  ~ In w (map (fun f => week_start (fin_timestamp f)) fv) ->
  spending_of_week fv w = fzero.
Proof.
  intros H. unfold spending_of_week.
  assert (E : filter (fun f => (week_start (fin_timestamp f) =? w)%Z) fv = []).
  { apply filter_nil_iff. intros f Hf.
    destruct (week_start (fin_timestamp f) =? w)%Z eqn:E; [|reflexivity].
    apply Z.eqb_eq in E. exfalso. apply H. apply in_map_iff. eauto. }
  now rewrite E.
Qed.

Lemma spending_of_week_some (fv : list FinancialRow) (w : Timestamp) :
  In w (map (fun f => week_start (fin_timestamp f)) fv) ->
  spending_of_week fv w = week_spending fv w.
Proof.
  intros H. unfold spending_of_week.
  apply in_map_iff in H. destruct H as (f & Hw & Hf).
  assert (Hin : In f (filter (fun f => (week_start (fin_timestamp f) =? w)%Z)
                             fv)).
  { apply filter_In. split; [exact Hf|]. now apply Z.eqb_eq. }
  destruct (filter _ fv); [destruct Hin|reflexivity].
Qed.

(** The row of the output that a typed row gives. *)
Definition output_row (rows : list TypedRow) (fv : list FinancialRow)
           (r : TypedRow) : VenueWeekRow :=
  venue_week_row rows r (Some (spending_of_week fv (ty_week r))).

Lemma spending_match (all : list TypedRow) (fv : list FinancialRow)
      (r : TypedRow) :
  match filter (fun s => (sp_week s =? ty_week r)%Z)
               (weekly_spending_by_type fv)
  with
  | [] => [venue_week_row all r None]
  | ms => map (fun s => venue_week_row all r (Some (total_spending s))) ms
  end = [output_row all fv r].
Proof.
  unfold weekly_spending_by_type.
  rewrite (filter_unique
             (fun w => {| sp_week := w; total_spending := week_spending fv w |})
             sp_week (ty_week r) (fun z => eq_refl) (unique_ints_NoDup _)).
  destruct (in_dec Z.eq_dec (ty_week r) _) as [Hin|Hout].
  - unfold output_row. cbn [map total_spending].
    rewrite spending_of_week_some; [reflexivity|].
    now apply unique_ints_mem.
  - unfold output_row. rewrite spending_of_week_none; [reflexivity|].
    intros H. apply Hout. now apply unique_ints_mem.
Qed.

Lemma weekly_venue_rows (rows : list TypedRow) (fv : list FinancialRow) :
  weekly_venue rows (weekly_spending_by_type fv) =
  map (output_row rows fv) rows.
Proof.
  unfold weekly_venue. rewrite <- flat_map_single.
  apply flat_map_ext. intros r. apply spending_match.
Qed.

End WithFloats.

End VenueWeekFacts.

Module RevenueShareFacts.
Import Revenue RevenueFacts VenueWeekFacts.

(** The typed traffic table of a run. *)
Definition typed_table (checkins : list CheckinRow) (venues : list VenueRow)
  : list TypedRow :=
  weekly_traffic_with_type (weekly_traffic (checkins_filtered checkins venues))
                           venues.

Lemma list_sum_perm (l l' : list nat) :
  Permutation l l' -> list_sum l = list_sum l'.
Proof.
  induction 1 as [|x l l' _ IH|x y l|l l' l'' _ IH1 _ IH2]; simpl; lia.
Qed.

Lemma list_sum_member (A : Type) (f : A -> nat) (x : A) (l : list A) :
  In x l -> (f x <= list_sum (map f l))%nat.
Proof.
  induction l as [|y t IH]; intros H; [destruct H|].
  change (list_sum (map f (y :: t))) with (f y + list_sum (map f t))%nat.
  destruct H as [->|H]; [lia|]. specialize (IH H). lia.
Qed.

Lemma filter_map_comm (A B : Type) (f : A -> B) (p : B -> bool)
      (l : list A) :
  filter p (map f l) = map f (filter (fun x => p (f x)) l).
Proof.
  induction l as [|x t IH]; simpl; [reflexivity|].
  destruct (p (f x)); simpl; now rewrite IH.
Qed.

Lemma typed_positive (checkins : list CheckinRow) (venues : list VenueRow)
      (r : TypedRow) :
  In r (typed_table checkins venues) -> (1 <= ty_check_ins r)%nat.
Proof.
  intros H. apply typed_rows_spec in H. now destruct H as (_ & _ & _ & H).
Qed.

(** A row counts among the check-ins of its week. *)
Lemma week_total_bounds (rows : list TypedRow) (r : TypedRow) :
  In r rows -> (ty_check_ins r <= weekly_total_checkins rows r)%nat.
Proof.
  intros H. unfold weekly_total_checkins.
  apply (@list_sum_member _ ty_check_ins). apply filter_In.
  split; [exact H|apply Z.eqb_refl].
Qed.

Lemma replace_zero_positive (n : nat) : (1 <= n)%nat -> replace_zero n = n.
Proof. destruct n; [lia|reflexivity]. Qed.

Section WithFloats.
Context {F : Float64}.

Lemma output_perm (S : PairSorter) (checkins : list CheckinRow)
      (financial : list FinancialRow) (venues : list VenueRow) :
  Permutation (output checkins financial venues)
              (map (output_row (typed_table checkins venues)
                               (financial_venue financial))
                   (typed_table checkins venues)).
Proof.
  unfold output. cbv zeta. fold (typed_table checkins venues).
  rewrite weekly_venue_rows. apply sort_values2_perm.
Qed.

Lemma output_row_fields (rows : list TypedRow) (fv : list FinancialRow)
      (r : TypedRow) :
  week (output_row rows fv r) = ty_week r /\
  venueId (output_row rows fv r) = ty_venueId r /\
  venue_type (output_row rows fv r) = ty_venue_type r /\
  check_ins (output_row rows fv r) = ty_check_ins r.
Proof. repeat split. Qed.

(** The check-ins of a week are the same in the output and in the typed
    table. *)
Lemma week_check_ins (rows : list TypedRow) (fv : list FinancialRow)
      (w : Timestamp) :
  list_sum (map check_ins (filter (fun r => (week r =? w)%Z)
                                  (map (output_row rows fv) rows))) =
  list_sum (map ty_check_ins (filter (fun x => (ty_week x =? w)%Z) rows)).
Proof. now rewrite filter_map_comm, map_map. Qed.

Lemma output_week_total (S : PairSorter) (checkins : list CheckinRow)
      (financial : list FinancialRow) (venues : list VenueRow)
      (t : TypedRow) :
  list_sum (map check_ins
                (filter (fun x => (week x =? ty_week t)%Z)
                        (output checkins financial venues)))
  = weekly_total_checkins (typed_table checkins venues) t.
Proof.
  rewrite (list_sum_perm
             (Permutation_map check_ins
                (Permutation_filter (fun x => (week x =? ty_week t)%Z)
                   (output_perm S checkins financial venues)))).
  apply week_check_ins.
Qed.

(** The two estimates of a row whose venue was visited. *)
Lemma output_row_estimates (rows : list TypedRow) (fv : list FinancialRow)
      (r : TypedRow) :
  In r rows -> (1 <= ty_check_ins r)%nat ->
  total_revenue (output_row rows fv r)
  = fmul (spending_of_week fv (ty_week r))
         (fdiv (of_count (ty_check_ins r))
               (of_count (weekly_total_checkins rows r))) /\
  avg_spend_per_visit (output_row rows fv r)
  = fdiv (total_revenue (output_row rows fv r)) (of_count (ty_check_ins r)).
Proof.
  intros Hr Hpos.
  pose proof (week_total_bounds rows r Hr) as Hle.
  unfold output_row, venue_week_row.
  cbn [total_revenue avg_spend_per_visit]. unfold checkin_share.
  rewrite replace_zero_positive by lia.
  split; [reflexivity|].
  destruct (0 <? ty_check_ins r)%nat eqn:E; [reflexivity|].
  apply Nat.ltb_ge in E. lia.
Qed.

Lemma output_rows_spec (S : PairSorter) (checkins : list CheckinRow)
      (financial : list FinancialRow) (venues : list VenueRow)
      (r : VenueWeekRow) :
  In r (output checkins financial venues) ->
  typed_spec checkins venues (week r) (venueId r) (check_ins r)
             (venue_type r).
Proof.
  intros Hr.
  apply (Permutation_in _ (output_perm S checkins financial venues)) in Hr.
  apply in_map_iff in Hr. destruct Hr as (t & <- & Ht).
  now apply typed_rows_spec.
Qed.

End WithFloats.

End RevenueShareFacts.

Module RevenueProperties.
Import Revenue RevenueFacts VenueWeekFacts RevenueShareFacts.

(** X19. Every row of the per-venue table is about a venue of Venues.csv
    of type Pub or Restaurant and bears that type; its check-ins are the
    number of check-ins of the journal at the venue in the week, which is
    at least one. *)
Theorem venue_rows_are_visited_pubs_and_restaurants
    (F : Float64) (S : PairSorter) (checkins : list CheckinRow)
    (financial : list FinancialRow) (venues : list VenueRow) :
  Forall (fun r => typed_spec checkins venues (week r) (venueId r)
                              (check_ins r) (venue_type r))
         (output checkins financial venues).
Proof.
  apply Forall_forall. intros r Hr.
  now apply (output_rows_spec S checkins financial venues).
Qed.

(** X20. The revenue of a row of the per-venue table is the product, taken
    in floats, of the spending of its week and of its share of the
    check-ins of the week: the quotient of its check-ins and of the
    check-ins of all the rows of the week, of which it has at least one.
    The spending of the week is the sum of the absolute amounts of the
    Food and Recreation transactions of the journal in the week, and 0.0
    when there is none.  The average spend per visit is the quotient of
    the revenue and of the check-ins of the row: neither the replacement
    of a zero total nor the zero branch of [np.where] is ever used. *)
Theorem venue_revenue_is_share_of_week_spending
    (F : Float64) (S : PairSorter) (checkins : list CheckinRow)
    (financial : list FinancialRow) (venues : list VenueRow) :
  let out := output checkins financial venues in
  Forall (fun r =>
            let visits :=
              list_sum (map check_ins
                            (filter (fun x => (week x =? week r)%Z) out)) in
            (1 <= check_ins r <= visits)%nat /\
            total_revenue r
            = fmul (spending_of_week (financial_venue financial) (week r))
                   (fdiv (of_count (check_ins r)) (of_count visits)) /\
            avg_spend_per_visit r
            = fdiv (total_revenue r) (of_count (check_ins r)))
         out.
Proof.
  intros out. apply Forall_forall. intros r Hr. cbv zeta.
  pose proof (output_perm S checkins financial venues) as HP.
  apply (Permutation_in _ HP) in Hr.
  apply in_map_iff in Hr. destruct Hr as (t & <- & Ht).
  set (rows := typed_table checkins venues) in *.
  set (fv := financial_venue financial) in *.
  pose proof (typed_positive checkins venues t Ht) as Hpos.
  pose proof (week_total_bounds rows t Ht) as Hle.
  destruct (output_row_estimates rows fv t Ht Hpos) as [Hrev Havg].
  destruct (output_row_fields rows fv t) as (Hw & _ & _ & Hc).
  rewrite Hw, Hc. unfold out.
  rewrite (output_week_total S checkins financial venues t).
  fold rows. split; [lia|]. split; [exact Hrev|exact Havg].
Qed.

End RevenueProperties.

Module ByTypeFacts.
Import Revenue RevenueFacts VenueWeekFacts RevenueShareFacts.

Lemma list_sum_flat (A : Type) (f : A -> list nat) (l : list A) :
  list_sum (flat_map f l) = list_sum (map (fun x => list_sum (f x)) l).
Proof.
  induction l as [|x t IH]; simpl; [reflexivity|].
  now rewrite list_sum_app, IH.
Qed.

Lemma list_sum_map_add (A : Type) (f g : A -> nat) (l : list A) :
  list_sum (map (fun x => f x + g x)%nat l)
  = (list_sum (map f l) + list_sum (map g l))%nat.
Proof. induction l as [|x t IH]; simpl; [reflexivity|]. rewrite IH. lia. Qed.

Lemma list_sum_zero (A : Type) (l : list A) :
  list_sum (map (fun _ => 0%nat) l) = 0%nat.
Proof. induction l as [|x t IH]; simpl; auto. Qed.

Lemma list_sum_pick (x : nat) (s : string) (l : list string) :
  NoDup l -> In s l ->
  list_sum (map (fun c => if String.eqb s c then x else 0%nat) l) = x.
Proof.
  induction 1 as [|y t Hy Ht IH]; simpl; [tauto|].
  intros [->|Hin].
  - rewrite String.eqb_refl.
    rewrite (map_ext_in (fun c => if String.eqb s c then x else 0%nat)
                        (fun _ => 0%nat)), list_sum_zero; [lia|].
    intros c Hc. destruct (String.eqb s c) eqn:E; [|reflexivity].
    apply String.eqb_eq in E. subst. contradiction.
  - destruct (String.eqb s y) eqn:E.
    + apply String.eqb_eq in E. subst. contradiction.
    + now rewrite IH.
Qed.

Lemma list_sum_by_label (A : Type) (label : A -> option string)
      (val : A -> nat) (labels : list string) (l : list A) :
  NoDup labels ->
  (forall x, In x l -> exists s, label x = Some s /\ In s labels) ->
  list_sum (map (fun s => list_sum (map val (filter (fun x => isin (label x) [s])
                                                    l))) labels)
  = list_sum (map val l).
Proof.
  intros Hnd. induction l as [|x t IH]; intros Hl.
  - simpl. apply list_sum_zero.
  - destruct (Hl x (or_introl eq_refl)) as (s0 & Hs0 & Hin).
    rewrite (map_ext
               (fun s => list_sum (map val (filter (fun x0 => isin (label x0) [s])
                                                   (x :: t))))
               (fun s => ((if String.eqb s0 s then val x else 0)
                          + list_sum (map val (filter (fun x0 => isin (label x0)
                                                                      [s]) t)))%nat)).
    + rewrite list_sum_map_add, list_sum_pick by assumption.
      rewrite IH by (intros; apply Hl; now right). reflexivity.
    + intros s. cbn [filter]. rewrite Hs0. cbn [isin existsb].
      rewrite orb_false_r.
      destruct (String.eqb s0 s); reflexivity.
Qed.

Lemma map_flat_map_nat (A B : Type) (f : B -> nat) (g : A -> list B)
      (l : list A) :
  map f (flat_map g l) = flat_map (fun x => map f (g x)) l.
Proof.
  induction l as [|x t IH]; simpl; [reflexivity|].
  now rewrite map_app, IH.
Qed.

Lemma nunique_le_length (l : list Z) :
  (Turnover.nunique l <= List.length l)%nat.
Proof.
  unfold Turnover.nunique. apply NoDup_incl_length; [apply NoDup_nodup|].
  intros z Hz. now apply nodup_In in Hz.
Qed.

Lemma length_le_list_sum (A : Type) (f : A -> nat) (l : list A) :
  (forall x, In x l -> (1 <= f x)%nat) ->
  (List.length l <= list_sum (map f l))%nat.
Proof.
  induction l as [|x t IH]; intros H; [apply le_n|].
  change (list_sum (map f (x :: t))) with (f x + list_sum (map f t))%nat.
  pose proof (H x (or_introl eq_refl)).
  assert (List.length t <= list_sum (map f t))%nat
    by (apply IH; intros y Hy; apply H; now right).
  simpl. lia.
Qed.

Lemma unique_strings_NoDup (l : list string) : NoDup (unique_strings l).
Proof. apply LayoffFacts.sorted_strings_NoDup, NoDup_nodup. Qed.

Lemma present_In (A : Type) (x : A) (l : list (option A)) :
  In x (present l) <-> In (Some x) l.
Proof.
  induction l as [|[y|] t IH]; simpl; [tauto| |].
  - rewrite IH. split; intros [H|H]; auto; left; congruence.
  - rewrite IH. split; [auto|]. intros [H|H]; [discriminate|exact H].
Qed.

Section WithFloats.
Context {F : Float64}.

(** The rows of the by-type table of a week. *)
Definition week_types (out : list VenueWeekRow) (w : Timestamp)
  : list TypeWeekRow :=
  flat_map (fun ty => match type_week_group out w ty with
                      | [] => []
                      | g => [type_week_row w ty g]
                      end)
           (unique_strings (present (map venue_type out))).

Lemma week_types_week (out : list VenueWeekRow) (w : Timestamp)
      (t : TypeWeekRow) :
  In t (week_types out w) -> bt_week t = w.
Proof.
  unfold week_types. intros H. apply in_flat_map in H.
  destruct H as (ty & _ & H).
  destruct (type_week_group out w ty); [destruct H|].
  destruct H as [<-|[]]. reflexivity.
Qed.

Lemma filter_flat_weeks (out : list VenueWeekRow) (w : Timestamp)
      (weeks : list Timestamp) :
  NoDup weeks ->
  filter (fun t => (bt_week t =? w)%Z) (flat_map (week_types out) weeks) =
  if in_dec Z.eq_dec w weeks then week_types out w else [].
Proof.
  assert (Hall : forall w', w' = w ->
            filter (fun t => (bt_week t =? w)%Z) (week_types out w')
            = week_types out w').
  { intros w' ->. apply JournalFacts.filter_all. intros t Ht.
    apply week_types_week in Ht. now apply Z.eqb_eq. }
  assert (Hnone : forall w', w' <> w ->
            filter (fun t => (bt_week t =? w)%Z) (week_types out w') = []).
  { intros w' Hw. apply JournalFacts.filter_none. intros t Ht.
    apply week_types_week in Ht. apply Z.eqb_neq. congruence. }
  induction 1 as [|y t Hy Ht IH]; simpl; [reflexivity|].
  rewrite filter_app, IH. destruct (Z.eq_dec y w) as [->|Hne].
  - rewrite Hall by reflexivity.
    destruct (in_dec Z.eq_dec w t); [contradiction|apply app_nil_r].
  - rewrite Hnone by exact Hne.
    destruct (in_dec Z.eq_dec w t); reflexivity.
Qed.

Lemma group_as_labels (out : list VenueWeekRow) (w : Timestamp)
      (ty : string) :
  type_week_group out w ty =
  filter (fun r => isin (venue_type r) [ty])
         (filter (fun r => (week r =? w)%Z) out).
Proof. unfold type_week_group. now rewrite filter_filter. Qed.

End WithFloats.

End ByTypeFacts.

Module ByTypeProperties.
Import Revenue RevenueFacts VenueWeekFacts RevenueShareFacts ByTypeFacts.

(** X22. The two tables that the script saves agree on the visits: in
    every week the check-ins of the by-type table add up to the check-ins
    of the per-venue table.  Every row of the by-type table is about pubs
    or about restaurants and stands for the rows of the per-venue table
    that have its week and its type, of which there is at least one: its
    check-ins are the sum of theirs, its revenue is the float sum of
    theirs, its number of venues is at least one and at most its
    check-ins, and its average revenue per venue is the quotient of its
    revenue and of its number of venues (the replacement of a zero count
    is never used). *)
Theorem by_type_totals_match_venue_rows
    (F : Float64) (S : PairSorter) (checkins : list CheckinRow)
    (financial : list FinancialRow) (venues : list VenueRow)
    (w : Timestamp) :
  let out := fst (preprocess_revenue checkins financial venues) in
  let by_type := snd (preprocess_revenue checkins financial venues) in
  let rows_w := filter (fun r => (week r =? w)%Z) out in
  let types_w := filter (fun t => (bt_week t =? w)%Z) by_type in
  list_sum (map total_check_ins types_w) = list_sum (map check_ins rows_w) /\
  Forall (fun t =>
            let g := filter (fun r => (week r =? bt_week t)%Z
                                      && isin (venue_type r) [bt_venue_type t])
                            out in
            (bt_venue_type t = "Pub"%string \/
             bt_venue_type t = "Restaurant"%string) /\
            g <> [] /\
            total_check_ins t = list_sum (map check_ins g) /\
            bt_total_revenue t = group_sum (map total_revenue g) /\
            (1 <= venue_count t <= total_check_ins t)%nat /\
            avg_revenue_per_venue t
            = fdiv (bt_total_revenue t) (of_count (venue_count t)))
         by_type.
Proof.
  cbv zeta. unfold preprocess_revenue. cbn [fst snd].
  set (out := output checkins financial venues).
  assert (Hspec : forall r, In r out ->
            typed_spec checkins venues (week r) (venueId r) (check_ins r)
                       (venue_type r))
    by (intros r; apply output_rows_spec).
  set (types := unique_strings (present (map venue_type out))).
  assert (Htypes : forall r, In r out ->
            exists s, venue_type r = Some s /\ In s types).
  { intros r Hr. destruct (Hspec r Hr) as (Hty & _).
    assert (Hs : exists s, venue_type r = Some s)
      by (destruct Hty as [H|H]; rewrite H; eauto).
    destruct Hs as (s & Hs). exists s. split; [exact Hs|].
    apply JournalClaims.unique_strings_In, present_In.
    rewrite <- Hs. now apply in_map. }
  assert (Hlabels : forall l : list VenueWeekRow, incl l out ->
            forall x, In x l -> exists s, venue_type x = Some s /\ In s types)
    by (intros l Hl x Hx; apply Htypes, Hl, Hx).
  assert (Hweek : incl (filter (fun r => (week r =? w)%Z) out) out)
    by (intros r Hr; now apply filter_In in Hr).
  unfold weekly_by_type. fold types.
  change (flat_map (fun w0 => flat_map _ types) (unique_ints (map week out)))
    with (flat_map (week_types out) (unique_ints (map week out))).
  split.
  - rewrite filter_flat_weeks by apply unique_ints_NoDup.
    destruct (in_dec Z.eq_dec w (unique_ints (map week out))) as [Hin|Hout].
    + unfold week_types. fold types. rewrite map_flat_map_nat.
      rewrite <- (@list_sum_by_label _ venue_type check_ins types
                    (filter (fun r => (week r =? w)%Z) out)
                    (unique_strings_NoDup _) (Hlabels _ Hweek)).
      fold types. rewrite list_sum_flat. f_equal. apply map_ext.
      intros ty. rewrite <- group_as_labels.
      destruct (type_week_group out w ty) as [|x t]; [reflexivity|].
      cbn [map type_week_row total_check_ins list_sum fold_right]. lia.
    + assert (E : filter (fun r => (week r =? w)%Z) out = []).
      { apply filter_nil_iff. intros r Hr.
        destruct (week r =? w)%Z eqn:E; [|reflexivity].
        apply Z.eqb_eq in E. exfalso. apply Hout.
        apply unique_ints_mem, in_map_iff. eauto. }
      rewrite E. reflexivity.
  - apply Forall_forall. intros t Ht. apply in_flat_map in Ht.
    destruct Ht as (w' & _ & Ht). unfold week_types in Ht. fold types in Ht.
    apply in_flat_map in Ht. destruct Ht as (ty & Hty & Ht).
    destruct (type_week_group out w' ty) as [|x g] eqn:Eg; [destruct Ht|].
    destruct Ht as [<-|[]].
    cbn [type_week_row bt_week bt_venue_type venue_count
         avg_revenue_per_venue bt_total_revenue total_check_ins].
    fold (type_week_group out w' ty). rewrite Eg.
    assert (Hg : forall y, In y (x :: g) ->
                           In y out /\ venue_type y = Some ty).
    { intros y Hy. rewrite <- Eg in Hy.
      unfold type_week_group in Hy. apply filter_In in Hy.
      destruct Hy as [H1 H2]. split; [exact H1|].
      apply andb_true_iff in H2. destruct H2 as [_ H2].
      destruct (venue_type y) as [s|]; [|discriminate].
      cbn [isin existsb] in H2. rewrite orb_false_r in H2.
      apply String.eqb_eq in H2. now subst. }
    destruct (Hg x (or_introl eq_refl)) as [Hx Hxt].
    assert (Hn : (1 <= Turnover.nunique (map venueId (x :: g)))%nat).
    { unfold Turnover.nunique.
      assert (H : In (venueId x) (nodup Z.eq_dec (map venueId (x :: g))))
        by (apply nodup_In; now left).
      destruct (nodup Z.eq_dec (map venueId (x :: g)));
        [destruct H|simpl; lia]. }
    assert (Hle : (Turnover.nunique (map venueId (x :: g))
                   <= list_sum (map check_ins (x :: g)))%nat).
    { eapply Nat.le_trans; [apply nunique_le_length|].
      rewrite length_map. apply length_le_list_sum.
      intros y Hy. destruct (Hg y Hy) as [Hy' _].
      now destruct (Hspec y Hy') as (_ & _ & _ & H). }
    split; [|split; [discriminate|split; [reflexivity|split;
            [reflexivity|split; [split; [exact Hn|exact Hle]|]]]]].
    + destruct (Hspec x Hx) as ([H|H] & _); rewrite Hxt in H;
        inversion H; auto.
    + now rewrite replace_zero_positive.
Qed.

End ByTypeProperties.

Module RevenueScenario.
Import Revenue.
Import PrimInt63 PrimFloat.
Set Warnings "-inexact-float".
Local Open Scope string_scope.

(** A count as a 63-bit integer. *)
Definition int_of_count (n : nat) : int :=
  Nat.iter n (fun i => PrimInt63.add i 1%uint63) 0%uint63.

(** IEEE doubles, to run the script on small inputs.  The sums are taken
    from left to right, which is what numpy and pandas compute for the one
    or two numbers that the scenarios below add. *)
Definition ieee : Float64 := {|
  f64 := float;
  fzero := PrimFloat.zero;
  fabs := PrimFloat.abs;
  fmul := PrimFloat.mul;
  fdiv := PrimFloat.div;
  of_count := fun n => PrimFloat.of_uint63 (int_of_count n);
  series_sum := fun l => fold_left PrimFloat.add (present l) PrimFloat.zero;
  group_sum := fun l => fold_left PrimFloat.add l PrimFloat.zero
|}.

(** A pub, a restaurant and a school.  In the week of Monday 7 March
    2022 the pub has two check-ins, the restaurant one and the school one;
    the journal has a purchase of food of 30, a recreation of 15 and a
    wage in that week, and a purchase of food in the week before, in which
    nobody checked in. *)
Definition venues : list VenueRow :=
  [ {| v_venueId := 1; v_type := Some "Pub" |};
    {| v_venueId := 2; v_type := Some "Restaurant" |};
    {| v_venueId := 3; v_type := Some "School" |} ].

Definition checkins : list CheckinRow :=
  [ {| ck_timestamp := at_hour 2022 3 9 12; ck_venueId := 1 |};
    {| ck_timestamp := at_hour 2022 3 13 23; ck_venueId := 1 |};
    {| ck_timestamp := at_hour 2022 3 7 0; ck_venueId := 2 |};
    {| ck_timestamp := at_hour 2022 3 8 9; ck_venueId := 3 |} ].

(** A transaction of the journal with its amount as a double. *)
Definition transaction (t : Timestamp) (category : string) (amount : float)
  : @FinancialRow ieee :=
  @Build_FinancialRow ieee t (Some category) (Some amount).

Definition financial : list (@FinancialRow ieee) :=
  [ transaction (at_hour 2022 3 9 13) "Food" (-30);
    transaction (at_hour 2022 3 12 20) "Recreation" (-15);
    transaction (at_hour 2022 3 10 8) "Wage" 100;
    transaction (at_hour 2022 3 2 13) "Food" (-8) ].

Definition monday : Timestamp := at_hour 2022 3 7 0.

(** The same week with a single purchase, of 0.9. *)
Definition small_purchase : list (@FinancialRow ieee) :=
  [ transaction (at_hour 2022 3 9 13) "Food" (-0.9) ].

Example scenario_tables :
  preprocess_revenue (F := ieee) (S := key_sorter) checkins financial venues
  = ([ @Build_VenueWeekRow ieee monday 1 (Some "Pub") 2 30%float 15%float;
       @Build_VenueWeekRow ieee monday 2 (Some "Restaurant") 1
                           15%float 15%float ],
     [ @Build_TypeWeekRow ieee monday "Pub" 2 30%float 1 30%float;
       @Build_TypeWeekRow ieee monday "Restaurant" 1 15%float 1 15%float ]).
Proof. vm_compute. reflexivity. Qed.

(** In doubles the revenues of a week need not add up to its spending:
    a spending of 0.9 is split into 0.6 and 0.3, whose sum is
    0.8999999999999999 (a decimal stands for the double nearest to
    it). *)
Example week_revenues_need_not_add_up :
  let out :=
    output (F := ieee) (S := key_sorter) checkins small_purchase venues in
  map total_revenue out = [0.6; 0.3]%float :> list float /\
  week_spending (financial_venue small_purchase) monday = 0.9%float :> float /\
  PrimFloat.add 0.6 0.3 = 0.8999999999999999%float /\
  PrimFloat.eqb (PrimFloat.add 0.6 0.3) 0.9 = false.
Proof. vm_compute. repeat split. Qed.

End RevenueScenario.

Module VenueKeyFacts.
Import Revenue RevenueFacts VenueWeekFacts RevenueShareFacts.

Definition typed_key (r : TypedRow) : Key := (ty_week r, ty_venueId r).

Lemma filter_by_id (venues : list VenueRow) (v : VenueRow) :
  NoDup (map v_venueId venues) -> In v venues ->
  filter (fun x => (v_venueId x =? v_venueId v)%Z) venues = [v].
Proof.
  induction venues as [|y t IH]; cbn [map filter In]; intros Hnd Hin;
    [destruct Hin|].
  inversion Hnd as [|? ? Hy Ht]; subst.
  assert (Hnone : forall l, ~ In (v_venueId v) (map v_venueId l) ->
                            filter (fun x => (v_venueId x =? v_venueId v)%Z) l
                            = []).
  { intros l Hl. induction l as [|z l IHl]; cbn [filter]; [reflexivity|].
    destruct (v_venueId z =? v_venueId v)%Z eqn:E.
    - apply Z.eqb_eq in E. exfalso. apply Hl. left. exact E.
    - apply IHl. intros H. apply Hl. right. exact H. }
  destruct Hin as [->|Hin].
  - rewrite Z.eqb_refl. f_equal. apply Hnone. exact Hy.
  - destruct (v_venueId y =? v_venueId v)%Z eqn:E.
    + apply Z.eqb_eq in E. exfalso. apply Hy. rewrite E.
      now apply in_map.
    + now apply IH.
Qed.

Lemma flat_map_keys (A B : Type) (f : A -> list B) (kA : A -> Key)
      (kB : B -> Key) (l : list A) :
  (forall a, In a l -> exists b, f a = [b] /\ kB b = kA a) ->
  map kB (flat_map f l) = map kA l.
Proof.
  induction l as [|x t IH]; intros H; cbn [flat_map map]; [reflexivity|].
  destruct (H x (or_introl eq_refl)) as (b & -> & Hb).
  cbn [app map]. rewrite Hb. f_equal. apply IH.
  intros a Ha. apply H. now right.
Qed.

(** A check-in that passes the filter is at a pub or a restaurant of
    Venues.csv. *)
Lemma filtered_venue (checkins : list CheckinRow) (venues : list VenueRow)
      (c : CheckinRow) :
  In c (checkins_filtered checkins venues) ->
  exists v, In v (pub_restaurant_venues venues) /\
            v_venueId v = ck_venueId c.
Proof.
  unfold checkins_filtered. intros H. apply filter_In in H.
  destruct H as [_ H]. apply existsb_exists in H.
  destruct H as (z & Hz & E). apply Z.eqb_eq in E.
  unfold venue_ids in Hz. apply in_map_iff in Hz.
  destruct Hz as (v & Hv & Hin). exists v. split; [exact Hin|congruence].
Qed.

(** With distinct venue ids the typed table has one row per key of the
    traffic table. *)
Lemma typed_keys (checkins : list CheckinRow) (venues : list VenueRow) :
  NoDup (venue_ids venues) ->
  map typed_key (typed_table checkins venues) =
  group_keys (map checkin_key (checkins_filtered checkins venues)).
Proof.
  intros Hnd. unfold typed_table, weekly_traffic_with_type.
  rewrite (@flat_map_keys _ _ _ (fun t => (tr_week t, tr_venueId t))
             typed_key).
  - rewrite weekly_traffic_rows, map_map. cbn [traffic_row tr_week tr_venueId].
    rewrite <- (map_id (group_keys _)) at 2. apply map_ext.
    intros [a b]. reflexivity.
  - intros t Ht. apply traffic_row_In in Ht.
    destruct Ht as (c & Hc & Hkey & _ & _).
    destruct (filtered_venue _ _ _ Hc) as (v & Hv & Hid).
    assert (Hv' : v_venueId v = tr_venueId t).
    { rewrite Hid. unfold checkin_key in Hkey. congruence. }
    rewrite <- Hv'. rewrite (filter_by_id _ v Hnd Hv).
    cbn [map]. eexists. split; [reflexivity|].
    unfold typed_key. cbn [ty_week ty_venueId]. now rewrite Hv'.
Qed.

Lemma output_keys_perm (F : Float64) (S : PairSorter) (checkins : list CheckinRow)
      (financial : list FinancialRow) (venues : list VenueRow) :
  Permutation (map output_key (output checkins financial venues))
              (map typed_key (typed_table checkins venues)).
Proof.
  eapply perm_trans.
  - apply Permutation_map. apply output_perm.
  - rewrite map_map. apply Permutation_refl.
Qed.

Lemma key_lt_of_le (a b : Key) :
  key_leb a b = true -> a <> b -> key_ltb a b = true.
Proof.
  destruct a as [a1 a2], b as [b1 b2]. unfold key_leb, key_ltb. cbn [fst snd].
  rewrite negb_true_iff, orb_false_iff, andb_false_iff, orb_true_iff,
    andb_true_iff, !Z.ltb_ge, !Z.ltb_lt, Z.eqb_neq, Z.eqb_eq.
  intros [H1 H2] Hne.
  assert (a1 <> b1 \/ a2 <> b2)%Z
    by (destruct (Z.eq_dec a1 b1); [right; congruence|now left]).
  lia.
Qed.

Lemma sorted_strictly (A : Type) (key : A -> Key) (l : list A) :
  StronglySorted (fun a b => key_leb (key a) (key b) = true) l ->
  NoDup (map key l) ->
  StronglySorted (fun a b => key_ltb (key a) (key b) = true) l.
Proof.
  induction 1 as [|x t Ht IH Hx]; cbn [map]; intros Hnd; constructor.
  - apply IH. now inversion Hnd.
  - inversion Hnd as [|? ? Hx' _]; subst.
    rewrite Forall_forall in *. intros y Hy.
    apply key_lt_of_le; [now apply Hx|].
    intros E. apply Hx'. rewrite E. now apply in_map.
Qed.

End VenueKeyFacts.

Module VenueKeyProperties.
Import Revenue RevenueFacts VenueWeekFacts RevenueShareFacts VenueKeyFacts.
Import RevenueScenario.

(** X23. When no two pubs or restaurants of Venues.csv share a venue id,
    the per-venue table is in strictly increasing order of week and then
    venue id: it has one row for a venue in a week. *)
Theorem one_row_per_venue_and_week
    (F : Float64) (S : PairSorter) (checkins : list CheckinRow)
    (financial : list FinancialRow) (venues : list VenueRow) :
  NoDup (venue_ids venues) ->
  StronglySorted
    (fun a b => key_ltb (week a, venueId a) (week b, venueId b) = true)
    (output checkins financial venues).
Proof.
  intros Hnd.
  apply (@sorted_strictly _ output_key).
  - unfold output. cbv zeta. apply sort_values2_sorted.
  - apply (Permutation_NoDup
             (Permutation_sym (output_keys_perm S checkins financial venues))).
    rewrite typed_keys by exact Hnd. apply group_keys_NoDup.
Qed.

Lemma one_row_per_venue_and_week_witness :
  NoDup (venue_ids venues) /\
  StronglySorted
    (fun a b => key_ltb (week a, venueId a) (week b, venueId b) = true)
    (output (F := ieee) (S := key_sorter) checkins financial venues).
Proof.
  assert (H : NoDup (venue_ids venues)).
  { vm_compute. repeat constructor; cbn [In]; intros H;
      repeat (destruct H as [H|H]; [discriminate H|]); exact H. }
  split; [exact H|].
  exact (@one_row_per_venue_and_week ieee key_sorter checkins financial venues H).
Defined.

(** X24. A check-in of the journal at a pub or a restaurant of Venues.csv
    is counted: the per-venue table has a row for the venue in the week of
    the check-in. *)
Theorem visited_venue_has_a_row
    (F : Float64) (S : PairSorter) (checkins : list CheckinRow)
    (financial : list FinancialRow) (venues : list VenueRow)
    (c : CheckinRow) (v : VenueRow) :
  In c checkins -> In v venues ->
  v_venueId v = ck_venueId c ->
  v_type v = Some "Pub"%string \/ v_type v = Some "Restaurant"%string ->
  exists r, In r (output checkins financial venues) /\
            week r = week_start (ck_timestamp c) /\
            venueId r = ck_venueId c.
Proof.
  intros Hc Hv Hid Hty.
  assert (Hpr : In v (pub_restaurant_venues venues)).
  { apply filter_In. split; [exact Hv|].
    destruct Hty as [-> | ->]; reflexivity. }
  assert (Hf : In c (checkins_filtered checkins venues)).
  { apply filter_In. split; [exact Hc|]. apply existsb_exists.
    exists (v_venueId v). split.
    - unfold venue_ids. now apply in_map.
    - apply Z.eqb_eq. congruence. }
  set (filtered := checkins_filtered checkins venues) in *.
  assert (Ht : In (traffic_row filtered (checkin_key c))
                  (weekly_traffic filtered)).
  { rewrite weekly_traffic_rows. apply in_map. apply group_keys_In.
    now apply in_map. }
  set (t := traffic_row filtered (checkin_key c)) in *.
  assert (Hr : exists r, In r (typed_table checkins venues) /\
                         ty_week r = week_start (ck_timestamp c) /\
                         ty_venueId r = ck_venueId c).
  { unfold typed_table, weekly_traffic_with_type. fold filtered.
    destruct (filter (fun v0 => (v_venueId v0 =? tr_venueId t)%Z)
                     (pub_restaurant_venues venues)) as [|m ms] eqn:E.
    - eexists. split.
      + apply in_flat_map. exists t. split; [exact Ht|].
        rewrite E. left. reflexivity.
      + split; reflexivity.
    - eexists. split.
      + apply in_flat_map. exists t. split; [exact Ht|].
        rewrite E. left. reflexivity.
      + split; reflexivity. }
  destruct Hr as (r & Hr & Hw & Hi).
  exists (output_row (typed_table checkins venues)
                     (financial_venue financial) r).
  split.
  - apply (Permutation_in _
             (Permutation_sym (output_perm S checkins financial venues))).
    now apply in_map.
  - split; [exact Hw|exact Hi].
Qed.

Lemma visited_venue_has_a_row_witness :
  exists r, In r (output (F := ieee) (S := key_sorter) checkins financial venues) /\
            week r = monday /\ venueId r = 1%Z.
Proof.
  refine (@visited_venue_has_a_row ieee key_sorter checkins financial venues
            {| ck_timestamp := at_hour 2022 3 9 12; ck_venueId := 1 |}
            {| v_venueId := 1; v_type := Some "Pub"%string |}
            _ _ _ _).
  - left. reflexivity.
  - left. reflexivity.
  - reflexivity.
  - left. reflexivity.
Defined.

End VenueKeyProperties.
